(** * nise: the static OCP settings generator

    A shallow embedding of [utility/generate_static_ocp_settings.py] and the
    properties of its data-synthesis engine, of its configuration handling and
    of its command-line handling.

    The Python module keeps two module-level sets ([SEEN_NAMES],
    [SEEN_RESOURCE_IDS]) and one module-level [FAKER] object.  They are
    modelled as an explicit world which every effectful function threads
    through; exceptions are an explicit outcome and the unbounded
    [while True] loop of [generate_name] is run with fuel. *)

From Stdlib Require Import ZArith Lia Ascii String.
From stdpp Require Import gmap strings list fin_maps.

Open Scope string_scope.
Open Scope list_scope.
Open Scope Z_scope.

Set Warnings "-clear-no-such-hyp".

(** ** Python primitives used by the module *)

Module Py.

(** Truthiness of a [str]: the empty string is falsy. *)
Definition truthy (s : string) : bool :=
  match s with
  | EmptyString => false
  | String _ _ => true
  end.

(** [sep.join(parts)] *)
Fixpoint join (sep : string) (parts : list string) : string :=
  match parts with
  | [] => ""
  | [p] => p
  | p :: rest => p +:+ sep +:+ join sep rest
  end.

Definition dash : ascii := "-"%char.

(** [re.compile("-+").sub("-", s)]: every maximal run of hyphens becomes a
    single hyphen. *)
Fixpoint sub_dashes (s : string) : string :=
  match s with
  | EmptyString => EmptyString
  | String c rest =>
      if Ascii.eqb c dash then
        match rest with
        | String c' _ => if Ascii.eqb c' dash then sub_dashes rest
                         else String c (sub_dashes rest)
        | EmptyString => String c EmptyString
        end
      else String c (sub_dashes rest)
  end.

Definition digit_char (d : Z) : ascii := ascii_of_nat (48 + Z.to_nat d).

(** The decimal digits of a non-negative integer, most significant first,
    pushed in front of [acc].  [fuel] bounds the number of divisions. *)
Fixpoint digits (fuel : nat) (n : Z) (acc : string) : string :=
  let acc' := String (digit_char (n mod 10)) acc in
  match fuel with
  | O => acc'
  | S fuel' => if n <? 10 then acc' else digits fuel' (n / 10) acc'
  end.

(** [str(n)] for an [int]. *)
Definition str (n : Z) : string :=
  if n <? 0 then String dash (digits (Z.to_nat (Z.log2 (- n))) (- n) "")
  else digits (Z.to_nat (Z.log2 n)) n "".

Fixpoint zeros (k : nat) : string :=
  match k with
  | O => ""
  | S k' => String "0"%char (zeros k')
  end.

(** [s.zfill(width)]: left-pad with ["0"] up to [width]; a leading sign
    stays in front of the padding; longer strings are returned unchanged. *)
Definition zfill (width : Z) (s : string) : string :=
  let pad := zeros (Z.to_nat (width - Z.of_nat (String.length s))) in
  match s with
  | String c rest =>
      if Ascii.eqb c dash || Ascii.eqb c "+"%char
      then String c (pad +:+ rest)
      else pad +:+ s
  | EmptyString => pad
  end.

(** [range(n)] *)
Definition range (n : Z) : list Z := Z.of_nat <$> seq 0 (Z.to_nat n).

(** [l[i]] with Python's negative indices; [None] stands for [IndexError]. *)
Definition getitem {A} (l : list A) (i : Z) : option A :=
  let len := Z.of_nat (length l) in
  if 0 <=? i then l !! Z.to_nat i
  else if 0 <=? len + i then l !! Z.to_nat (len + i)
  else None.

End Py.

(** ** Outcomes and the world *)

Inductive exn : Type :=
| FileNotFoundError (msg : string)
| DateRangeArgsError (msg : string)
| TypeError (msg : string)
| ValueError
| IndexError
| ParserError
| KeyError (key : string).

(** A call either returns, raises, or is still looping when the fuel of some
    [while True] loop ran out. *)
Inductive outcome (A : Type) : Type :=
| Ok (a : A)
| Raise (e : exn)
| Diverge.
Arguments Ok {A} a.
Arguments Raise {A} e.
Arguments Diverge {A}.

(** [FAKER = faker.Faker()] is an external collaborator.  Its generator state
    is [R]; [words] never fails, [random_int] may raise (an empty range). *)
Class Faker (R : Type) : Type := {
  words : Z -> R -> list string * R;
  random_int : Z -> Z -> Z -> R -> option (Z * R);
}.

(** What the module relies on: [words(nb)] has [nb] elements and, for a
    positive step, [random_int(min, max, step)] lies in the inclusive range,
    on the grid [min, min + step, min + 2 * step, ...]. *)
Class FakerSpec (R : Type) `{Faker R} : Prop := {
  words_length : forall nb r, 0 <= nb -> length (words nb r).1 = Z.to_nat nb;
  random_int_range : forall lo hi step r v r',
    0 < step -> random_int lo hi step r = Some (v, r') -> lo <= v <= hi;
  random_int_step : forall lo hi step r v r',
    0 < step -> random_int lo hi step r = Some (v, r') ->
    exists k, 0 <= k /\ v = lo + k * step;
}.

(** A word has neither of the two delimiters of a label string inside, the
    pipe and the colon. *)
Definition plain_char (c : ascii) : bool :=
  negb (Ascii.eqb c "|"%char) && negb (Ascii.eqb c ":"%char).

Fixpoint plain_word (s : string) : bool :=
  match s with
  | EmptyString => true
  | String c rest => plain_char c && plain_word rest
  end.

(** What the label format relies on: [words] gives words. *)
Class PlainWords (R : Type) `{Faker R} : Prop := {
  words_plain : forall nb r, Forall (fun s => plain_word s = true) (words nb r).1;
}.

Inductive cache_id : Type := SEEN_NAMES | SEEN_RESOURCE_IDS.

Record world (R : Type) : Type := World {
  rng : R;
  seen_names : gset string;
  seen_resource_ids : gset string;
}.
Arguments World {R}.
Arguments rng {R}.
Arguments seen_names {R}.
Arguments seen_resource_ids {R}.

Definition M (R A : Type) : Type := world R -> outcome (A * world R).

Definition ret {R A} (a : A) : M R A := fun w => Ok (a, w).

Definition bind {R A B} (m : M R A) (f : A -> M R B) : M R B :=
  fun w =>
    match m w with
    | Ok (a, w') => f a w'
    | Raise e => Raise e
    | Diverge => Diverge
    end.

Definition raise {R A} (e : exn) : M R A := fun _ => Raise e.

Notation "'let*' x ':=' m 'in' k" := (bind m (fun x => k))
  (at level 10, x name, m at level 100, k at level 200).

(** [for x in xs: ...] where every iteration appends one item to a list. *)
Fixpoint for_each {R A B} (xs : list A) (body : A -> M R B) : M R (list B) :=
  match xs with
  | [] => ret []
  | x :: rest =>
      let* b := body x in
      let* bs := for_each rest body in
      ret (b :: bs)
  end.

Section Generators.
Context {R : Type} `{Faker R}.

Definition FAKER_words (nb : Z) : M R (list string) :=
  fun w => let '(ws, r) := words nb (rng w) in
           Ok (ws, World r (seen_names w) (seen_resource_ids w)).

Definition FAKER_random_int (lo hi step : Z) : M R Z :=
  fun w => match random_int lo hi step (rng w) with
           | Some (v, r) => Ok (v, World r (seen_names w) (seen_resource_ids w))
           | None => Raise ValueError
           end.

Definition cache_contains (c : cache_id) (s : string) : M R bool :=
  fun w => Ok (match c with
               | SEEN_NAMES => bool_decide (s ∈ seen_names w)
               | SEEN_RESOURCE_IDS => bool_decide (s ∈ seen_resource_ids w)
               end, w).

Definition cache_add (c : cache_id) (s : string) : M R unit :=
  fun w => Ok (tt, match c with
                   | SEEN_NAMES =>
                       World (rng w) ({[ s ]} ∪ seen_names w) (seen_resource_ids w)
                   | SEEN_RESOURCE_IDS =>
                       World (rng w) (seen_names w) ({[ s ]} ∪ seen_resource_ids w)
                   end).


Definition diverge {A} : M R A := fun _ => Diverge.

End Generators.

(** ** The data model *)

(** [datetime.date]; [str] of a date is its ISO form. *)
Record date : Type := Date { year : Z; month : Z; day : Z }.

Definition str_date (d : date) : string :=
  Py.zfill 4 (Py.str (year d)) +:+ "-" +:+ Py.zfill 2 (Py.str (month d))
  +:+ "-" +:+ Py.zfill 2 (Py.str (day d)).

(** The configuration as [build_data] reads it: every known key present and
    of the type [validate_config] declares for it.  (A date that the settings
    file gives as text is stored as a [datetime], whose [str] also shows the
    time of day; [build_data] only copies the two date strings.) *)
Module Config.
Record t : Type := mk {
  start_date : date;
  end_date : date;
  storage_classes : list string;
  max_name_words : Z;
  max_resource_id_length : Z;
  max_nodes : Z;
  max_node_cpu_cores : Z;
  max_node_memory_gig : Z;
  max_node_namespaces : Z;
  max_node_namespace_pods : Z;
  min_node_namespace_pod_seconds : Z;
  max_node_namespace_pod_seconds : Z;
  max_node_namespace_pod_labels : Z;
  max_node_namespace_volumes : Z;
  max_node_namespace_volume_request_gig : Z;
  max_node_namespace_volume_labels : Z;
  max_node_namespace_volume_volume_claims : Z;
  max_node_namespace_volume_volume_claim_labels : Z;
  max_node_namespace_volume_volume_claim_capacity_gig : Z;
}.
End Config.

Module Pod.
Record t : Type := mk {
  name : string;
  cpu_request : Z;
  mem_request_gig : Z;
  cpu_limit : Z;
  mem_limit_gig : Z;
  pod_seconds : Z;
  labels : string;
}.
End Pod.

Module VolumeClaim.
Record t : Type := mk {
  name : string;
  pod_name : string;
  labels : string;
  capacity_gig : Z;
}.
End VolumeClaim.

Module Volume.
Record t : Type := mk {
  name : string;
  storage_class : string;
  volume_request_gig : Z;
  labels : string;
  volume_claims : list VolumeClaim.t;
}.
End Volume.

Module Namespace.
Record t : Type := mk {
  name : string;
  pods : list Pod.t;
  volumes : list Volume.t;
}.
End Namespace.

Module Node.
Record t : Type := mk {
  name : string;
  cpu_cores : Z;
  memory_gig : Z;
  resource_id : string;
  namespaces : list Namespace.t;
}.
End Node.

Module Dataset.
Record t : Type := mk {
  start_date : string;
  end_date : string;
  nodes : list Node.t;
}.
End Dataset.

(** [(config.max_node_namespace_pod_seconds // 10) or 1800] *)
Definition pod_seconds_step (config : Config.t) : Z :=
  let q := Config.max_node_namespace_pod_seconds config / 10 in
  if q =? 0 then 1800 else q.

(** ** The generators *)

Section Engine.
Context {R : Type} `{Faker R}.

(** ["-".join(FAKER.words(config.max_name_words))] *)
Definition generate_words (config : Config.t) : M R string :=
  let* ws := FAKER_words (Config.max_name_words config) in
  ret (Py.join "-" ws).

(** [str(FAKER.random_int(0, 10 ** L)).zfill(L)] with
    [L = config.max_resource_id_length].  For a negative [L] the bound
    [10 ** L] is a float, which [randrange] rejects (with a [ValueError] or
    a [TypeError], depending on the interpreter). *)
Definition generate_number_str (config : Config.t) : M R string :=
  let L := Config.max_resource_id_length config in
  if L <? 0 then raise ValueError
  else
    let* n := FAKER_random_int 0 (10 ^ L) 1 in
    ret (Py.zfill L (Py.str n)).

(** The [while True] loop of [generate_name]; [prefix] and [suffix] are
    re-bound on every iteration, as in the source. *)
Fixpoint generate_name_loop (fuel : nat) (config : Config.t)
    (prefix suffix : string) (dynamic : bool)
    (generator : Config.t -> M R string) (cache : cache_id) : M R string :=
  match fuel with
  | O => diverge
  | S fuel' =>
      let prefix := if Py.truthy prefix then prefix +:+ "-" else prefix in
      let suffix := if Py.truthy suffix then "-" +:+ suffix else suffix in
      let* mid := (if dynamic then generator config else ret "") in
      let new_name := prefix +:+ mid +:+ suffix in
      let* seen := cache_contains cache new_name in
      if negb seen then
        let* _ := cache_add cache new_name in
        ret new_name
      else generate_name_loop fuel' config prefix suffix dynamic generator cache
  end.

Definition generate_name (fuel : nat) (config : Config.t)
    (prefix suffix : string) (dynamic : bool)
    (generator : Config.t -> M R string) (cache : cache_id) : M R string :=
  let* new_name :=
    generate_name_loop fuel config prefix suffix dynamic generator cache in
  ret (Py.sub_dashes new_name).

Definition generate_resource_id (fuel : nat) (config : Config.t)
    (prefix suffix : string) (dynamic : bool) : M R string :=
  generate_name fuel config prefix suffix dynamic generate_number_str
    SEEN_RESOURCE_IDS.

Definition label_of (e : string * string) : string :=
  "label_" +:+ e.1 +:+ ":" +:+ e.2.

(** ["|".join(f"label_{e[0]}:{e[1]}" for e in zip(words(n), words(n)))] *)
Definition generate_labels (num_labels : Z) : M R string :=
  let* ks := FAKER_words num_labels in
  let* vs := FAKER_words num_labels in
  ret (Py.join "|" (label_of <$> zip ks vs)).

(** [FAKER.random_int(1, bound) if _random else bound] *)
Definition pick (_random : bool) (bound : Z) : M R Z :=
  if _random then FAKER_random_int 1 bound 1 else ret bound.

(** [l[i]], raising [IndexError] out of range. *)
Definition index {A} (l : list A) (i : Z) : M R A :=
  match Py.getitem l i with
  | Some a => ret a
  | None => raise IndexError
  end.

(** ** [build_data]

    Each loop body of [build_data] is one definition; a loop returns the
    list its iterations append to.  The order of the draws and of the
    name reservations is the order of the source. *)

(** Body of [for volume_claim_ix in range(max_volume_claims)]. *)
Definition volume_claim_body (fuel : nat) (config : Config.t) (_random : bool)
    (namespace_name : string) (namespace_pods : list Pod.t)
    (volume_claim_ix : Z) : M R VolumeClaim.t :=
  let* cap :=
    pick _random (Config.max_node_namespace_volume_volume_claim_capacity_gig config) in
  let* pod :=
    index namespace_pods
      (if Z.of_nat (length namespace_pods) <=? volume_claim_ix
       then -1 else volume_claim_ix) in
  let pod_name := Pod.name pod in
  let* name :=
    generate_name fuel config (namespace_name +:+ "-vol-claim")
      (Py.str volume_claim_ix) false generate_words SEEN_NAMES in
  let* labels :=
    generate_labels (Config.max_node_namespace_volume_volume_claim_labels config) in
  ret (VolumeClaim.mk name pod_name labels cap).

(** Body of [for volume_ix in range(max_volumes)]. *)
Definition volume_body (fuel : nat) (config : Config.t) (_random : bool)
    (namespace_name : string) (namespace_pods : list Pod.t)
    (volume_ix : Z) : M R Volume.t :=
  let* storage_cls :=
    (if _random then
       let* i :=
         FAKER_random_int 0
           (Z.of_nat (length (Config.storage_classes config)) - 1) 1 in
       index (Config.storage_classes config) i
     else index (Config.storage_classes config) 0) in
  let* vol_req := pick _random (Config.max_node_namespace_volume_request_gig config) in
  let* name :=
    generate_name fuel config (namespace_name +:+ "-vol") (Py.str volume_ix)
      false generate_words SEEN_NAMES in
  let* labels := generate_labels (Config.max_node_namespace_volume_labels config) in
  let* max_volume_claims :=
    pick _random (Config.max_node_namespace_volume_volume_claims config) in
  let* volume_claims :=
    for_each (Py.range max_volume_claims)
      (volume_claim_body fuel config _random namespace_name namespace_pods) in
  ret (Volume.mk name storage_cls vol_req labels volume_claims).

(** Body of [for pod_ix in range(max_pods)]. *)
Definition pod_body (fuel : nat) (config : Config.t) (_random : bool)
    (node_cpu_cores node_memory_gig : Z) (namespace_name : string)
    (pod_ix : Z) : M R Pod.t :=
  let* cpu_req := pick _random node_cpu_cores in
  let* mem_req := pick _random node_memory_gig in
  let* cpu_lim := pick _random node_cpu_cores in
  let* mem_lim := pick _random node_memory_gig in
  let* pod_sec :=
    (if _random then
       FAKER_random_int
         (Config.min_node_namespace_pod_seconds config)
         (Config.max_node_namespace_pod_seconds config)
         (pod_seconds_step config)
     else ret (Config.max_node_namespace_pod_seconds config)) in
  let* name :=
    generate_name fuel config (namespace_name +:+ "-pod") (Py.str pod_ix)
      false generate_words SEEN_NAMES in
  let* labels := generate_labels (Config.max_node_namespace_pod_labels config) in
  ret (Pod.mk name cpu_req mem_req cpu_lim mem_lim pod_sec labels).

(** Body of [for namespace_ix in range(max_namespaces)]. *)
Definition namespace_body (fuel : nat) (config : Config.t) (_random : bool)
    (node_name : string) (node_cpu_cores node_memory_gig : Z)
    (namespace_ix : Z) : M R Namespace.t :=
  let* name := generate_name fuel config node_name "" true generate_words SEEN_NAMES in
  let* max_pods := pick _random (Config.max_node_namespace_pods config) in
  let* pods :=
    for_each (Py.range max_pods)
      (pod_body fuel config _random node_cpu_cores node_memory_gig name) in
  let* max_volumes := pick _random (Config.max_node_namespace_volumes config) in
  let* volumes :=
    for_each (Py.range max_volumes) (volume_body fuel config _random name pods) in
  ret (Namespace.mk name pods volumes).

(** Body of [for node_ix in range(max_nodes)]. *)
Definition node_body (fuel : nat) (config : Config.t) (_random : bool)
    (node_ix : Z) : M R Node.t :=
  let* cores := pick _random (Config.max_node_cpu_cores config) in
  let* memory := pick _random (Config.max_node_memory_gig config) in
  let* name := generate_name fuel config "" "" true generate_words SEEN_NAMES in
  let* resource_id := generate_resource_id fuel config "" "" true in
  let* max_namespaces := pick _random (Config.max_node_namespaces config) in
  let* namespaces :=
    for_each (Py.range max_namespaces)
      (namespace_body fuel config _random name cores memory) in
  ret (Node.mk name cores memory resource_id namespaces).

Definition build_data (fuel : nat) (config : Config.t) (_random : bool)
    : M R Dataset.t :=
  let* max_nodes := pick _random (Config.max_nodes config) in
  let* nodes := for_each (Py.range max_nodes) (node_body fuel config _random) in
  ret (Dataset.mk (str_date (Config.start_date config))
         (str_date (Config.end_date config)) nodes).

End Engine.

(** ** A scripted randomizer

    A concrete [Faker] whose draws are read off two tapes.  [random_int] is
    [random.randrange(min, max + 1, step)] with the tape value in place of
    the random index. *)
Module Script.

Record t : Type := mk { word_tape : list string; int_tape : list Z }.

Fixpoint take_words (n : nat) (tape : list string) : list string * list string :=
  match n with
  | O => ([], tape)
  | S n' =>
      match tape with
      | [] => let '(ws, tape') := take_words n' [] in ("lorem" :: ws, tape')
      | w :: rest => let '(ws, tape') := take_words n' rest in (w :: ws, tape')
      end
  end.

Definition randrange (start stop step raw : Z) : option Z :=
  let width := stop - start in
  let n := if 0 <? step then (width + step - 1) / step
           else if step <? 0 then (width + step + 1) / step
           else 0 in
  if (step =? 0) || (n <=? 0) then None
  else Some (start + step * (raw mod n)).

Definition next_int (tape : list Z) : Z * list Z :=
  match tape with
  | [] => (0, [])
  | raw :: rest => (raw, rest)
  end.

#[global] Instance faker : Faker t := {|
  words nb r :=
    let '(ws, tape') := take_words (Z.to_nat nb) (word_tape r) in
    (ws, mk tape' (int_tape r));
  random_int lo hi step r :=
    let '(raw, tape') := next_int (int_tape r) in
    match randrange lo (hi + 1) step raw with
    | Some v => Some (v, mk (word_tape r) tape')
    | None => None
    end;
|}.

Definition start (ws : list string) (ints : list Z) : world t :=
  World (mk ws ints) ∅ ∅.

End Script.

(** ** A scripted randomizer of words

    The scripted randomizer, with the delimiters of a label string taken out
    of whatever the word tape holds: its words are words on every tape. *)

Module Lexicon.

Record t : Type := mk { script : Script.t }.

Fixpoint clean (s : string) : string :=
  match s with
  | EmptyString => EmptyString
  | String c rest => if plain_char c then String c (clean rest) else clean rest
  end.

#[global] Instance faker : Faker t := {|
  words nb r :=
    let '(ws, script') := words nb (script r) in (clean <$> ws, mk script');
  random_int lo hi step r :=
    match random_int lo hi step (script r) with
    | Some (v, script') => Some (v, mk script')
    | None => None
    end;
|}.

Definition start (ws : list string) (ints : list Z) : world t :=
  World (mk (Script.mk ws ints)) ∅ ∅.

End Lexicon.

(** ** Configuration and command line *)

(** [datetime.datetime], a subclass of [datetime.date]. *)
Record datetime : Type := DateTime {
  dt_date : date;   (* [.date()] *)
  dt_hour : Z;
  dt_minute : Z;
  dt_second : Z;
}.

(** The objects a configuration value can be (what [yaml.safe_load] builds,
    and the dates the module itself stores). *)
#[warnings="-register-all"]
Inductive value : Type :=
| VNone
| VBool (b : bool)
| VInt (n : Z)
| VFloat (bits : Z)
| VStr (s : string)
| VDate (d : date)
| VDateTime (dt : datetime)
| VList (items : list value)
| VDict (items : list (string * value)).

(** The three classes [validate_config] checks against. *)
Inductive pytype : Type := T_date | T_list | T_int.

(** [cls.__name__] *)
Definition type_name (t : pytype) : string :=
  match t with
  | T_date => "date"
  | T_list => "list"
  | T_int => "int"
  end.

(** [isinstance(v, cls)]: a [datetime] is a [date] and a [bool] is an [int]. *)
Definition isinstance (v : value) (t : pytype) : bool :=
  match t, v with
  | T_date, VDate _ => true
  | T_date, VDateTime _ => true
  | T_list, VList _ => true
  | T_int, VInt _ => true
  | T_int, VBool _ => true
  | _, _ => false
  end.

(** Pure code that may raise. *)
Definition and_then {A B} (m : outcome A) (f : A -> outcome B) : outcome B :=
  match m with
  | Ok a => f a
  | Raise e => Raise e
  | Diverge => Diverge
  end.

Notation "'let?' x ':=' m 'in' k" := (and_then m (fun x => k))
  (at level 10, x name, m at level 100, k at level 200).

(** [calendar.monthrange(year, month)[1]] *)
Definition is_leap (y : Z) : bool :=
  (y mod 4 =? 0) && (negb (y mod 100 =? 0) || (y mod 400 =? 0)).

Definition last_day_of_month (y m : Z) : Z :=
  if m =? 2 then (if is_leap y then 29 else 28)
  else if (m =? 4) || (m =? 6) || (m =? 9) || (m =? 11) then 30
  else 31.

(** [d.replace(day=1) - relativedelta(months=1)] *)
Definition first_day_of_last_month (d : date) : date :=
  if month d =? 1 then Date (year d - 1) 12 1 else Date (year d) (month d - 1) 1.

(** [default_config()], with [date.today()] as an argument. *)
Definition default_config (today : date) : gmap string value :=
  list_to_map [
    ("start_date", VDate (first_day_of_last_month today));
    ("end_date",
      VDate (Date (year today) (month today)
               (last_day_of_month (year today) (month today))));
    ("storage_classes", VList [VStr "gp2"]);
    ("max_name_words", VInt 2);
    ("max_resource_id_length", VInt 10);
    ("max_nodes", VInt 1);
    ("max_node_cpu_cores", VInt 1);
    ("max_node_memory_gig", VInt 2);
    ("max_node_namespaces", VInt 1);
    ("max_node_namespace_pods", VInt 1);
    ("min_node_namespace_pod_seconds", VInt 300);
    ("max_node_namespace_pod_seconds", VInt 3600);
    ("max_node_namespace_pod_labels", VInt 1);
    ("max_node_namespace_volumes", VInt 1);
    ("max_node_namespace_volume_request_gig", VInt 20);
    ("max_node_namespace_volume_labels", VInt 1);
    ("max_node_namespace_volume_volume_claims", VInt 1);
    ("max_node_namespace_volume_volume_claim_labels", VInt 1);
    ("max_node_namespace_volume_volume_claim_capacity_gig", VInt 20)
  ].

(** The [validator] table of [validate_config], in its source order. *)
Definition validator : list (string * pytype) := [
  ("start_date", T_date);
  ("end_date", T_date);
  ("storage_classes", T_list);
  ("max_name_words", T_int);
  ("max_resource_id_length", T_int);
  ("max_nodes", T_int);
  ("max_node_cpu_cores", T_int);
  ("max_node_memory_gig", T_int);
  ("max_node_namespaces", T_int);
  ("max_node_namespace_pods", T_int);
  ("min_node_namespace_pod_seconds", T_int);
  ("max_node_namespace_pod_seconds", T_int);
  ("max_node_namespace_pod_labels", T_int);
  ("max_node_namespace_volumes", T_int);
  ("max_node_namespace_volume_request_gig", T_int);
  ("max_node_namespace_volume_labels", T_int);
  ("max_node_namespace_volume_volume_claims", T_int);
  ("max_node_namespace_volume_volume_claim_labels", T_int);
  ("max_node_namespace_volume_volume_claim_capacity_gig", T_int)
].

(** [os.linesep] on a POSIX system. *)
Definition linesep : string := String (ascii_of_nat 10) EmptyString.

(** [k in config and not isinstance(config[k], validator[k])] *)
Definition mismatch (config : gmap string value) (entry : string * pytype) : bool :=
  match config !! entry.1 with
  | Some v => negb (isinstance v entry.2)
  | None => false
  end.

(** [f"{k} Must be of type {validator[k].__name__}"] *)
Definition complaint (entry : string * pytype) : string :=
  entry.1 +:+ " Must be of type " +:+ type_name entry.2.

Definition validate_config (config : gmap string value) : outcome bool :=
  let result := complaint <$> List.filter (mismatch config) validator in
  match result with
  | [] => Ok true
  | _ :: _ => Raise (TypeError (Py.join linesep result))
  end.

(** The [argparse] namespace.  [D] is the type of the two date arguments: a
    [str] as parsed from the command line, a [date] once [handle_args] has
    converted them. *)
Record args (D : Type) : Type := Args {
  output_file_name : option string;
  config_file_name : option string;
  template_file_name : string;
  start_date : option D;
  end_date : option D;
  num_nodes : option Z;
  random : bool;
}.
Arguments Args {D}.
Arguments output_file_name {D}.
Arguments config_file_name {D}.
Arguments template_file_name {D}.
Arguments start_date {D}.
Arguments end_date {D}.
Arguments num_nodes {D}.
Arguments random {D}.

(** Truthiness of an optional [str] argument: [None] and [""] are falsy. *)
Definition given (a : option string) : bool :=
  match a with
  | Some s => Py.truthy s
  | None => false
  end.

Definition quoted (s : string) : string :=
  let q := String (ascii_of_nat 34) EmptyString in q +:+ s +:+ q.

Section CommandLine.
(** [os.path.exists], [dateutil.parser.parse] ([None]: it raised), and
    reading a settings file with [yaml.safe_load] into a mapping. *)
Variable path_exists : string -> bool.
Variable parse : string -> option datetime.
Variable load_settings : string -> outcome (gmap string value).

(** [if a: a = parse(a).date()]; a falsy argument is left as it is, which
    [init_config] treats like [None]. *)
Definition date_arg (a : option string) : outcome (option date) :=
  match a with
  | Some s =>
      if Py.truthy s then
        match parse s with
        | Some dt => Ok (Some (dt_date dt))
        | None => Raise ParserError
        end
      else Ok None
  | None => Ok None
  end.

Definition handle_args (a : args string) : outcome (args date) :=
  if given (config_file_name a)
     && negb (path_exists (default "" (config_file_name a)))
  then Raise (FileNotFoundError
                ("Cannot find file " +:+ quoted (default "" (config_file_name a))))
  else if negb (path_exists (template_file_name a))
  then Raise (FileNotFoundError
                ("Cannot find file " +:+ quoted (template_file_name a)))
  else if Z.b2z (given (start_date a)) + Z.b2z (given (end_date a)) =? 1
  then Raise (DateRangeArgsError "The full date range must be supplied or omitted.")
  else
    let? start := date_arg (start_date a) in
    let? end_ := date_arg (end_date a) in
    let num_nodes :=
      match num_nodes a with
      | Some n => if n <? 1 then None else Some n
      | None => None
      end in
    Ok (Args (output_file_name a) (config_file_name a) (template_file_name a)
          start end_ num_nodes (random a)).

(** [if isinstance(config.k, str): config.k = parse(config.k)] *)
Definition parse_if_str (key : string) (config : gmap string value)
    : outcome (gmap string value) :=
  match config !! key with
  | Some (VStr s) =>
      match parse s with
      | Some dt => Ok (<[key := VDateTime dt]> config)
      | None => Raise ParserError
      end
  | Some _ => Ok config
  | None => Raise (KeyError key)
  end.

Definition init_config (today : date) (a : args date)
    : outcome (gmap string value) :=
  let config := default_config today in
  let? config :=
    (if given (config_file_name a) then
       let? config_settings := load_settings (default "" (config_file_name a)) in
       Ok (config_settings ∪ config)
     else Ok config) in
  let config :=
    match start_date a with
    | Some d => <["start_date" := VDate d]> config
    | None => config
    end in
  let? config := parse_if_str "start_date" config in
  let config :=
    match end_date a with
    | Some d => <["end_date" := VDate d]> config
    | None => config
    end in
  let? config := parse_if_str "end_date" config in
  let config :=
    match num_nodes a with
    | Some n => if n =? 0 then config else <["max_nodes" := VInt n]> config
    | None => config
    end in
  let? _ := validate_config config in
  Ok config.

End CommandLine.

(** ** Specification vocabulary *)

(** [ensures m Q]: whenever [m] returns, its result satisfies [Q]. *)
Definition ensures {R A} (m : M R A) (Q : A -> Prop) : Prop :=
  forall w a w', m w = Ok (a, w') -> Q a.

(** The number of children a loop over [range(pick _random bound)] builds. *)
Definition count_ok (_random : bool) (bound : Z) (n : nat) : Prop :=
  if _random then 1 <= Z.of_nat n <= bound else n = Z.to_nat bound.

(** The same, for a bound that is a count (not negative). *)
Definition children_ok (_random : bool) (bound : Z) (n : nat) : Prop :=
  if _random then 1 <= Z.of_nat n <= bound else Z.of_nat n = bound.

(** A label string made of exactly [n] pairs [label_<word>:<word>], joined
    with pipes. *)
Definition has_labels (n : Z) (s : string) : Prop :=
  exists pairs : list (string * string),
    length pairs = Z.to_nat n /\ s = Py.join "|" (label_of <$> pairs).

Definition labels_ok (n : Z) (s : string) : Prop := 0 <= n -> has_labels n s.

(** The label string of a list of pairs, written out: [label_<word>:<word>]
    for each pair, with a pipe between two pairs. *)
Fixpoint label_text (pairs : list (string * string)) : string :=
  match pairs with
  | [] => ""
  | (k, v) :: rest =>
      match rest with
      | [] => "label_" +:+ k +:+ ":" +:+ v
      | _ :: _ => "label_" +:+ k +:+ ":" +:+ v +:+ "|" +:+ label_text rest
      end
  end.

Fixpoint count_char (c : ascii) (s : string) : nat :=
  match s with
  | EmptyString => 0
  | String a rest => (if Ascii.eqb a c then 1 else 0) + count_char c rest
  end.

(** The number of pipe-delimited items of a label string: none in the empty
    string, otherwise one more than there are pipes. *)
Definition count_pairs (s : string) : nat :=
  match s with
  | EmptyString => 0
  | String _ _ => S (count_char "|"%char s)
  end.

(** A label string of exactly [n] pipe-delimited pairs [label_<word>:<word>]. *)
Definition exactly_labels (n : Z) (s : string) : Prop :=
  count_pairs s = Z.to_nat n /\
  exists pairs : list (string * string),
    length pairs = Z.to_nat n /\
    Forall (fun p => plain_word p.1 = true /\ plain_word p.2 = true) pairs /\
    s = label_text pairs.

Definition claim_labels_ok (config : Config.t) (vc : VolumeClaim.t) : Prop :=
  exactly_labels (Config.max_node_namespace_volume_volume_claim_labels config)
    (VolumeClaim.labels vc).

Definition volume_labels_ok (config : Config.t) (v : Volume.t) : Prop :=
  exactly_labels (Config.max_node_namespace_volume_labels config) (Volume.labels v) /\
  Forall (claim_labels_ok config) (Volume.volume_claims v).

Definition pod_labels_ok (config : Config.t) (p : Pod.t) : Prop :=
  exactly_labels (Config.max_node_namespace_pod_labels config) (Pod.labels p).

Definition namespace_labels_ok (config : Config.t) (ns : Namespace.t) : Prop :=
  Forall (pod_labels_ok config) (Namespace.pods ns) /\
  Forall (volume_labels_ok config) (Namespace.volumes ns).

Definition node_labels_ok (config : Config.t) (node : Node.t) : Prop :=
  Forall (namespace_labels_ok config) (Node.namespaces node).

Definition pod_numeric_ok (_random : bool) (cores memory : Z) (p : Pod.t) : Prop :=
  if _random then
    (1 <= Pod.cpu_request p <= cores /\ 1 <= Pod.cpu_limit p <= cores) /\
    (1 <= Pod.mem_request_gig p <= memory /\ 1 <= Pod.mem_limit_gig p <= memory)
  else
    (Pod.cpu_request p = cores /\ Pod.cpu_limit p = cores) /\
    (Pod.mem_request_gig p = memory /\ Pod.mem_limit_gig p = memory).

Definition pod_seconds_ok (_random : bool) (config : Config.t) (sec : Z) : Prop :=
  if _random then
    Config.min_node_namespace_pod_seconds config <= sec
      <= Config.max_node_namespace_pod_seconds config /\
    exists k, 0 <= k /\
      sec = Config.min_node_namespace_pod_seconds config + k * pod_seconds_step config
  else sec = Config.max_node_namespace_pod_seconds config.

Definition pod_ok (_random : bool) (config : Config.t) (cores memory : Z)
    (p : Pod.t) : Prop :=
  pod_numeric_ok _random cores memory p /\
  (0 < pod_seconds_step config -> pod_seconds_ok _random config (Pod.pod_seconds p)) /\
  labels_ok (Config.max_node_namespace_pod_labels config) (Pod.labels p).

Definition claim_ok (config : Config.t) (vc : VolumeClaim.t) : Prop :=
  labels_ok (Config.max_node_namespace_volume_volume_claim_labels config)
    (VolumeClaim.labels vc).

Definition volume_ok (_random : bool) (config : Config.t) (v : Volume.t) : Prop :=
  labels_ok (Config.max_node_namespace_volume_labels config) (Volume.labels v) /\
  count_ok _random (Config.max_node_namespace_volume_volume_claims config)
    (length (Volume.volume_claims v)) /\
  Forall (claim_ok config) (Volume.volume_claims v).

Definition namespace_ok (_random : bool) (config : Config.t) (cores memory : Z)
    (ns : Namespace.t) : Prop :=
  count_ok _random (Config.max_node_namespace_pods config)
    (length (Namespace.pods ns)) /\
  Forall (pod_ok _random config cores memory) (Namespace.pods ns) /\
  count_ok _random (Config.max_node_namespace_volumes config)
    (length (Namespace.volumes ns)) /\
  Forall (volume_ok _random config) (Namespace.volumes ns).

Definition node_ok (_random : bool) (config : Config.t) (n : Node.t) : Prop :=
  count_ok _random (Config.max_node_namespaces config)
    (length (Node.namespaces n)) /\
  Forall (namespace_ok _random config (Node.cpu_cores n) (Node.memory_gig n))
    (Node.namespaces n).

Definition dataset_ok (_random : bool) (config : Config.t) (d : Dataset.t) : Prop :=
  count_ok _random (Config.max_nodes config) (length (Dataset.nodes d)) /\
  Forall (node_ok _random config) (Dataset.nodes d).

(** The pod a volume claim at index [ix] refers to: [pods[ix]], or the last
    pod when [ix] is out of range. *)
Definition referenced_pod (pods : list Pod.t) (ix : nat) : option Pod.t :=
  if decide (ix < length pods)%nat then pods !! ix else last pods.

Definition claim_refers (pods : list Pod.t) (ix : nat) (vc : VolumeClaim.t) : Prop :=
  exists p, referenced_pod pods ix = Some p /\ VolumeClaim.pod_name vc = Pod.name p.

Definition volume_refers (pods : list Pod.t) (v : Volume.t) : Prop :=
  forall (i : nat) vc, Volume.volume_claims v !! i = Some vc -> claim_refers pods i vc.

Definition namespace_refers (ns : Namespace.t) : Prop :=
  Forall (volume_refers (Namespace.pods ns)) (Namespace.volumes ns).

Definition node_refers (n : Node.t) : Prop :=
  Forall namespace_refers (Node.namespaces n).

Definition dataset_refers (d : Dataset.t) : Prop :=
  Forall node_refers (Dataset.nodes d).

(** The bounds that are counts, as the data model has them. *)
Definition cardinalities_nonneg (config : Config.t) : Prop :=
  0 <= Config.max_nodes config /\
  0 <= Config.max_node_namespaces config /\
  0 <= Config.max_node_namespace_pods config /\
  0 <= Config.max_node_namespace_volumes config /\
  0 <= Config.max_node_namespace_volume_volume_claims config.

Definition label_counts_nonneg (config : Config.t) : Prop :=
  0 <= Config.max_node_namespace_pod_labels config /\
  0 <= Config.max_node_namespace_volume_labels config /\
  0 <= Config.max_node_namespace_volume_volume_claim_labels config.

(** Strings of decimal digits. *)
Definition is_digit (c : ascii) : bool :=
  (48 <=? nat_of_ascii c)%nat && (nat_of_ascii c <=? 57)%nat.

Fixpoint all_digits (s : string) : bool :=
  match s with
  | EmptyString => true
  | String c rest => is_digit c && all_digits rest
  end.

(** What [generate_number_str] yields for a width [L]: decimal digits,
    [L] of them, or the [L + 1] digits of the upper bound [10 ** L]. *)
Definition number_str_ok (L : Z) (s : string) : Prop :=
  all_digits s = true /\
  (Z.of_nat (String.length s) = L \/
   s = Py.str (10 ^ L) /\ Z.of_nat (String.length s) = L + 1).

(** [keeps_ids m]: [m] leaves [SEEN_RESOURCE_IDS] as it found it. *)
Definition keeps_ids {R A} (m : M R A) : Prop :=
  forall w a w', m w = Ok (a, w') -> seen_resource_ids w' = seen_resource_ids w.

(** [reserves_id m id_of]: the result of [m] carries a resource id that was
    not in [SEEN_RESOURCE_IDS] before, and [m] adds just that id to it. *)
Definition reserves_id {R A} (m : M R A) (id_of : A -> string) : Prop :=
  forall w a w', m w = Ok (a, w') ->
    (id_of a ∉ seen_resource_ids w) /\
    seen_resource_ids w' = {[ id_of a ]} ∪ seen_resource_ids w.

Definition resource_ids (d : Dataset.t) : list string :=
  Node.resource_id <$> Dataset.nodes d.

(** ** Concrete runs *)

(** Did the call return (rather than raise or loop)? *)
Definition returned {A} (o : outcome A) : bool :=
  match o with
  | Ok _ => true
  | _ => false
  end.

(** The defaults of [default_config], as [build_data] reads them. *)
Definition default_settings : Config.t :=
  Config.mk (Date 2026 10 1) (Date 2026 11 30) ["gp2"] 2 10 1 1 2 1 1 300 3600
    1 1 20 1 1 1 20.

(** Two nodes, one namespace each, two pods, one volume, three claims. *)
Definition scenario_settings : Config.t :=
  Config.mk (Date 2026 10 1) (Date 2026 11 30) ["gp2"] 2 10 2 4 8 1 2 300 3600
    1 1 20 2 3 1 20.

Definition scenario_words : list string :=
  ["amet"; "bonum"; "civis"; "dolor"; "ergo"; "fides"; "gens"; "hora";
   "ignis"; "iustus"; "lux"; "mare"; "nomen"; "opus"; "pax"; "quies";
   "res"; "sol"; "terra"; "unda"; "vita"; "arbor"; "bellum"; "caelum";
   "domus"; "equus"; "flumen"; "gladius"; "homo"; "iter"; "labor"; "mons";
   "navis"; "oculus"; "pons"; "rosa"; "silva"; "tempus"; "urbs"; "ventus";
   "aqua"; "bos"; "canis"; "dies"].

Definition scenario_ints : list Z :=
  [1; 2; 5; 12345; 0; 1; 0; 3; 1; 2; 7; 4; 0; 1; 3; 2; 9; 6; 0; 5; 8; 2; 1; 4;
   11; 3; 7; 2; 0; 6; 1; 9; 5; 3; 8; 2; 4; 1; 0; 7].

(** Two sibling namespaces for which the randomizer draws the same two words
    twice in a row. *)
Definition twin_settings : Config.t :=
  Config.mk (Date 2026 10 1) (Date 2026 11 30) ["gp2"] 2 10 1 1 2 2 1 300 3600
    1 1 20 1 1 1 20.

Definition twin_words : list string :=
  ["amet"; "bonum"; "civis"; "dolor"; "ergo"; "fides"; "gens"; "hora";
   "ignis"; "iustus"; "civis"; "dolor"; "civis"; "dolor"].

(** Every name a dataset holds, in the order they were generated. *)
Definition volume_names (v : Volume.t) : list string :=
  Volume.name v :: (VolumeClaim.name <$> Volume.volume_claims v).

Definition namespace_names (ns : Namespace.t) : list string :=
  Namespace.name ns :: (Pod.name <$> Namespace.pods ns)
    ++ concat (volume_names <$> Namespace.volumes ns).

Definition node_names (n : Node.t) : list string :=
  Node.name n :: concat (namespace_names <$> Node.namespaces n).

Definition dataset_names (d : Dataset.t) : list string :=
  concat (node_names <$> Dataset.nodes d).

(** The names of all namespaces of a run, and the lengths of the resource
    ids of its nodes (nothing when the run did not return). *)
Definition namespace_names_of {R} (o : outcome (Dataset.t * world R)) : list string :=
  match o with
  | Ok (data, _) => Namespace.name <$> concat (Node.namespaces <$> Dataset.nodes data)
  | _ => []
  end.

Definition all_names_of {R} (o : outcome (Dataset.t * world R)) : list string :=
  match o with
  | Ok (data, _) => dataset_names data
  | _ => []
  end.

Definition resource_id_lengths_of {R} (o : outcome (Dataset.t * world R)) : list nat :=
  match o with
  | Ok (data, _) => (fun n => String.length (Node.resource_id n)) <$> Dataset.nodes data
  | _ => []
  end.

(** Two calls of [generate_name] in a row, with the same arguments. *)
Definition generate_name_twice {R} `{Faker R} (fuel : nat) (config : Config.t)
    (prefix suffix : string) (dynamic : bool) : M R (string * string) :=
  let* first := generate_name fuel config prefix suffix dynamic generate_words SEEN_NAMES in
  let* second := generate_name fuel config prefix suffix dynamic generate_words SEEN_NAMES in
  ret (first, second).

(** The memory request and limit of every pod of a run. *)
Definition memory_requests_and_limits_of {R} (o : outcome (Dataset.t * world R))
    : list (Z * Z) :=
  match o with
  | Ok (data, _) =>
      (fun p => (Pod.mem_request_gig p, Pod.mem_limit_gig p))
        <$> concat (Namespace.pods
                      <$> concat (Node.namespaces <$> Dataset.nodes data))
  | _ => []
  end.

(** Every label string a dataset holds: per namespace the pods', then per
    volume the volume's and its claims'. *)
Definition volume_labels (v : Volume.t) : list string :=
  Volume.labels v :: (VolumeClaim.labels <$> Volume.volume_claims v).

Definition namespace_labels (ns : Namespace.t) : list string :=
  (Pod.labels <$> Namespace.pods ns)
    ++ concat (volume_labels <$> Namespace.volumes ns).

Definition dataset_labels (d : Dataset.t) : list string :=
  concat (namespace_labels <$> concat (Node.namespaces <$> Dataset.nodes d)).

Definition labels_of {R} (o : outcome (Dataset.t * world R)) : list string :=
  match o with
  | Ok (data, _) => dataset_labels data
  | _ => []
  end.

(** ** Vocabulary for the configuration and command-line properties *)

(** A known key that is present with a value of the wrong type. *)
Definition offending (config : gmap string value) (entry : string * pytype) : Prop :=
  exists v, config !! entry.1 = Some v /\ isinstance v entry.2 = false.

(** [line] occurs in [msg]. *)
Definition mentions (msg line : string) : Prop :=
  exists before after, msg = before +:+ line +:+ after.

Definition raises_type_error {A} (o : outcome A) : Prop :=
  exists msg, o = Raise (TypeError msg).

Definition raises_date_range_error {A} (o : outcome A) : Prop :=
  exists msg, o = Raise (DateRangeArgsError msg).

Definition raises_file_not_found {A} (o : outcome A) : Prop :=
  exists msg, o = Raise (FileNotFoundError msg).

(** Exactly one of the two date arguments is supplied. *)
Definition exactly_one_date (a : args string) : Prop :=
  given (start_date a) <> given (end_date a).

(** The named files exist: the template, and the config file when one is
    named. *)
Definition files_found (path_exists : string -> bool) (a : args string) : Prop :=
  (given (config_file_name a) = true ->
   path_exists (default "" (config_file_name a)) = true) /\
  path_exists (template_file_name a) = true.

(** The settings read from the config file: those of the named file, or none
    when no file is named. *)
Definition file_settings (load_settings : string -> outcome (gmap string value))
    (a : args string) (settings : gmap string value) : Prop :=
  if given (config_file_name a)
  then load_settings (default "" (config_file_name a)) = Ok settings
  else settings = ∅.

(** Does the command line override key [k]? *)
Definition overridden (a : args string) (k : string) : Prop :=
  (k = "start_date" /\ given (start_date a) = true) \/
  (k = "end_date" /\ given (end_date a) = true) \/
  (k = "max_nodes" /\ exists n, num_nodes a = Some n /\ 1 <= n).

(** A value from the file or the defaults as the effective configuration
    stores it: the text of a date is parsed, anything else is kept. *)
Definition stored (parse : string -> option datetime) (k : string) (v v' : value) : Prop :=
  match v with
  | VStr s =>
      if bool_decide (k = "start_date" \/ k = "end_date")
      then exists dt, parse s = Some dt /\ v' = VDateTime dt
      else v' = v
  | _ => v' = v
  end.

(** The effective configuration [config] merges, in this order of
    precedence, the command line [a], the file [settings] and the defaults. *)
Definition merged_by_precedence (parse : string -> option datetime) (today : date)
    (a : args string) (settings config : gmap string value) : Prop :=
  (* a key set in the file overrides its default *)
  (forall k v, settings !! k = Some v -> ~ overridden a k ->
     exists v', config !! k = Some v' /\ stored parse k v v') /\
  (* the command line overrides the file and the defaults *)
  (forall s, start_date a = Some s -> Py.truthy s = true ->
     exists dt, parse s = Some dt /\
       config !! "start_date" = Some (VDate (dt_date dt))) /\
  (forall s, end_date a = Some s -> Py.truthy s = true ->
     exists dt, parse s = Some dt /\
       config !! "end_date" = Some (VDate (dt_date dt))) /\
  (forall n, num_nodes a = Some n -> 1 <= n ->
     config !! "max_nodes" = Some (VInt n)) /\
  (* a key that nothing overrides keeps its default *)
  (forall k, settings !! k = None -> ~ overridden a k ->
     config !! k = default_config today !! k) /\
  (* a node count below 1 is ignored *)
  (forall n, num_nodes a = Some n -> n < 1 ->
     config !! "max_nodes" = (settings ∪ default_config today) !! "max_nodes").

(** A command line, a settings file and a date parser to run the
    configuration code on. *)
Definition sample_args : args string :=
  Args (Some "out.yml") (Some "settings.yml") "template.yml"
    (Some "2023-01-01") (Some "2023-02-28") (Some 5) false.

Definition sample_settings : gmap string value :=
  {[ "max_nodes" := VInt 3; "max_name_words" := VInt 4;
     "storage_classes" := VList [VStr "gp2"; VStr "io1"] ]}.

Definition sample_parse (s : string) : option datetime :=
  if String.eqb s "2023-01-01" then Some (DateTime (Date 2023 1 1) 0 0 0)
  else if String.eqb s "2023-02-28" then Some (DateTime (Date 2023 2 28) 0 0 0)
  else None.

(** Settings with a node count given as text; and with a second wrongly typed
    key, a correct one and one that is not validated. *)
Definition wrong_max_nodes : gmap string value :=
  {[ "max_nodes" := VStr "three" ]}.

Definition two_wrong_settings : gmap string value :=
  {[ "max_nodes" := VStr "three"; "start_date" := VInt 5;
     "max_name_words" := VInt 2; "colour" := VStr "red" ]}.

(** ** Vocabulary for the further properties *)

(** No two hyphens in a row. *)
Fixpoint no_double_dash (s : string) : bool :=
  match s with
  | String c rest =>
      match rest with
      | String c' _ =>
          negb (Ascii.eqb c Py.dash && Ascii.eqb c' Py.dash) && no_double_dash rest
      | EmptyString => true
      end
  | EmptyString => true
  end.

(** [s.startswith(a)] *)
Definition starts_with (a s : string) : Prop := exists rest, s = a +:+ rest.

(** The set a [cache] argument of [generate_name] stands for, and the other
    one. *)
Definition cache_of {R} (c : cache_id) (w : world R) : gset string :=
  match c with
  | SEEN_NAMES => seen_names w
  | SEEN_RESOURCE_IDS => seen_resource_ids w
  end.

Definition other_cache (c : cache_id) : cache_id :=
  match c with
  | SEEN_NAMES => SEEN_RESOURCE_IDS
  | SEEN_RESOURCE_IDS => SEEN_NAMES
  end.

(** [keeps_caches m]: [m] leaves both caches as it found them. *)
Definition keeps_caches {R A} (m : M R A) : Prop :=
  forall w a w', m w = Ok (a, w') ->
    seen_names w' = seen_names w /\ seen_resource_ids w' = seen_resource_ids w.

(** A world in which the names [taken] have been handed out already. *)
Definition world_with_names (taken : list string) : world Script.t :=
  World (Script.mk scenario_words scenario_ints) (list_to_set taken) ∅.

(** A value against its configured maximum: the maximum itself in fixed
    mode, between 1 and the maximum in randomized mode. *)
Definition within (_random : bool) (bound v : Z) : Prop :=
  if _random then 1 <= v <= bound else v = bound.

Definition node_fields_ok (_random : bool) (config : Config.t) (n : Node.t) : Prop :=
  within _random (Config.max_node_cpu_cores config) (Node.cpu_cores n) /\
  within _random (Config.max_node_memory_gig config) (Node.memory_gig n).

Definition claim_fields_ok (_random : bool) (config : Config.t)
    (vc : VolumeClaim.t) : Prop :=
  within _random (Config.max_node_namespace_volume_volume_claim_capacity_gig config)
    (VolumeClaim.capacity_gig vc).

Definition volume_fields_ok (_random : bool) (config : Config.t) (v : Volume.t) : Prop :=
  (if _random then Volume.storage_class v ∈ Config.storage_classes config
   else head (Config.storage_classes config) = Some (Volume.storage_class v)) /\
  within _random (Config.max_node_namespace_volume_request_gig config)
    (Volume.volume_request_gig v) /\
  Forall (claim_fields_ok _random config) (Volume.volume_claims v).

Definition namespace_fields_ok (_random : bool) (config : Config.t)
    (ns : Namespace.t) : Prop :=
  Forall (volume_fields_ok _random config) (Namespace.volumes ns).

Definition node_tree_fields_ok (_random : bool) (config : Config.t) (n : Node.t) : Prop :=
  node_fields_ok _random config n /\
  Forall (namespace_fields_ok _random config) (Node.namespaces n).

(** A run of [k] hyphens. *)
Fixpoint dashes (k : nat) : string :=
  match k with
  | O => ""
  | S k' => String Py.dash (dashes k')
  end.

(** The name of the [ix]-th child of a kind: the parent's name, the kind and
    the index, with hyphen runs collapsed. *)
Definition derived_name (parent kind : string) (ix : nat) : string :=
  Py.sub_dashes (parent +:+ kind +:+ Py.str (Z.of_nat ix)).

Definition volume_named (ns_name : string) (ix : nat) (v : Volume.t) : Prop :=
  Volume.name v = derived_name ns_name "-vol-" ix /\
  forall (j : nat) vc, Volume.volume_claims v !! j = Some vc ->
    VolumeClaim.name vc = derived_name ns_name "-vol-claim-" j.

Definition namespace_named (node_name : string) (ns : Namespace.t) : Prop :=
  no_double_dash (Namespace.name ns) = true /\
  starts_with node_name (Namespace.name ns) /\
  (forall (i : nat) pod, Namespace.pods ns !! i = Some pod ->
     Pod.name pod = derived_name (Namespace.name ns) "-pod-" i) /\
  (forall (i : nat) vol, Namespace.volumes ns !! i = Some vol ->
     volume_named (Namespace.name ns) i vol).

Definition node_named (n : Node.t) : Prop :=
  no_double_dash (Node.name n) = true /\
  Forall (namespace_named (Node.name n)) (Node.namespaces n).

(** One node, one namespace, one pod, two volumes with one claim each. *)
Definition two_volume_settings : Config.t :=
  Config.mk (Date 2026 10 1) (Date 2026 11 30) ["gp2"] 2 10 1 1 2 1 1 300 3600
    1 2 20 1 1 1 20.




Definition raises_parser_error {A} (o : outcome A) : Prop := o = Raise ParserError.

(** Every key of the validator table is present with a value of its type. *)
Definition well_typed (config : gmap string value) : Prop :=
  forall entry, entry ∈ validator ->
    exists v, config !! entry.1 = Some v /\ isinstance v entry.2 = true.

(** A command line without a settings file or overrides. *)
Definition plain_args : args date :=
  Args (Some "out.yml") None "template.yml" None None None false.

(** A command line as [handle_args] returns it, with a settings file and all
    three overrides. *)
Definition dated_args : args date :=
  Args (Some "out.yml") (Some "settings.yml") "template.yml"
    (Some (Date 2023 1 1)) (Some (Date 2023 2 28)) (Some 5) false.


(** ** Reasoning about effectful code *)

Section Hoare.
Context {R : Type}.

Lemma bind_Ok {A B} (m : M R A) (f : A -> M R B) w r :
  bind m f w = Ok r -> exists a w1, m w = Ok (a, w1) /\ f a w1 = Ok r.
Proof.
  unfold bind. destruct (m w) as [[a w1]| |]; try discriminate. eauto.
Qed.

Lemma ensures_ret {A} (a : A) (Q : A -> Prop) : Q a -> ensures (R:=R) (ret a) Q.
Proof. intros HQ w b w' [= <- _]. exact HQ. Qed.

Lemma ensures_raise {A} e (Q : A -> Prop) : ensures (R:=R) (raise e) Q.
Proof. intros w a w' [=]. Qed.

Lemma ensures_bind {A B} (m : M R A) (f : A -> M R B) (P : A -> Prop) Q :
  ensures m P -> (forall a, P a -> ensures (f a) Q) -> ensures (bind m f) Q.
Proof.
  intros Hm Hf w b w' Hb. apply bind_Ok in Hb as (a & w1 & Ha & Hb).
  exact (Hf a (Hm _ _ _ Ha) _ _ _ Hb).
Qed.

Lemma ensures_any {A} (m : M R A) : ensures m (fun _ => True).
Proof. intros w a w' _. exact I. Qed.

Lemma ensures_impl {A} (m : M R A) (P Q : A -> Prop) :
  ensures m P -> (forall a, P a -> Q a) -> ensures m Q.
Proof. intros Hm HPQ w a w' Ha. exact (HPQ _ (Hm _ _ _ Ha)). Qed.

Lemma ensures_for_each {A B} (xs : list A) (body : A -> M R B)
    (P : A -> B -> Prop) :
  (forall x, ensures (body x) (P x)) -> ensures (for_each xs body) (Forall2 P xs).
Proof.
  intros Hbody. induction xs as [|x xs IH]; simpl.
  - apply ensures_ret. constructor.
  - eapply ensures_bind; [apply Hbody|]. intros b Hb.
    eapply ensures_bind; [apply IH|]. intros bs Hbs.
    apply ensures_ret. constructor; assumption.
Qed.

End Hoare.

(** Skip a step whose result is not constrained. *)
Ltac step_any :=
  eapply ensures_bind; [apply ensures_any | intros ? _].
(** Use a known postcondition for the next step. *)
Tactic Notation "step_with" uconstr(lem) "as" ident(x) ident(Hx) :=
  eapply ensures_bind; [eapply lem | cbv beta; intros x Hx].

Lemma range_length n : length (Py.range n) = Z.to_nat n.
Proof. unfold Py.range. by rewrite length_fmap, length_seq. Qed.

Lemma range_lookup n (i : nat) x :
  Py.range n !! i = Some x -> x = Z.of_nat i /\ (i < Z.to_nat n)%nat.
Proof.
  unfold Py.range. rewrite list_lookup_fmap.
  destruct (seq 0 (Z.to_nat n) !! i) as [j|] eqn:E; [|discriminate].
  apply lookup_seq in E as [-> ?]. intros [= <-]. split; [done | lia].
Qed.

(** What a loop over [range(n)] yields: [n] items, the [i]-th one built by
    the body at index [i]. *)
Lemma ensures_for_range {R B} n (body : Z -> M R B) (P : Z -> B -> Prop) :
  (forall ix, ensures (body ix) (P ix)) ->
  ensures (for_each (Py.range n) body)
    (fun bs => length bs = Z.to_nat n /\
               forall (i : nat) b, bs !! i = Some b -> P (Z.of_nat i) b).
Proof.
  intros Hbody. eapply ensures_impl; [apply ensures_for_each, Hbody|].
  intros bs HF. split.
  - rewrite <- (Forall2_length _ _ _ HF). apply range_length.
  - intros i b Hb.
    destruct (Forall2_lookup_r _ _ _ _ _ HF Hb) as (x & Hx & HP).
    apply range_lookup in Hx as [-> _]. exact HP.
Qed.

Lemma getitem_clamped {A} (l : list A) (i : nat) a :
  Py.getitem l (if Z.of_nat (length l) <=? Z.of_nat i then -1 else Z.of_nat i) = Some a ->
  (if decide (i < length l)%nat then l !! i else last l) = Some a.
Proof.
  unfold Py.getitem. destruct (Z.leb_spec (Z.of_nat (length l)) (Z.of_nat i)).
  - rewrite decide_False by lia. simpl.
    destruct (Z.leb_spec 0 (Z.of_nat (length l) + -1)); [|discriminate].
    rewrite last_lookup. intros <-. f_equal. lia.
  - rewrite decide_True by lia.
    destruct (Z.leb_spec 0 (Z.of_nat i)); [|lia]. by rewrite Nat2Z.id.
Qed.

Section EngineStructure.
Context {R : Type} {F : Faker R}.

Lemma ensures_index {A} (l : list A) i :
  ensures (R:=R) (index l i) (fun a => Py.getitem l i = Some a).
Proof.
  unfold index. destruct (Py.getitem l i) as [a|].
  - by apply ensures_ret.
  - apply ensures_raise.
Qed.

Lemma volume_claim_body_refers fuel config _random ns_name pods (i : nat) :
  ensures (R:=R)
    (volume_claim_body fuel config _random ns_name pods (Z.of_nat i))
    (claim_refers pods i).
Proof.
  unfold volume_claim_body. step_any.
  step_with (ensures_index pods) as p Hp. step_any. step_any.
  apply ensures_ret. exists p. split; [|reflexivity].
  by apply getitem_clamped.
Qed.

Lemma volume_body_refers fuel config _random ns_name pods ix :
  ensures (R:=R) (volume_body fuel config _random ns_name pods ix)
    (volume_refers pods).
Proof.
  unfold volume_body. do 5 step_any.
  step_with (ensures_for_range _ _ (fun ix vc =>
    forall i : nat, ix = Z.of_nat i -> claim_refers pods i vc)) as vcs Hvcs.
  { intros ? w vc w' Hrun i ->. exact (volume_claim_body_refers _ _ _ _ _ _ _ _ _ Hrun). }
  apply ensures_ret. intros i vc Hvc. simpl in Hvc.
  destruct Hvcs as [_ Hvcs]. exact (Hvcs _ _ Hvc _ eq_refl).
Qed.

Lemma namespace_body_refers fuel config _random node_name cores memory ix :
  ensures (R:=R) (namespace_body fuel config _random node_name cores memory ix)
    namespace_refers.
Proof.
  unfold namespace_body. step_any. step_any.
  eapply ensures_bind; [apply ensures_any | intros pods _]. step_any.
  step_with (ensures_for_range _ _ (fun _ => volume_refers pods)) as vols Hvols.
  { intros i. apply volume_body_refers. }
  apply ensures_ret. unfold namespace_refers; simpl.
  apply Forall_lookup. exact (proj2 Hvols).
Qed.

Lemma node_body_refers fuel config _random ix :
  ensures (R:=R) (node_body fuel config _random ix) node_refers.
Proof.
  unfold node_body. do 5 step_any.
  step_with (ensures_for_range _ _ (fun _ => namespace_refers)) as nss Hnss.
  { intros i. apply namespace_body_refers. }
  apply ensures_ret. unfold node_refers; simpl.
  apply Forall_lookup. exact (proj2 Hnss).
Qed.

Lemma build_data_refers fuel config _random :
  ensures (R:=R) (build_data fuel config _random) dataset_refers.
Proof.
  unfold build_data. step_any.
  step_with (ensures_for_range _ _ (fun _ => node_refers)) as ns Hns.
  { intros i. apply node_body_refers. }
  apply ensures_ret. unfold dataset_refers; simpl.
  apply Forall_lookup. exact (proj2 Hns).
Qed.

End EngineStructure.

Section EngineFacts.
Context {R : Type} {F : Faker R} {FS : FakerSpec R}.

Lemma ensures_random_int lo hi step :
  0 < step ->
  ensures (R:=R) (FAKER_random_int lo hi step)
    (fun v => lo <= v <= hi /\ exists k, 0 <= k /\ v = lo + k * step).
Proof.
  intros Hstep w v w'. unfold FAKER_random_int.
  destruct (random_int lo hi step (rng w)) as [[v0 r]|] eqn:E; [|discriminate].
  intros [= <- _]. split.
  - eapply random_int_range; eassumption.
  - eapply random_int_step; eassumption.
Qed.

Lemma ensures_pick (_random : bool) bound :
  ensures (R:=R) (pick _random bound)
    (fun v => if _random then 1 <= v <= bound else v = bound).
Proof.
  unfold pick. destruct _random.
  - eapply ensures_impl; [apply ensures_random_int; lia|]. by intros v [? _].
  - by apply ensures_ret.
Qed.

Lemma ensures_pick_count (_random : bool) bound :
  ensures (R:=R) (pick _random bound)
    (fun v => count_ok _random bound (Z.to_nat v)).
Proof.
  eapply ensures_impl; [apply ensures_pick|].
  intros v Hv. unfold count_ok. destruct _random; [lia | by subst].
Qed.

Lemma ensures_words nb :
  0 <= nb ->
  ensures (R:=R) (FAKER_words nb) (fun ws => length ws = Z.to_nat nb).
Proof.
  intros Hnb w ws w'. unfold FAKER_words.
  pose proof (words_length nb (rng w) Hnb) as Hlen.
  destruct (words nb (rng w)) as [ws0 r]. by intros [= <- _].
Qed.

Lemma ensures_generate_labels n :
  ensures (R:=R) (generate_labels n) (labels_ok n).
Proof.
  intros w s w' Hrun Hn. revert w s w' Hrun.
  change (ensures (R:=R) (generate_labels n) (has_labels n)).
  unfold generate_labels.
  step_with (ensures_words n Hn) as ks Hks.
  step_with (ensures_words n Hn) as vs Hvs.
  apply ensures_ret. eexists; split; [|reflexivity].
  rewrite length_zip. lia.
Qed.

Lemma volume_claim_body_ok fuel config _random ns_name pods ix :
  ensures (R:=R) (volume_claim_body fuel config _random ns_name pods ix)
    (claim_ok config).
Proof.
  unfold volume_claim_body. do 3 step_any.
  step_with ensures_generate_labels as labels Hlabels.
  by apply ensures_ret.
Qed.

Lemma volume_body_ok fuel config _random ns_name pods ix :
  ensures (R:=R) (volume_body fuel config _random ns_name pods ix)
    (volume_ok _random config).
Proof.
  unfold volume_body. do 3 step_any.
  step_with ensures_generate_labels as labels Hlabels.
  step_with ensures_pick_count as n Hn.
  step_with (ensures_for_range _ _ (fun _ => claim_ok config)) as vcs Hvcs.
  { intros i. apply volume_claim_body_ok. }
  apply ensures_ret. destruct Hvcs as [Hlen Hvcs].
  repeat split; simpl; [done | by rewrite Hlen | by apply Forall_lookup].
Qed.

Lemma ensures_pod_seconds (_random : bool) config :
  0 < pod_seconds_step config ->
  ensures (R:=R)
    (if _random then
       FAKER_random_int (Config.min_node_namespace_pod_seconds config)
         (Config.max_node_namespace_pod_seconds config) (pod_seconds_step config)
     else ret (Config.max_node_namespace_pod_seconds config))
    (pod_seconds_ok _random config).
Proof.
  intros Hstep. unfold pod_seconds_ok. destruct _random.
  - by apply ensures_random_int.
  - by apply ensures_ret.
Qed.

Lemma pod_body_ok fuel config _random cores memory ns_name ix :
  ensures (R:=R) (pod_body fuel config _random cores memory ns_name ix)
    (pod_ok _random config cores memory).
Proof.
  unfold pod_body.
  step_with ensures_pick as cpu_req Hcpu_req.
  step_with ensures_pick as mem_req Hmem_req.
  step_with ensures_pick as cpu_lim Hcpu_lim.
  step_with ensures_pick as mem_lim Hmem_lim.
  eapply ensures_bind with
    (P := fun sec => 0 < pod_seconds_step config -> pod_seconds_ok _random config sec).
  { intros w sec w' Hrun Hstep. exact (ensures_pod_seconds _ _ Hstep _ _ _ Hrun). }
  intros sec Hsec. step_any.
  step_with ensures_generate_labels as labels Hlabels.
  apply ensures_ret. unfold pod_ok, pod_numeric_ok; simpl.
  split; [|split; assumption]. destruct _random; auto.
Qed.

Lemma namespace_body_ok fuel config _random node_name cores memory ix :
  ensures (R:=R) (namespace_body fuel config _random node_name cores memory ix)
    (namespace_ok _random config cores memory).
Proof.
  unfold namespace_body. step_any.
  step_with ensures_pick_count as max_pods Hmax_pods.
  step_with (ensures_for_range _ _ (fun _ => pod_ok _random config cores memory))
    as pods Hpods.
  { intros i. apply pod_body_ok. }
  step_with ensures_pick_count as max_volumes Hmax_volumes.
  step_with (ensures_for_range _ _ (fun _ => volume_ok _random config))
    as volumes Hvolumes.
  { intros i. apply volume_body_ok. }
  apply ensures_ret. destruct Hpods as [Hlp Hpods], Hvolumes as [Hlv Hvolumes].
  repeat split; simpl;
    [by rewrite Hlp | by apply Forall_lookup | by rewrite Hlv | by apply Forall_lookup].
Qed.

Lemma node_body_ok fuel config _random ix :
  ensures (R:=R) (node_body fuel config _random ix) (node_ok _random config).
Proof.
  unfold node_body.
  eapply ensures_bind; [apply ensures_any | intros cores _].
  eapply ensures_bind; [apply ensures_any | intros memory _].
  step_any. step_any.
  step_with ensures_pick_count as max_namespaces Hmax.
  step_with (ensures_for_range _ _ (fun _ => namespace_ok _random config cores memory))
    as nss Hnss.
  { intros i. apply namespace_body_ok. }
  apply ensures_ret. destruct Hnss as [Hlen Hnss].
  split; simpl; [by rewrite Hlen | by apply Forall_lookup].
Qed.

(** Every dataset [build_data] returns has the shape above. *)
Lemma build_data_ok fuel config _random :
  ensures (R:=R) (build_data fuel config _random) (dataset_ok _random config).
Proof.
  unfold build_data. step_with ensures_pick_count as max_nodes Hmax.
  step_with (ensures_for_range _ _ (fun _ => node_ok _random config)) as ns Hns.
  { intros i. apply node_body_ok. }
  apply ensures_ret. destruct Hns as [Hlen Hns].
  split; simpl; [by rewrite Hlen | by apply Forall_lookup].
Qed.

End EngineFacts.

(** ** The scripted randomizer honours the randomizer contract *)

Lemma take_words_length n tape : length (Script.take_words n tape).1 = n.
Proof.
  revert tape. induction n as [|n IH]; intros tape; simpl; [done|].
  destruct tape as [|w rest].
  - specialize (IH []). destruct (Script.take_words n []). simpl in *. by rewrite IH.
  - specialize (IH rest). destruct (Script.take_words n rest). simpl in *. by rewrite IH.
Qed.

Lemma randrange_spec lo hi step raw v :
  0 < step -> Script.randrange lo (hi + 1) step raw = Some v ->
  lo <= v <= hi /\ exists k, 0 <= k /\ v = lo + k * step.
Proof.
  intros Hstep. unfold Script.randrange.
  destruct (Z.ltb_spec 0 step); [|lia].
  destruct (Z.eqb_spec step 0); [lia|]. simpl.
  set (cnt := (hi + 1 - lo + step - 1) / step).
  destruct (Z.leb_spec cnt 0); [discriminate|]. intros [= <-].
  pose proof (Z.mod_pos_bound raw cnt ltac:(lia)) as Hr.
  assert (step * cnt <= hi + 1 - lo + step - 1) as Hcnt.
  { subst cnt. apply Z.mul_div_le. lia. }
  split; [nia|]. exists (raw mod cnt). split; [lia | ring].
Qed.

#[global] Instance script_faker_spec : FakerSpec Script.t.
Proof.
  split.
  - intros nb r _. simpl.
    pose proof (take_words_length (Z.to_nat nb) (Script.word_tape r)) as Hlen.
    destruct (Script.take_words _ _). exact Hlen.
  - intros lo hi step r v r' Hstep. simpl.
    destruct (Script.next_int _) as [raw tape'].
    destruct (Script.randrange lo (hi + 1) step raw) as [v0|] eqn:E; [|discriminate].
    intros [= <- _]. by apply (randrange_spec _ _ _ _ _ Hstep E).
  - intros lo hi step r v r' Hstep. simpl.
    destruct (Script.next_int _) as [raw tape'].
    destruct (Script.randrange lo (hi + 1) step raw) as [v0|] eqn:E; [|discriminate].
    intros [= <- _]. by apply (randrange_spec _ _ _ _ _ Hstep E).
Qed.

Lemma plain_clean s : plain_word (Lexicon.clean s) = true.
Proof.
  induction s as [|c s IH]; [done|]. cbn [Lexicon.clean].
  destruct (plain_char c) eqn:Hc; [|done]. cbn [plain_word]. by rewrite Hc.
Qed.

#[global] Instance lexicon_faker_spec : FakerSpec Lexicon.t.
Proof.
  split.
  - intros nb r Hnb. cbn [words Lexicon.faker].
    pose proof (words_length nb (Lexicon.script r) Hnb) as Hlen.
    destruct (words nb (Lexicon.script r)) as [ws s']. cbn [fst] in *.
    by rewrite length_fmap.
  - intros lo hi step r v r' Hstep. cbn [random_int Lexicon.faker].
    destruct (random_int lo hi step (Lexicon.script r)) as [[v0 s']|] eqn:E;
      [|discriminate].
    intros [= <- _]. exact (random_int_range _ _ _ _ _ _ Hstep E).
  - intros lo hi step r v r' Hstep. cbn [random_int Lexicon.faker].
    destruct (random_int lo hi step (Lexicon.script r)) as [[v0 s']|] eqn:E;
      [|discriminate].
    intros [= <- _]. exact (random_int_step _ _ _ _ _ _ Hstep E).
Qed.

#[global] Instance lexicon_plain_words : PlainWords Lexicon.t.
Proof.
  split. intros nb r. cbn [words Lexicon.faker].
  destruct (words nb (Lexicon.script r)) as [ws s']. cbn [fst].
  apply Forall_fmap, Forall_true. intros w. apply plain_clean.
Qed.

Lemma pod_seconds_step_pos config :
  0 <= Config.max_node_namespace_pod_seconds config -> 0 < pod_seconds_step config.
Proof.
  intros Hmax. unfold pod_seconds_step.
  pose proof (Z.div_pos _ 10 Hmax ltac:(lia)) as Hq.
  destruct (Z.eqb_spec (Config.max_node_namespace_pod_seconds config / 10) 0); lia.
Qed.

Lemma count_children (_random : bool) bound n :
  (_random = false -> 0 <= bound) -> count_ok _random bound n ->
  children_ok _random bound n.
Proof.
  unfold count_ok, children_ok. destruct _random; [done|].
  intros Hb ->. specialize (Hb eq_refl). lia.
Qed.

(** ** Properties of [build_data] *)

(** C2: every volume claim of a returned dataset names the pod at the claim's
    own index in the pod list of its namespace when that index is below the
    pod count, and the last pod of that list otherwise; hence its [pod_name]
    is the name of one of the pods of its namespace. *)
Theorem volume_claim_pod_reference {R} {F : Faker R}
    fuel config _random (w w' : world R) data :
  build_data fuel config _random w = Ok (data, w') ->
  forall node ns vol (i : nat) vc,
    node ∈ Dataset.nodes data -> ns ∈ Node.namespaces node ->
    vol ∈ Namespace.volumes ns -> Volume.volume_claims vol !! i = Some vc ->
    (exists p,
       (if decide (i < length (Namespace.pods ns))%nat
        then Namespace.pods ns !! i else last (Namespace.pods ns)) = Some p /\
       VolumeClaim.pod_name vc = Pod.name p) /\
    VolumeClaim.pod_name vc ∈ Pod.name <$> Namespace.pods ns.
Proof.
  intros Hrun node ns vol i vc Hnode Hns Hvol Hvc.
  pose proof (build_data_refers _ _ _ _ _ _ Hrun) as Hd.
  unfold dataset_refers in Hd. rewrite Forall_forall in Hd.
  pose proof (Hd _ Hnode) as Hn. unfold node_refers in Hn.
  rewrite Forall_forall in Hn.
  pose proof (Hn _ Hns) as Hs. unfold namespace_refers in Hs.
  rewrite Forall_forall in Hs.
  destruct (Hs _ Hvol _ _ Hvc) as (p & Hp & Hname).
  split; [by exists p|]. rewrite Hname. apply list_elem_of_fmap_2.
  unfold referenced_pod in Hp. destruct (decide _).
  - by eapply list_elem_of_lookup_2.
  - rewrite last_lookup in Hp. by eapply list_elem_of_lookup_2.
Qed.

Lemma volume_claim_pod_reference_witness :
  match build_data 4 scenario_settings false (Script.start scenario_words scenario_ints) with
  | Ok (data, _) =>
      forall node ns vol (i : nat) vc,
        node ∈ Dataset.nodes data -> ns ∈ Node.namespaces node ->
        vol ∈ Namespace.volumes ns -> Volume.volume_claims vol !! i = Some vc ->
        (exists p,
           (if decide (i < length (Namespace.pods ns))%nat
            then Namespace.pods ns !! i else last (Namespace.pods ns)) = Some p /\
           VolumeClaim.pod_name vc = Pod.name p) /\
        VolumeClaim.pod_name vc ∈ Pod.name <$> Namespace.pods ns
  | _ => False
  end.
Proof.
  assert (returned (build_data 4 scenario_settings false
            (Script.start scenario_words scenario_ints)) = true) as Hret
    by (vm_compute; reflexivity).
  destruct (build_data 4 scenario_settings false _) as [[data w']| |] eqn:E;
    [|discriminate Hret..].
  exact (volume_claim_pod_reference 4 scenario_settings false _ _ _ E).
Defined.

(** C3: at every level of a returned dataset (nodes of the dataset,
    namespaces of a node, pods and volumes of a namespace, volume claims of a
    volume) the number of children is the configured maximum in fixed mode
    and lies between 1 and the configured maximum in randomized mode, for a
    randomizer that keeps within the requested bounds. *)
Theorem build_data_cardinalities {R} {F : Faker R} {FS : FakerSpec R}
    fuel config _random (w w' : world R) data :
  (_random = false -> cardinalities_nonneg config) ->
  build_data fuel config _random w = Ok (data, w') ->
  children_ok _random (Config.max_nodes config) (length (Dataset.nodes data)) /\
  forall node, node ∈ Dataset.nodes data ->
    children_ok _random (Config.max_node_namespaces config)
      (length (Node.namespaces node)) /\
    forall ns, ns ∈ Node.namespaces node ->
      children_ok _random (Config.max_node_namespace_pods config)
        (length (Namespace.pods ns)) /\
      children_ok _random (Config.max_node_namespace_volumes config)
        (length (Namespace.volumes ns)) /\
      forall vol, vol ∈ Namespace.volumes ns ->
        children_ok _random (Config.max_node_namespace_volume_volume_claims config)
          (length (Volume.volume_claims vol)).
Proof.
  intros Hnonneg Hrun.
  assert (forall bound n, (_random = false -> 0 <= bound) ->
            count_ok _random bound n -> children_ok _random bound n) as Hcount
    by (intros; by apply count_children).
  destruct (build_data_ok _ _ _ _ _ _ Hrun) as [Hnodes Hd].
  rewrite Forall_forall in Hd.
  split; [apply Hcount; [intros; by apply Hnonneg | done]|].
  intros node Hnode. destruct (Hd _ Hnode) as [Hnss Hn].
  rewrite Forall_forall in Hn.
  split; [apply Hcount; [intros; by apply Hnonneg | done]|].
  intros ns Hns. destruct (Hn _ Hns) as (Hpods & _ & Hvols & Hvs).
  rewrite Forall_forall in Hvs.
  split; [apply Hcount; [intros; by apply Hnonneg | done]|].
  split; [apply Hcount; [intros; by apply Hnonneg | done]|].
  intros vol Hvol. destruct (Hvs _ Hvol) as (_ & Hclaims & _).
  apply Hcount; [intros; by apply Hnonneg | done].
Qed.

Lemma build_data_cardinalities_witness :
  match build_data 4 scenario_settings false (Script.start scenario_words scenario_ints) with
  | Ok (data, _) =>
      children_ok false 2 (length (Dataset.nodes data)) /\
      forall node, node ∈ Dataset.nodes data ->
        children_ok false 1 (length (Node.namespaces node)) /\
        forall ns, ns ∈ Node.namespaces node ->
          children_ok false 2 (length (Namespace.pods ns)) /\
          children_ok false 1 (length (Namespace.volumes ns)) /\
          forall vol, vol ∈ Namespace.volumes ns ->
            children_ok false 3 (length (Volume.volume_claims vol))
  | _ => False
  end.
Proof.
  assert (returned (build_data 4 scenario_settings false
            (Script.start scenario_words scenario_ints)) = true) as Hret
    by (vm_compute; reflexivity).
  destruct (build_data 4 scenario_settings false _) as [[data w']| |] eqn:E;
    [|discriminate Hret..].
  assert (false = false -> cardinalities_nonneg scenario_settings) as Hnonneg
    by (intros _; repeat split; simpl; lia).
  exact (build_data_cardinalities 4 scenario_settings false _ _ _ Hnonneg E).
Defined.

(** C4: in fixed mode every pod requests and is limited to exactly the CPU
    cores and the memory of its node; in randomized mode each of the four
    values lies between 1 and the respective figure of the node.  The four
    draws are separate: nothing relates a request to its limit. *)
Theorem pod_resources_within_node {R} {F : Faker R} {FS : FakerSpec R}
    fuel config _random (w w' : world R) data :
  build_data fuel config _random w = Ok (data, w') ->
  forall node ns pod,
    node ∈ Dataset.nodes data -> ns ∈ Node.namespaces node ->
    pod ∈ Namespace.pods ns ->
    if _random then
      (1 <= Pod.cpu_request pod <= Node.cpu_cores node /\
       1 <= Pod.cpu_limit pod <= Node.cpu_cores node) /\
      (1 <= Pod.mem_request_gig pod <= Node.memory_gig node /\
       1 <= Pod.mem_limit_gig pod <= Node.memory_gig node)
    else
      (Pod.cpu_request pod = Node.cpu_cores node /\
       Pod.cpu_limit pod = Node.cpu_cores node) /\
      (Pod.mem_request_gig pod = Node.memory_gig node /\
       Pod.mem_limit_gig pod = Node.memory_gig node).
Proof.
  intros Hrun node ns pod Hnode Hns Hpod.
  destruct (build_data_ok _ _ _ _ _ _ Hrun) as [_ Hd].
  rewrite Forall_forall in Hd. destruct (Hd _ Hnode) as [_ Hn].
  rewrite Forall_forall in Hn. destruct (Hn _ Hns) as (_ & Hps & _).
  rewrite Forall_forall in Hps. destruct (Hps _ Hpod) as [Hnum _].
  exact Hnum.
Qed.

Lemma pod_resources_within_node_witness :
  match build_data 4 scenario_settings true (Script.start scenario_words scenario_ints) with
  | Ok (data, _) =>
      forall node ns pod,
        node ∈ Dataset.nodes data -> ns ∈ Node.namespaces node ->
        pod ∈ Namespace.pods ns ->
        (1 <= Pod.cpu_request pod <= Node.cpu_cores node /\
         1 <= Pod.cpu_limit pod <= Node.cpu_cores node) /\
        (1 <= Pod.mem_request_gig pod <= Node.memory_gig node /\
         1 <= Pod.mem_limit_gig pod <= Node.memory_gig node)
  | _ => False
  end.
Proof.
  assert (returned (build_data 4 scenario_settings true
            (Script.start scenario_words scenario_ints)) = true) as Hret
    by (vm_compute; reflexivity).
  destruct (build_data 4 scenario_settings true _) as [[data w']| |] eqn:E;
    [|discriminate Hret..].
  exact (pod_resources_within_node 4 scenario_settings true _ _ _ E).
Defined.

(** The request and the limit of a pod are unrelated draws: a randomized run
    where a pod requests more memory than its limit. *)
Example request_may_exceed_limit :
  memory_requests_and_limits_of
    (build_data 4 scenario_settings true (Script.start scenario_words scenario_ints))
  = [(4, 3); (1, 4); (3, 2)].
Proof. by vm_compute. Qed.

(** C5: in randomized mode [pod_seconds] lies between the configured minimum
    and maximum and is the minimum plus a non-negative multiple of the step
    [max // 10] (1800 when that quotient is zero); in fixed mode it is the
    configured maximum. *)
Theorem pod_seconds_bounds {R} {F : Faker R} {FS : FakerSpec R}
    fuel config _random (w w' : world R) data :
  0 <= Config.max_node_namespace_pod_seconds config ->
  build_data fuel config _random w = Ok (data, w') ->
  forall node ns pod,
    node ∈ Dataset.nodes data -> ns ∈ Node.namespaces node ->
    pod ∈ Namespace.pods ns ->
    if _random then
      Config.min_node_namespace_pod_seconds config <= Pod.pod_seconds pod
        <= Config.max_node_namespace_pod_seconds config /\
      exists k, 0 <= k /\
        Pod.pod_seconds pod =
          Config.min_node_namespace_pod_seconds config
          + k * (if Config.max_node_namespace_pod_seconds config / 10 =? 0
                 then 1800
                 else Config.max_node_namespace_pod_seconds config / 10)
    else Pod.pod_seconds pod = Config.max_node_namespace_pod_seconds config.
Proof.
  intros Hmax Hrun node ns pod Hnode Hns Hpod.
  destruct (build_data_ok _ _ _ _ _ _ Hrun) as [_ Hd].
  rewrite Forall_forall in Hd. destruct (Hd _ Hnode) as [_ Hn].
  rewrite Forall_forall in Hn. destruct (Hn _ Hns) as (_ & Hps & _).
  rewrite Forall_forall in Hps. destruct (Hps _ Hpod) as (_ & Hsec & _).
  exact (Hsec (pod_seconds_step_pos _ Hmax)).
Qed.

Lemma pod_seconds_bounds_witness :
  match build_data 4 scenario_settings true (Script.start scenario_words scenario_ints) with
  | Ok (data, _) =>
      forall node ns pod,
        node ∈ Dataset.nodes data -> ns ∈ Node.namespaces node ->
        pod ∈ Namespace.pods ns ->
        300 <= Pod.pod_seconds pod <= 3600 /\
        exists k, 0 <= k /\ Pod.pod_seconds pod = 300 + k * 360
  | _ => False
  end.
Proof.
  assert (returned (build_data 4 scenario_settings true
            (Script.start scenario_words scenario_ints)) = true) as Hret
    by (vm_compute; reflexivity).
  destruct (build_data 4 scenario_settings true _) as [[data w']| |] eqn:E;
    [|discriminate Hret..].
  assert (0 <= Config.max_node_namespace_pod_seconds scenario_settings) as Hmax
    by (simpl; lia).
  exact (pod_seconds_bounds 4 scenario_settings true _ _ _ Hmax E).
Defined.

(** *** Label strings *)

Lemma append_assoc (a b c : string) : (a +:+ b) +:+ c = a +:+ b +:+ c.
Proof.
  induction a as [|ch a IH]; [done|].
  change (String ch ((a +:+ b) +:+ c) = String ch (a +:+ b +:+ c)). by f_equal.
Qed.

Lemma append_nil_r (a : string) : a +:+ "" = a.
Proof.
  induction a as [|ch a IH]; [done|].
  change (String ch (a +:+ "") = String ch a). by f_equal.
Qed.

Lemma count_char_app c (a b : string) :
  count_char c (a +:+ b) = (count_char c a + count_char c b)%nat.
Proof.
  induction a as [|ch a IH]; [done|].
  change (String ch a +:+ b) with (String ch (a +:+ b)).
  cbn [count_char]. rewrite IH. lia.
Qed.

Lemma plain_word_no_pipe w :
  plain_word w = true -> count_char "|"%char w = 0%nat.
Proof.
  induction w as [|ch w IH]; [done|]. cbn [plain_word count_char].
  intros [Hc Hw]%andb_true_iff. rewrite (IH Hw).
  unfold plain_char in Hc. apply andb_true_iff in Hc as [Hc _].
  apply negb_true_iff in Hc. by rewrite Hc.
Qed.

Lemma label_text_pipes pairs :
  Forall (fun p => plain_word p.1 = true /\ plain_word p.2 = true) pairs ->
  count_char "|"%char (label_text pairs) = pred (length pairs).
Proof.
  induction 1 as [|[k v] rest [Hk Hv] Hrest IH]; [done|].
  cbn [fst snd] in Hk, Hv. cbn [label_text length pred].
  destruct rest as [|p rest].
  - rewrite !count_char_app, (plain_word_no_pipe _ Hk), (plain_word_no_pipe _ Hv).
    reflexivity.
  - rewrite !count_char_app, IH, (plain_word_no_pipe _ Hk), (plain_word_no_pipe _ Hv).
    reflexivity.
Qed.

Lemma label_text_pairs pairs :
  Forall (fun p => plain_word p.1 = true /\ plain_word p.2 = true) pairs ->
  count_pairs (label_text pairs) = length pairs.
Proof.
  intros Hplain. pose proof (label_text_pipes pairs Hplain) as Hpipes.
  destruct pairs as [|[k v] rest]; [done|].
  assert (exists tail, label_text ((k, v) :: rest) = String "l" tail) as [tail Htail].
  { cbn [label_text]. destruct rest; eexists; reflexivity. }
  rewrite Htail in *. cbn [count_pairs]. rewrite Hpipes. done.
Qed.

Lemma join_label_text pairs :
  Py.join "|" (label_of <$> pairs) = label_text pairs.
Proof.
  induction pairs as [|[k v] rest IH]; [done|].
  destruct rest as [|p rest]; [done|].
  change (label_of (k, v) +:+ "|" +:+ Py.join "|" (label_of <$> p :: rest)
          = "label_" +:+ k +:+ ":" +:+ v +:+ "|" +:+ label_text (p :: rest)).
  rewrite IH. unfold label_of. cbn [fst snd]. by rewrite !append_assoc.
Qed.

Lemma Forall_zip_plain (ks vs : list string) :
  Forall (fun s => plain_word s = true) ks ->
  Forall (fun s => plain_word s = true) vs ->
  Forall (fun p => plain_word p.1 = true /\ plain_word p.2 = true) (zip ks vs).
Proof.
  intros Hks. revert vs. induction Hks as [|k ks Hk Hks IH]; intros vs Hvs; [done|].
  destruct Hvs as [|v vs Hv Hvs]; [done|]. cbn [zip zip_with].
  constructor; [done | by apply IH].
Qed.

Section Labels.
Context {R : Type} {F : Faker R} {FS : FakerSpec R} {PW : PlainWords R}.

Lemma ensures_plain_words nb :
  0 <= nb ->
  ensures (R:=R) (FAKER_words nb)
    (fun ws => length ws = Z.to_nat nb /\ Forall (fun s => plain_word s = true) ws).
Proof.
  intros Hnb w ws w'. unfold FAKER_words.
  pose proof (words_length nb (rng w) Hnb) as Hlen.
  pose proof (words_plain nb (rng w)) as Hplain.
  destruct (words nb (rng w)) as [ws0 r]. by intros [= <- _].
Qed.

Lemma ensures_exactly_labels n :
  0 <= n -> ensures (R:=R) (generate_labels n) (exactly_labels n).
Proof.
  intros Hn. unfold generate_labels.
  step_with (ensures_plain_words n Hn) as ks Hks.
  step_with (ensures_plain_words n Hn) as vs Hvs.
  apply ensures_ret. destruct Hks as [Lks Pks], Hvs as [Lvs Pvs].
  pose proof (Forall_zip_plain ks vs Pks Pvs) as Hplain.
  assert (length (zip ks vs) = Z.to_nat n) as Hlen by (rewrite length_zip; lia).
  rewrite join_label_text. split.
  - by rewrite label_text_pairs.
  - by exists (zip ks vs).
Qed.

Variable config : Config.t.
Hypothesis Hcounts : label_counts_nonneg config.

Lemma volume_claim_body_labels fuel _random ns_name pods ix :
  ensures (R:=R) (volume_claim_body fuel config _random ns_name pods ix)
    (claim_labels_ok config).
Proof.
  unfold volume_claim_body. do 3 step_any.
  step_with (ensures_exactly_labels _ (proj2 (proj2 Hcounts))) as labels Hlabels.
  by apply ensures_ret.
Qed.

Lemma volume_body_labels fuel _random ns_name pods ix :
  ensures (R:=R) (volume_body fuel config _random ns_name pods ix)
    (volume_labels_ok config).
Proof.
  unfold volume_body. do 3 step_any.
  step_with (ensures_exactly_labels _ (proj1 (proj2 Hcounts))) as labels Hlabels.
  step_any.
  step_with (ensures_for_range _ _ (fun _ => claim_labels_ok config)) as vcs Hvcs.
  { intros i. apply volume_claim_body_labels. }
  apply ensures_ret. split; [done|]. apply Forall_lookup, Hvcs.
Qed.

Lemma pod_body_labels fuel _random cores memory ns_name ix :
  ensures (R:=R) (pod_body fuel config _random cores memory ns_name ix)
    (pod_labels_ok config).
Proof.
  unfold pod_body. do 6 step_any.
  step_with (ensures_exactly_labels _ (proj1 Hcounts)) as labels Hlabels.
  by apply ensures_ret.
Qed.

Lemma namespace_body_labels fuel _random node_name cores memory ix :
  ensures (R:=R) (namespace_body fuel config _random node_name cores memory ix)
    (namespace_labels_ok config).
Proof.
  unfold namespace_body. do 2 step_any.
  step_with (ensures_for_range _ _ (fun _ => pod_labels_ok config)) as pods Hpods.
  { intros i. apply pod_body_labels. }
  step_any.
  step_with (ensures_for_range _ _ (fun _ => volume_labels_ok config)) as vols Hvols.
  { intros i. apply volume_body_labels. }
  apply ensures_ret. split; cbn [Namespace.pods Namespace.volumes].
  - apply Forall_lookup, Hpods.
  - apply Forall_lookup, Hvols.
Qed.

Lemma node_body_labels fuel _random ix :
  ensures (R:=R) (node_body fuel config _random ix) (node_labels_ok config).
Proof.
  unfold node_body. do 5 step_any.
  step_with (ensures_for_range _ _ (fun _ => namespace_labels_ok config)) as nss Hnss.
  { intros i. apply namespace_body_labels. }
  apply ensures_ret. apply Forall_lookup, Hnss.
Qed.

Lemma build_data_labels fuel _random :
  ensures (R:=R) (build_data fuel config _random)
    (fun data => Forall (node_labels_ok config) (Dataset.nodes data)).
Proof.
  unfold build_data. step_any.
  step_with (ensures_for_range _ _ (fun _ => node_labels_ok config)) as ns Hns.
  { intros i. apply node_body_labels. }
  apply ensures_ret. apply Forall_lookup, Hns.
Qed.

End Labels.

(** C10: in either mode the label string of every pod, volume and volume
    claim is made of exactly the configured number of pipe-delimited pairs
    [label_<word>:<word>], for a randomizer whose words are words (no pipe
    and no colon inside): the three [max_*_labels] keys are counts. *)
Theorem labels_have_configured_count
    {R} {F : Faker R} {FS : FakerSpec R} {PW : PlainWords R}
    fuel config _random (w w' : world R) data :
  label_counts_nonneg config ->
  build_data fuel config _random w = Ok (data, w') ->
  forall node ns,
    node ∈ Dataset.nodes data -> ns ∈ Node.namespaces node ->
    (forall pod, pod ∈ Namespace.pods ns ->
       exactly_labels (Config.max_node_namespace_pod_labels config)
         (Pod.labels pod)) /\
    (forall vol, vol ∈ Namespace.volumes ns ->
       exactly_labels (Config.max_node_namespace_volume_labels config)
         (Volume.labels vol) /\
       forall vc, vc ∈ Volume.volume_claims vol ->
         exactly_labels (Config.max_node_namespace_volume_volume_claim_labels config)
           (VolumeClaim.labels vc)).
Proof.
  intros Hcounts Hrun node ns Hnode Hns.
  pose proof (build_data_labels config Hcounts _ _ _ _ _ Hrun) as Hd.
  rewrite Forall_forall in Hd. specialize (Hd _ Hnode).
  unfold node_labels_ok in Hd. rewrite Forall_forall in Hd.
  destruct (Hd _ Hns) as [Hps Hvs].
  rewrite Forall_forall in Hps. rewrite Forall_forall in Hvs. split.
  - intros pod Hpod. exact (Hps _ Hpod).
  - intros vol Hvol. destruct (Hvs _ Hvol) as [Hl Hcs].
    rewrite Forall_forall in Hcs. split; [exact Hl|].
    intros vc Hvc. exact (Hcs _ Hvc).
Qed.

Lemma labels_have_configured_count_witness :
  match build_data 4 scenario_settings false
          (Lexicon.start scenario_words scenario_ints) with
  | Ok (data, _) =>
      dataset_labels data
      = ["label_ergo:fides"; "label_gens:hora";
         "label_ignis:lux|label_iustus:mare"; "label_nomen:opus";
         "label_pax:quies"; "label_res:sol"; "label_bellum:caelum";
         "label_domus:equus"; "label_flumen:homo|label_gladius:iter";
         "label_labor:mons"; "label_navis:oculus"; "label_pons:rosa"] /\
      forall node ns,
        node ∈ Dataset.nodes data -> ns ∈ Node.namespaces node ->
        (forall pod, pod ∈ Namespace.pods ns -> exactly_labels 1 (Pod.labels pod)) /\
        (forall vol, vol ∈ Namespace.volumes ns ->
           exactly_labels 2 (Volume.labels vol) /\
           forall vc, vc ∈ Volume.volume_claims vol ->
             exactly_labels 1 (VolumeClaim.labels vc))
  | _ => False
  end.
Proof.
  assert (returned (build_data 4 scenario_settings false
            (Lexicon.start scenario_words scenario_ints)) = true) as Hret
    by (vm_compute; reflexivity).
  assert (labels_of (build_data 4 scenario_settings false
            (Lexicon.start scenario_words scenario_ints))
          = ["label_ergo:fides"; "label_gens:hora";
             "label_ignis:lux|label_iustus:mare"; "label_nomen:opus";
             "label_pax:quies"; "label_res:sol"; "label_bellum:caelum";
             "label_domus:equus"; "label_flumen:homo|label_gladius:iter";
             "label_labor:mons"; "label_navis:oculus"; "label_pons:rosa"])
    as Hlabels by (vm_compute; reflexivity).
  destruct (build_data 4 scenario_settings false _) as [[data w']| |] eqn:E;
    [|discriminate Hret..].
  assert (label_counts_nonneg scenario_settings) as Hnonneg
    by (repeat split; simpl; lia).
  split; [exact Hlabels|].
  exact (labels_have_configured_count 4 scenario_settings false _ _ _ Hnonneg E).
Defined.

(** ** Properties of [validate_config] *)

Lemma join_mentions sep (lines : list string) line :
  line ∈ lines -> mentions (Py.join sep lines) line.
Proof.
  induction lines as [|l rest IH]; intros Hin; [by apply elem_of_nil in Hin|].
  apply elem_of_cons in Hin as [-> | Hin].
  - destruct rest as [|l' rest]; simpl.
    + exists "", "". simpl. by rewrite append_nil_r.
    + by exists "", (sep +:+ Py.join sep (l' :: rest)).
  - destruct (IH Hin) as (before & after & Heq).
    destruct rest as [|l' rest]; [by apply elem_of_nil in Hin|].
    exists (l +:+ sep +:+ before), after.
    change (Py.join sep (l :: l' :: rest))
      with (l +:+ sep +:+ Py.join sep (l' :: rest)).
    by rewrite Heq, !append_assoc.
Qed.

Lemma mismatch_offending config entry :
  mismatch config entry = true <-> offending config entry.
Proof.
  unfold mismatch, offending. destruct (config !! entry.1) as [v|].
  - rewrite negb_true_iff. split; [eauto | by intros (? & [= <-] & ?)].
  - split; [done | by intros (? & [=] & _)].
Qed.

Lemma elem_of_offenders config entry :
  entry ∈ List.filter (mismatch config) validator <->
  entry ∈ validator /\ offending config entry.
Proof.
  rewrite !list_elem_of_In, filter_In. by rewrite mismatch_offending.
Qed.

Lemma offenders_insert_unknown (config : gmap string value) k v :
  k ∉ validator.*1 ->
  List.filter (mismatch (<[k := v]> config)) validator
  = List.filter (mismatch config) validator.
Proof.
  intros Hk. apply filter_ext_in. intros [k' ty] Hin. unfold mismatch.
  change ((k', ty).1) with k'. rewrite lookup_insert_ne; [done|].
  intros ->. apply Hk. apply list_elem_of_fmap. exists (k', ty).
  split; [done | by apply list_elem_of_In].
Qed.

Lemma validate_config_unfold (config : gmap string value) :
  validate_config config =
    match List.filter (mismatch config) validator with
    | [] => Ok true
    | offenders => Raise (TypeError (Py.join linesep (complaint <$> offenders)))
    end.
Proof.
  unfold validate_config. by destruct (List.filter (mismatch config) validator).
Qed.

Lemma mentions_app_l msg a b : mentions msg (a +:+ b) -> mentions msg a.
Proof.
  intros (before & after & ->). exists before, (b +:+ after).
  by rewrite append_assoc.
Qed.

Lemma mentions_app_r msg a b : mentions msg (a +:+ b) -> mentions msg b.
Proof.
  intros (before & after & ->). exists (before +:+ a), after.
  by rewrite !append_assoc.
Qed.

(** C7: [validate_config] raises (a [TypeError]) exactly when some known key
    is present with a value that is not of its declared type; the message
    then has, for every such key, the line [<key> Must be of type <type>]
    with the key and the name of the expected type ([date], [list] or
    [int]) in it, one line per offending key; with no such key the result is
    [True]; keys outside the table never matter. *)
Theorem validate_config_reports_all (config : gmap string value) :
  (raises_type_error (validate_config config) <->
   exists entry, entry ∈ validator /\ offending config entry) /\
  (forall msg, validate_config config = Raise (TypeError msg) ->
     msg = Py.join linesep (complaint <$> List.filter (mismatch config) validator) /\
     forall k ty, (k, ty) ∈ validator -> offending config (k, ty) ->
       mentions msg k /\
       mentions msg match ty with
                    | T_date => "date"
                    | T_list => "list"
                    | T_int => "int"
                    end /\
       mentions msg (k +:+ " Must be of type "
                       +:+ match ty with
                           | T_date => "date"
                           | T_list => "list"
                           | T_int => "int"
                           end)) /\
  ((forall entry, entry ∈ validator -> ~ offending config entry) ->
     validate_config config = Ok true) /\
  (validate_config config = Ok true \/ raises_type_error (validate_config config)) /\
  (forall k v, k ∉ validator.*1 ->
     validate_config (<[k := v]> config) = validate_config config).
Proof.
  assert (forall k v, k ∉ validator.*1 ->
            validate_config (<[k := v]> config) = validate_config config) as Hunknown.
  { intros k v Hk. by rewrite !validate_config_unfold, offenders_insert_unknown. }
  rewrite validate_config_unfold in *. unfold raises_type_error.
  pose proof (elem_of_offenders config) as Hoff.
  destruct (List.filter (mismatch config) validator) as [|e es].
  - assert (forall entry, entry ∈ validator -> ~ offending config entry) as Hnone.
    { intros entry Hin Ho. apply (elem_of_nil entry), Hoff. done. }
    split; [split|split; [|split; [|split]]].
    + by intros [msg [=]].
    + intros (entry & Hin & Ho). by destruct (Hnone entry).
    + discriminate.
    + done.
    + by left.
    + exact Hunknown.
  - split; [split|split; [|split; [|split]]].
    + intros _. exists e. apply Hoff. by left.
    + eauto.
    + intros msg Hmsg.
      assert (msg = Py.join linesep (complaint <$> e :: es)) as ->
        by congruence.
      split; [done|]. intros k ty Hin Ho.
      assert (mentions (Py.join linesep (complaint <$> e :: es))
                (k +:+ " Must be of type "
                   +:+ match ty with
                       | T_date => "date"
                       | T_list => "list"
                       | T_int => "int"
                       end)) as Hline.
      { assert (complaint (k, ty)
                = k +:+ " Must be of type "
                    +:+ match ty with
                        | T_date => "date"
                        | T_list => "list"
                        | T_int => "int"
                        end) as <- by by destruct ty.
        apply (join_mentions linesep (complaint <$> e :: es)).
        apply list_elem_of_fmap_2. by apply Hoff. }
      split; [exact (mentions_app_l _ _ _ Hline)|].
      split; [|exact Hline].
      exact (mentions_app_r _ _ _ (mentions_app_r _ _ _ Hline)).
    + intros Hnone. destruct (Hnone e); by apply Hoff; left.
    + right. eauto.
    + exact Hunknown.
Qed.

Lemma validate_config_reports_all_witness :
  validate_config wrong_max_nodes
  = Raise (TypeError "max_nodes Must be of type int") /\
  validate_config two_wrong_settings
  = Raise (TypeError
             ("start_date Must be of type date"
                +:+ String (ascii_of_nat 10) "max_nodes Must be of type int")).
Proof.
  split.
  - destruct (validate_config_reports_all wrong_max_nodes) as (Hiff & Hmsg & _).
    destruct (proj2 Hiff) as [msg Hr].
    { exists ("max_nodes", T_int). split; [|by exists (VStr "three")].
      apply list_elem_of_In. vm_compute. tauto. }
    rewrite Hr. destruct (Hmsg msg Hr) as [-> _]. vm_compute. reflexivity.
  - destruct (validate_config_reports_all two_wrong_settings) as (Hiff & Hmsg & _).
    destruct (proj2 Hiff) as [msg Hr].
    { exists ("max_nodes", T_int). split; [|by exists (VStr "three")].
      apply list_elem_of_In. vm_compute. tauto. }
    rewrite Hr. destruct (Hmsg msg Hr) as [-> _]. vm_compute. reflexivity.
Defined.

(** ** Properties of [handle_args] *)

Lemma date_arg_no_date_range_error parse (a : option string) :
  ~ raises_date_range_error (date_arg parse a).
Proof.
  intros [msg Hr]. unfold date_arg in Hr.
  destruct a as [s|]; [|discriminate].
  destruct (Py.truthy s); [|discriminate]. by destruct (parse s).
Qed.

(** C9, as amended: [handle_args] raises [DateRangeArgsError] exactly when
    the named files exist and exactly one of the start and end date is
    supplied; both or neither never raises it. *)
Theorem handle_args_date_range path_exists parse (a : args string) :
  raises_date_range_error (handle_args path_exists parse a) <->
  files_found path_exists a /\ exactly_one_date a.
Proof.
  unfold handle_args, files_found, exactly_one_date, raises_date_range_error.
  destruct (given (config_file_name a)
            && negb (path_exists (default "" (config_file_name a)))) eqn:Hc.
  { split; [by intros [? [=]]|]. intros [[H1 _] _].
    apply andb_true_iff in Hc as [Hg Hn]. by rewrite (H1 Hg) in Hn. }
  destruct (negb (path_exists (template_file_name a))) eqn:Ht.
  { split; [by intros [? [=]]|]. intros [[_ H2] _]. by rewrite H2 in Ht. }
  apply negb_false_iff in Ht.
  assert (given (config_file_name a) = true ->
          path_exists (default "" (config_file_name a)) = true) as Hcfg.
  { intros Hg. rewrite Hg in Hc. by apply negb_false_iff in Hc. }
  destruct (Z.b2z (given (start_date a)) + Z.b2z (given (end_date a)) =? 1) eqn:Hsum.
  { split; [|eauto]. intros _. split; [done|].
    by destruct (given (start_date a)), (given (end_date a)). }
  split.
  - intros [msg Hr]. exfalso.
    destruct (date_arg parse (start_date a)) as [sd|err|] eqn:Es; simpl in Hr;
      [|apply (date_arg_no_date_range_error parse (start_date a));
        exists msg; congruence|discriminate Hr].
    destruct (date_arg parse (end_date a)) as [ed|err|] eqn:Ee; simpl in Hr;
      [discriminate Hr|
       apply (date_arg_no_date_range_error parse (end_date a));
       exists msg; congruence|discriminate Hr].
  - intros [_ Hone]. by destruct (given (start_date a)), (given (end_date a)).
Qed.

(** C9, as stated, fails: with a start date only and a template file that
    does not exist, [handle_args] raises [FileNotFoundError]. *)
Lemma handle_args_date_range_needs_files :
  ~ (forall path_exists parse (a : args string),
       raises_date_range_error (handle_args path_exists parse a) <->
       exactly_one_date a).
Proof.
  intros Hclaim.
  destruct (Hclaim (fun _ => false) (fun _ => None)
              (Args None None "template.yml" (Some "2023-01-01") None None false))
    as [_ Hraises].
  destruct Hraises as [msg Hmsg]; [by vm_compute | discriminate Hmsg].
Qed.

(** ** Decimal strings *)

Lemma length_append (a b : string) :
  String.length (a +:+ b) = (String.length a + String.length b)%nat.
Proof.
  induction a as [|c a IH]; [done|].
  change (S (String.length (a +:+ b)) = S (String.length a + String.length b)).
  by rewrite IH.
Qed.

Lemma length_zeros k : String.length (Py.zeros k) = k.
Proof. induction k as [|k IH]; simpl; [done | by rewrite IH]. Qed.

Lemma all_digits_append (a b : string) :
  all_digits a = true -> all_digits b = true -> all_digits (a +:+ b) = true.
Proof.
  intros Ha Hb. induction a as [|c a IH]; [done|].
  change (is_digit c && all_digits (a +:+ b) = true).
  cbn [all_digits] in Ha. apply andb_true_iff in Ha as [Hc Ha]. by rewrite Hc, IH.
Qed.

Lemma all_digits_zeros k : all_digits (Py.zeros k) = true.
Proof. induction k as [|k IH]; simpl; [done | by rewrite IH]. Qed.

Lemma is_digit_digit_char d : 0 <= d < 10 -> is_digit (Py.digit_char d) = true.
Proof.
  intros Hd.
  assert (Z.to_nat d ∈ seq 0 10) as Hin by (apply elem_of_seq; lia).
  unfold Py.digit_char. by repeat (apply elem_of_cons in Hin as [-> | Hin]; [done|]);
    apply elem_of_nil in Hin.
Qed.

Lemma digits_all_digits fuel n acc :
  0 <= n -> all_digits acc = true -> all_digits (Py.digits fuel n acc) = true.
Proof.
  revert n acc. induction fuel as [|fuel IH]; intros n acc Hn Hacc;
    cbn [Py.digits];
    assert (all_digits (String (Py.digit_char (n mod 10)) acc) = true) as Hstep
      by (cbn [all_digits]; rewrite is_digit_digit_char, Hacc;
          [done | by apply Z.mod_pos_bound]);
    [done|].
  destruct (n <? 10); [done|]. apply IH; [|done]. by apply Z.div_pos.
Qed.

Lemma digits_length_min fuel n acc :
  (String.length acc < String.length (Py.digits fuel n acc))%nat.
Proof.
  revert n acc. induction fuel as [|fuel IH]; intros n acc;
    cbn [Py.digits String.length]; [lia|].
  destruct (n <? 10); cbn [String.length]; [lia|].
  specialize (IH (n / 10) (String (Py.digit_char (n mod 10)) acc)).
  cbn [String.length] in IH. lia.
Qed.

(** A number below [10 ^ k] has at most [k] digits. *)
Lemma digits_length_max fuel n acc (k : nat) :
  0 <= n < 10 ^ Z.of_nat k -> (1 <= k)%nat ->
  (String.length (Py.digits fuel n acc) <= k + String.length acc)%nat.
Proof.
  revert n acc k. induction fuel as [|fuel IH]; intros n acc k Hn Hk;
    cbn [Py.digits String.length]; [lia|].
  destruct (Z.ltb_spec n 10); cbn [String.length]; [lia|].
  destruct k as [|[|k]]; [lia | change (10 ^ Z.of_nat 1) with 10 in Hn; lia |].
  assert (0 <= n / 10 < 10 ^ Z.of_nat (S k)) as Hdiv.
  { split; [apply Z.div_pos; lia|]. apply Z.div_lt_upper_bound; [lia|].
    replace (Z.of_nat (S (S k))) with (Z.succ (Z.of_nat (S k))) in Hn by lia.
    rewrite Z.pow_succ_r in Hn by lia. lia. }
  pose proof (IH (n / 10) (String (Py.digit_char (n mod 10)) acc) (S k) Hdiv
                ltac:(lia)) as Hlen.
  cbn [String.length] in Hlen. lia.
Qed.

Lemma str_nonneg n :
  0 <= n -> Py.str n = Py.digits (Z.to_nat (Z.log2 n)) n "".
Proof. intros Hn. unfold Py.str. by destruct (Z.ltb_spec n 0); [lia|]. Qed.

(** Padding a string of digits: the width is reached and never cut. *)
Lemma zfill_digits width s :
  all_digits s = true -> s <> "" ->
  all_digits (Py.zfill width s) = true /\
  String.length (Py.zfill width s)
  = Nat.max (Z.to_nat width) (String.length s).
Proof.
  intros Hs Hne. destruct s as [|c rest]; [done|]. unfold Py.zfill.
  assert (Ascii.eqb c Py.dash || Ascii.eqb c "+"%char = false) as ->.
  { cbn [all_digits] in Hs. apply andb_true_iff in Hs as [Hc _].
    apply orb_false_iff. split; apply Ascii.eqb_neq; intros ->; discriminate Hc. }
  split.
  - apply all_digits_append; [apply all_digits_zeros | done].
  - rewrite length_append, length_zeros. lia.
Qed.

(** Collapsing hyphens leaves a string of digits alone. *)
Lemma sub_dashes_digits s : all_digits s = true -> Py.sub_dashes s = s.
Proof.
  induction s as [|c rest IH]; [done|]. cbn [all_digits Py.sub_dashes]. intros Hs.
  apply andb_true_iff in Hs as [Hc Hrest].
  assert (Ascii.eqb c Py.dash = false) as ->
    by (apply Ascii.eqb_neq; intros ->; discriminate Hc).
  by rewrite IH.
Qed.

(** A number from [10 ^ k] on has more than [k] digits, given the fuel. *)
Lemma digits_length_ge fuel n acc (k : nat) :
  10 ^ Z.of_nat k <= n -> (k <= fuel)%nat ->
  (k + 1 + String.length acc <= String.length (Py.digits fuel n acc))%nat.
Proof.
  revert n acc k. induction fuel as [|fuel IH]; intros n acc k Hn Hk;
    cbn [Py.digits String.length]; [lia|].
  destruct k as [|k].
  { pose proof (digits_length_min (S fuel) n acc) as Hmin.
    cbn [Py.digits] in Hmin. lia. }
  replace (Z.of_nat (S k)) with (Z.succ (Z.of_nat k)) in Hn by lia.
  rewrite Z.pow_succ_r in Hn by lia.
  assert (1 <= 10 ^ Z.of_nat k) as Hpos by (apply Z.lt_pred_le, Z.pow_pos_nonneg; lia).
  destruct (Z.ltb_spec n 10); [lia|].
  assert (10 ^ Z.of_nat k <= n / 10) as Hdiv by (apply Z.div_le_lower_bound; lia).
  pose proof (IH (n / 10) (String (Py.digit_char (n mod 10)) acc) k Hdiv
                ltac:(lia)) as Hlen.
  cbn [String.length] in Hlen. lia.
Qed.

Lemma str_length_below L n :
  1 <= L -> 0 <= n < 10 ^ L -> (String.length (Py.str n) <= Z.to_nat L)%nat.
Proof.
  intros HL Hn. rewrite str_nonneg by lia.
  pose proof (digits_length_max (Z.to_nat (Z.log2 n)) n "" (Z.to_nat L)) as Hmax.
  rewrite Z2Nat.id in Hmax by lia. cbn [String.length] in Hmax. lia.
Qed.

Lemma str_length_pow10 L :
  0 <= L -> String.length (Py.str (10 ^ L)) = S (Z.to_nat L).
Proof.
  intros HL. assert (0 < 10 ^ L) as Hpos by (apply Z.pow_pos_nonneg; lia).
  rewrite str_nonneg by lia.
  assert (L <= Z.log2 (10 ^ L)) as Hlog.
  { rewrite <- (Z.log2_pow2 L HL) at 1. apply Z.log2_le_mono.
    apply Z.pow_le_mono_l. lia. }
  pose proof (digits_length_ge (Z.to_nat (Z.log2 (10 ^ L))) (10 ^ L) ""
                (Z.to_nat L)) as Hge.
  rewrite Z2Nat.id in Hge by lia.
  pose proof (digits_length_max (Z.to_nat (Z.log2 (10 ^ L))) (10 ^ L) ""
                (S (Z.to_nat L))) as Hle.
  replace (Z.of_nat (S (Z.to_nat L))) with (Z.succ L) in Hle by lia.
  rewrite Z.pow_succ_r in Hle by lia. cbn [String.length] in Hge, Hle. lia.
Qed.

Lemma str_digits n : 0 <= n -> all_digits (Py.str n) = true /\ Py.str n <> "".
Proof.
  intros Hn. rewrite str_nonneg by done. split.
  - by apply digits_all_digits.
  - intros Heq. pose proof (digits_length_min (Z.to_nat (Z.log2 n)) n "") as Hmin.
    rewrite Heq in Hmin. cbn [String.length] in Hmin. lia.
Qed.

Lemma number_str_shape L n :
  1 <= L -> 0 <= n <= 10 ^ L -> number_str_ok L (Py.zfill L (Py.str n)).
Proof.
  intros HL Hn. destruct (str_digits n ltac:(lia)) as [Hdig Hne].
  destruct (zfill_digits L (Py.str n) Hdig Hne) as [Hall Hlen].
  split; [done|]. destruct (decide (n = 10 ^ L)) as [->|Hlt].
  - right. rewrite Hlen, str_length_pow10 by lia. split; [|lia].
    unfold Py.zfill. rewrite str_length_pow10 by lia.
    replace (Z.to_nat (L - Z.of_nat (S (Z.to_nat L)))) with 0%nat by lia.
    destruct (Py.str (10 ^ L)) as [|c rest] eqn:Es; [done|].
    assert (Ascii.eqb c Py.dash || Ascii.eqb c "+"%char = false) as ->; [|done].
    cbn [all_digits] in Hdig. apply andb_true_iff in Hdig as [Hc _].
    apply orb_false_iff. split; apply Ascii.eqb_neq; intros ->; discriminate Hc.
  - left. rewrite Hlen. pose proof (str_length_below L n HL ltac:(lia)). lia.
Qed.

Section ResourceIds.
Context {R : Type} {F : Faker R} {FS : FakerSpec R}.

Lemma ensures_generate_number_str config :
  1 <= Config.max_resource_id_length config ->
  ensures (R:=R) (generate_number_str config)
    (number_str_ok (Config.max_resource_id_length config)).
Proof.
  intros HL. unfold generate_number_str.
  destruct (Z.ltb_spec (Config.max_resource_id_length config) 0); [lia|].
  step_with (ensures_random_int 0 _ 1 ltac:(lia)) as n Hn.
  apply ensures_ret. apply number_str_shape; [done | lia].
Qed.

(** Without a prefix and a suffix the loop returns what the generator gave. *)
Lemma ensures_generate_name_loop_plain fuel config generator cache
    (Q : string -> Prop) :
  ensures (R:=R) (generator config) Q ->
  ensures (R:=R) (generate_name_loop fuel config "" "" true generator cache) Q.
Proof.
  intros Hgen. induction fuel as [|fuel IH]; cbn [generate_name_loop Py.truthy].
  - intros w a w' [=].
  - step_with Hgen as mid Hmid.
    eapply ensures_bind; [apply ensures_any | intros seen _].
    destruct seen; cbn [negb]; [exact IH|].
    step_any. apply ensures_ret.
    change ("" +:+ mid +:+ "") with (mid +:+ ""). by rewrite append_nil_r.
Qed.

Lemma ensures_generate_resource_id fuel config :
  1 <= Config.max_resource_id_length config ->
  ensures (R:=R) (generate_resource_id fuel config "" "" true)
    (number_str_ok (Config.max_resource_id_length config)).
Proof.
  intros HL. unfold generate_resource_id, generate_name.
  step_with (ensures_generate_name_loop_plain fuel config generate_number_str
               SEEN_RESOURCE_IDS _ (ensures_generate_number_str config HL))
    as s Hs.
  apply ensures_ret. by rewrite sub_dashes_digits by apply Hs.
Qed.

Lemma node_body_resource_id fuel config _random ix :
  1 <= Config.max_resource_id_length config ->
  ensures (R:=R) (node_body fuel config _random ix)
    (fun node => number_str_ok (Config.max_resource_id_length config)
                   (Node.resource_id node)).
Proof.
  intros HL. unfold node_body. do 3 step_any.
  step_with (ensures_generate_resource_id fuel config HL) as rid Hrid.
  do 2 step_any. by apply ensures_ret.
Qed.

(** X19: The resource id of every node is a string of decimal digits, of the
    configured width unless the randomizer returned its upper bound. *)
Lemma build_data_resource_ids fuel config _random (w w' : world R) data :
  1 <= Config.max_resource_id_length config ->
  build_data fuel config _random w = Ok (data, w') ->
  forall node, node ∈ Dataset.nodes data ->
    number_str_ok (Config.max_resource_id_length config) (Node.resource_id node).
Proof.
  intros HL Hrun. revert w data w' Hrun.
  change (ensures (R:=R) (build_data fuel config _random)
            (fun data => forall node, node ∈ Dataset.nodes data ->
               number_str_ok (Config.max_resource_id_length config)
                 (Node.resource_id node))).
  unfold build_data. step_any.
  step_with (ensures_for_range _ _
               (fun _ node => number_str_ok (Config.max_resource_id_length config)
                                (Node.resource_id node))) as nodes Hnodes.
  { intros ix. by apply node_body_resource_id. }
  apply ensures_ret. intros node Hin. cbn [Dataset.nodes] in Hin.
  apply list_elem_of_lookup in Hin as [i Hi]. exact (proj2 Hnodes _ _ Hi).
Qed.

End ResourceIds.

(** ** Resource ids do not repeat *)

Section Frame.
Context {R : Type} {F : Faker R}.

Lemma keeps_ids_ret {A} (a : A) : keeps_ids (R:=R) (ret a).
Proof. by intros w b w' [= _ <-]. Qed.

Lemma keeps_ids_raise {A} e : keeps_ids (R:=R) (A:=A) (raise e).
Proof. intros w a w' [=]. Qed.

Lemma keeps_ids_bind {A B} (m : M R A) (f : A -> M R B) :
  keeps_ids m -> (forall a, keeps_ids (f a)) -> keeps_ids (bind m f).
Proof.
  intros Hm Hf w b w' Hb. apply bind_Ok in Hb as (a & w1 & Ha & Hb).
  rewrite (Hf _ _ _ _ Hb). exact (Hm _ _ _ Ha).
Qed.

Lemma keeps_ids_if {A} (b : bool) (m1 m2 : M R A) :
  keeps_ids m1 -> keeps_ids m2 -> keeps_ids (if b then m1 else m2).
Proof. by destruct b. Qed.

Lemma keeps_ids_for_each {A B} (xs : list A) (body : A -> M R B) :
  (forall x, keeps_ids (body x)) -> keeps_ids (for_each xs body).
Proof.
  intros Hbody. induction xs as [|x xs IH]; cbn [for_each].
  - apply keeps_ids_ret.
  - apply keeps_ids_bind; [apply Hbody | intros b].
    apply keeps_ids_bind; [apply IH | intros bs]. apply keeps_ids_ret.
Qed.

Lemma keeps_ids_words nb : keeps_ids (R:=R) (FAKER_words nb).
Proof.
  intros w ws w'. unfold FAKER_words. destruct (words nb (rng w)).
  by intros [= _ <-].
Qed.

Lemma keeps_ids_random_int lo hi step :
  keeps_ids (R:=R) (FAKER_random_int lo hi step).
Proof.
  intros w v w'. unfold FAKER_random_int.
  destruct (random_int lo hi step (rng w)) as [[v0 r]|]; [|discriminate].
  by intros [= _ <-].
Qed.

Lemma keeps_ids_pick (_random : bool) bound : keeps_ids (R:=R) (pick _random bound).
Proof. apply keeps_ids_if; [apply keeps_ids_random_int | apply keeps_ids_ret]. Qed.

Lemma keeps_ids_index {A} (l : list A) i : keeps_ids (R:=R) (index l i).
Proof.
  unfold index. destruct (Py.getitem l i); [apply keeps_ids_ret | apply keeps_ids_raise].
Qed.

Lemma keeps_ids_cache_contains c s : keeps_ids (R:=R) (cache_contains c s).
Proof. by intros w b w' [= _ <-]. Qed.

Lemma keeps_ids_cache_add_name s : keeps_ids (R:=R) (cache_add SEEN_NAMES s).
Proof. by intros w b w' [= _ <-]. Qed.

Lemma keeps_ids_generate_words config : keeps_ids (R:=R) (generate_words config).
Proof.
  apply keeps_ids_bind; [apply keeps_ids_words | intros ws; apply keeps_ids_ret].
Qed.

Lemma keeps_ids_generate_labels n : keeps_ids (R:=R) (generate_labels n).
Proof.
  apply keeps_ids_bind; [apply keeps_ids_words | intros ks].
  apply keeps_ids_bind; [apply keeps_ids_words | intros vs]. apply keeps_ids_ret.
Qed.

(** Generating a name works on [SEEN_NAMES] only. *)
Lemma keeps_ids_generate_name fuel config prefix suffix dynamic :
  keeps_ids (R:=R)
    (generate_name fuel config prefix suffix dynamic generate_words SEEN_NAMES).
Proof.
  apply keeps_ids_bind; [|intros s; apply keeps_ids_ret].
  revert prefix suffix. induction fuel as [|fuel IH]; intros prefix suffix;
    cbn [generate_name_loop].
  - intros w a w' [=].
  - apply keeps_ids_bind;
      [apply keeps_ids_if; [apply keeps_ids_generate_words | apply keeps_ids_ret]
      |intros mid].
    apply keeps_ids_bind; [apply keeps_ids_cache_contains | intros seen].
    destruct seen; cbn [negb]; [apply IH|].
    apply keeps_ids_bind; [apply keeps_ids_cache_add_name | intros _].
    apply keeps_ids_ret.
Qed.

End Frame.

Create HintDb frame.
#[local] Hint Resolve keeps_ids_ret keeps_ids_raise keeps_ids_words
  keeps_ids_random_int keeps_ids_pick keeps_ids_index keeps_ids_generate_labels
  keeps_ids_generate_name : frame.

(** Go through the steps of a body none of which touches the resource ids. *)
Ltac frame :=
  repeat first
    [ solve [auto with frame]
    | apply keeps_ids_bind; [|intros ?]
    | apply keeps_ids_if
    | apply keeps_ids_for_each; intros ? ].

Section UniqueIds.
Context {R : Type} {F : Faker R} {FS : FakerSpec R}.

Lemma keeps_ids_volume_claim_body fuel config _random ns_name pods ix :
  keeps_ids (R:=R) (volume_claim_body fuel config _random ns_name pods ix).
Proof. unfold volume_claim_body. frame. Qed.

Lemma keeps_ids_volume_body fuel config _random ns_name pods ix :
  keeps_ids (R:=R) (volume_body fuel config _random ns_name pods ix).
Proof. unfold volume_body. frame. Qed.

Lemma keeps_ids_pod_body fuel config _random cores memory ns_name ix :
  keeps_ids (R:=R) (pod_body fuel config _random cores memory ns_name ix).
Proof. unfold pod_body. frame. Qed.

Lemma keeps_ids_namespace_body fuel config _random node_name cores memory ix :
  keeps_ids (R:=R) (namespace_body fuel config _random node_name cores memory ix).
Proof. unfold namespace_body. frame. Qed.

(** The loop of [generate_name] on [SEEN_RESOURCE_IDS], without prefix and
    suffix: the candidate it returns was new, and is now reserved. *)
Lemma generate_name_loop_reserves fuel config generator :
  keeps_ids (R:=R) (generator config) ->
  reserves_id (R:=R)
    (generate_name_loop fuel config "" "" true generator SEEN_RESOURCE_IDS) id.
Proof.
  intros Hgen. induction fuel as [|fuel IH]; cbn [generate_name_loop Py.truthy].
  - intros w a w' [=].
  - intros w a w' Hrun.
    apply bind_Ok in Hrun as (mid & w1 & Hmid & Hrun).
    apply bind_Ok in Hrun as (seen & w2 & Hseen & Hrun).
    injection Hseen as <- <-. rewrite <- (Hgen _ _ _ Hmid).
    change ("" +:+ mid +:+ "") with (mid +:+ "") in Hrun.
    rewrite append_nil_r in Hrun.
    destruct (bool_decide (mid ∈ seen_resource_ids w1)) eqn:Hin; cbn [negb] in Hrun.
    + exact (IH _ _ _ Hrun).
    + apply bool_decide_eq_false in Hin. injection Hrun as <- <-. done.
Qed.

Lemma keeps_ids_generate_number_str config :
  keeps_ids (R:=R) (generate_number_str config).
Proof. unfold generate_number_str. frame. Qed.

Lemma generate_resource_id_reserves fuel config :
  1 <= Config.max_resource_id_length config ->
  reserves_id (R:=R) (generate_resource_id fuel config "" "" true) id.
Proof.
  intros HL w rid w' Hrun. unfold generate_resource_id, generate_name in Hrun.
  apply bind_Ok in Hrun as (s & w1 & Hloop & Hret). injection Hret as <- <-.
  assert (all_digits s = true) as Hdig.
  { exact (proj1 (ensures_generate_name_loop_plain fuel config generate_number_str
                    SEEN_RESOURCE_IDS _ (ensures_generate_number_str config HL)
                    _ _ _ Hloop)). }
  rewrite (sub_dashes_digits s Hdig).
  exact (generate_name_loop_reserves fuel config generate_number_str
           (keeps_ids_generate_number_str config) _ _ _ Hloop).
Qed.

Lemma node_body_reserves fuel config _random ix :
  1 <= Config.max_resource_id_length config ->
  reserves_id (R:=R) (node_body fuel config _random ix) Node.resource_id.
Proof.
  intros HL w node w' Hrun. unfold node_body in Hrun.
  apply bind_Ok in Hrun as (cores & w1 & H1 & Hrun).
  apply bind_Ok in Hrun as (memory & w2 & H2 & Hrun).
  apply bind_Ok in Hrun as (name & w3 & H3 & Hrun).
  apply bind_Ok in Hrun as (rid & w4 & H4 & Hrun).
  apply bind_Ok in Hrun as (n & w5 & H5 & Hrun).
  apply bind_Ok in Hrun as (nss & w6 & H6 & Hrun).
  injection Hrun as <- <-. cbn [Node.resource_id].
  apply keeps_ids_pick in H1, H2, H5. apply keeps_ids_generate_name in H3.
  apply (keeps_ids_for_each _ _
           (keeps_ids_namespace_body fuel config _random name cores memory)) in H6.
  destruct (generate_resource_id_reserves fuel config HL _ _ _ H4) as [Hnew Hadd].
  cbn [id] in Hnew, Hadd. rewrite H6, H5, Hadd, <- H3, <- H2, <- H1 in *. done.
Qed.

(** A loop whose every iteration reserves an id reserves distinct ids. *)
Lemma for_each_reserves {A B} (xs : list A) (body : A -> M R B) id_of :
  (forall x, reserves_id (body x) id_of) ->
  forall w bs w', for_each xs body w = Ok (bs, w') ->
    NoDup (id_of <$> bs) /\
    (forall s, s ∈ id_of <$> bs -> s ∉ seen_resource_ids w) /\
    seen_resource_ids w' = list_to_set (id_of <$> bs) ∪ seen_resource_ids w.
Proof.
  intros Hbody. induction xs as [|x xs IH]; intros w bs w' Hrun; cbn [for_each] in Hrun.
  - injection Hrun as <- <-. split; [constructor|]. split; [|set_solver].
    intros s Hs. by apply elem_of_nil in Hs.
  - apply bind_Ok in Hrun as (b & w1 & Hb & Hrun).
    apply bind_Ok in Hrun as (bs' & w2 & Hbs & Hrun). injection Hrun as <- <-.
    destruct (Hbody _ _ _ _ Hb) as [Hnew Hadd].
    destruct (IH _ _ _ Hbs) as (Hnd & Hfresh & Hseen).
    rewrite fmap_cons. split; [|split].
    + constructor; [|done]. intros Hin. apply (Hfresh _ Hin). rewrite Hadd. set_solver.
    + intros s Hs. apply elem_of_cons in Hs as [-> | Hs]; [done|].
      specialize (Hfresh _ Hs). rewrite Hadd in Hfresh. set_solver.
    + rewrite Hseen, Hadd. set_solver.
Qed.

(** X20: The resource ids of a run are pairwise distinct, none of them was
    handed out before, and all of them are remembered for later runs. *)
Lemma build_data_resource_ids_unique fuel config _random (w w' : world R) data :
  1 <= Config.max_resource_id_length config ->
  build_data fuel config _random w = Ok (data, w') ->
  NoDup (resource_ids data) /\
  (forall s, s ∈ resource_ids data -> s ∉ seen_resource_ids w) /\
  seen_resource_ids w' = list_to_set (resource_ids data) ∪ seen_resource_ids w.
Proof.
  intros HL Hrun. unfold build_data in Hrun.
  apply bind_Ok in Hrun as (n & w1 & Hn & Hrun).
  apply bind_Ok in Hrun as (nodes & w2 & Hnodes & Hrun). injection Hrun as <- <-.
  apply keeps_ids_pick in Hn. rewrite <- Hn. unfold resource_ids. cbn [Dataset.nodes].
  exact (for_each_reserves _ _ _
           (fun ix => node_body_reserves fuel config _random ix HL) _ _ _ Hnodes).
Qed.

End UniqueIds.

(** ** Properties of [init_config] *)

Lemma and_then_Ok {A B} (m : outcome A) (f : A -> outcome B) b :
  and_then m f = Ok b -> exists a, m = Ok a /\ f a = Ok b.
Proof. destruct m as [a| |]; simpl; [eauto | discriminate..]. Qed.

Lemma date_arg_Ok parse (a : option string) d :
  date_arg parse a = Ok d ->
  if given a
  then exists s dt, a = Some s /\ parse s = Some dt /\ d = Some (dt_date dt)
  else d = None.
Proof.
  unfold date_arg, given. destruct a as [s|]; [|by intros [= <-]].
  destruct (Py.truthy s); [|by intros [= <-]].
  destruct (parse s) as [dt|] eqn:Hp; [|discriminate].
  intros [= <-]. eauto.
Qed.

Lemma handle_args_Ok path_exists parse (a : args string) a' :
  handle_args path_exists parse a = Ok a' ->
  config_file_name a' = config_file_name a /\
  date_arg parse (start_date a) = Ok (start_date a') /\
  date_arg parse (end_date a) = Ok (end_date a') /\
  num_nodes a' = match num_nodes a with
                 | Some n => if n <? 1 then None else Some n
                 | None => None
                 end.
Proof.
  unfold handle_args.
  destruct (_ && _); [discriminate|]. destruct (negb _); [discriminate|].
  destruct (_ =? 1); [discriminate|]. intros Hok.
  apply and_then_Ok in Hok as (sd & Hsd & Hok).
  apply and_then_Ok in Hok as (ed & Hed & Hok).
  injection Hok as <-. by simpl.
Qed.

(** How [parse_if_str] leaves a configuration. *)
Lemma parse_if_str_Ok parse key (c c' : gmap string value) :
  parse_if_str parse key c = Ok c' ->
  (forall k, k <> key -> c' !! k = c !! k) /\
  exists v v', c !! key = Some v /\ c' !! key = Some v' /\
    match v with
    | VStr s => exists dt, parse s = Some dt /\ v' = VDateTime dt
    | _ => v' = v
    end.
Proof.
  unfold parse_if_str. destruct (c !! key) as [v|] eqn:Hv; [|discriminate].
  destruct v; try (intros [= <-]; split; [done | by eauto]).
  destruct (parse s) as [dt|] eqn:Hp; [|discriminate]. intros [= <-]. split.
  - intros k Hk. by rewrite lookup_insert_ne.
  - exists (VStr s), (VDateTime dt). rewrite lookup_insert_eq. eauto.
Qed.

(** The steps of [init_config], one configuration after the other. *)
Lemma init_config_Ok parse load_settings today (a' : args date) config :
  init_config parse load_settings today a' = Ok config ->
  exists c0 c2 c4 : gmap string value,
    (if given (config_file_name a')
     then exists settings,
            load_settings (default "" (config_file_name a')) = Ok settings /\
            c0 = settings ∪ default_config today
     else c0 = default_config today) /\
    parse_if_str parse "start_date"
      (match start_date a' with
       | Some d => <["start_date" := VDate d]> c0
       | None => c0
       end) = Ok c2 /\
    parse_if_str parse "end_date"
      (match end_date a' with
       | Some d => <["end_date" := VDate d]> c2
       | None => c2
       end) = Ok c4 /\
    config = match num_nodes a' with
             | Some n => if n =? 0 then c4 else <["max_nodes" := VInt n]> c4
             | None => c4
             end.
Proof.
  unfold init_config. intros Hok.
  apply and_then_Ok in Hok as (c0 & Hc0 & Hok).
  apply and_then_Ok in Hok as (c2 & Hc2 & Hok).
  apply and_then_Ok in Hok as (c4 & Hc4 & Hok).
  apply and_then_Ok in Hok as (b & _ & Hok). injection Hok as <-.
  exists c0, c2, c4. repeat split; try done.
  destruct (given (config_file_name a')).
  - apply and_then_Ok in Hc0 as (settings & Hload & Hc0). injection Hc0 as <-. eauto.
  - by injection Hc0 as <-.
Qed.

Lemma default_start_date today :
  default_config today !! "start_date" = Some (VDate (first_day_of_last_month today)).
Proof. reflexivity. Qed.

Lemma default_end_date today :
  default_config today !! "end_date"
  = Some (VDate (Date (year today) (month today)
                   (last_day_of_month (year today) (month today)))).
Proof. reflexivity. Qed.

(** The effective configuration, key by key, in terms of the command line
    and of the file settings laid over the defaults. *)
Lemma init_config_lookup path_exists parse load_settings today
    (a : args string) (a' : args date) (settings config : gmap string value) :
  handle_args path_exists parse a = Ok a' ->
  file_settings load_settings a settings ->
  init_config parse load_settings today a' = Ok config ->
  (forall k, k <> "start_date" -> k <> "end_date" -> k <> "max_nodes" ->
     config !! k = (settings ∪ default_config today) !! k) /\
  config !! "max_nodes" =
    match num_nodes a with
    | Some n => if n <? 1 then (settings ∪ default_config today) !! "max_nodes"
                else Some (VInt n)
    | None => (settings ∪ default_config today) !! "max_nodes"
    end /\
  (if given (start_date a)
   then exists s dt, start_date a = Some s /\ parse s = Some dt /\
          config !! "start_date" = Some (VDate (dt_date dt))
   else exists v v', (settings ∪ default_config today) !! "start_date" = Some v /\
          config !! "start_date" = Some v' /\ stored parse "start_date" v v') /\
  (if given (end_date a)
   then exists s dt, end_date a = Some s /\ parse s = Some dt /\
          config !! "end_date" = Some (VDate (dt_date dt))
   else exists v v', (settings ∪ default_config today) !! "end_date" = Some v /\
          config !! "end_date" = Some v' /\ stored parse "end_date" v v').
Proof.
  intros Hargs Hfile Hinit.
  apply handle_args_Ok in Hargs as (Hcfg & Hsd & Hed & Hnum).
  apply init_config_Ok in Hinit as (c0 & c2 & c4 & Hc0 & Hc2 & Hc4 & ->).
  assert (c0 = settings ∪ default_config today) as ->.
  { unfold file_settings in Hfile. rewrite Hcfg in Hc0.
    destruct (given (config_file_name a)).
    - destruct Hc0 as (settings' & Hload & ->). congruence.
    - subst. by rewrite (left_id_L ∅ (∪)). }
  set (c0 := settings ∪ default_config today) in *. clearbody c0. clear Hc0 Hfile.
  apply parse_if_str_Ok in Hc2 as (Hc2o & v2 & v2' & Hv2 & Hv2' & Hst2).
  apply parse_if_str_Ok in Hc4 as (Hc4o & v4 & v4' & Hv4 & Hv4' & Hst4).
  apply date_arg_Ok in Hsd. apply date_arg_Ok in Hed.
  assert (forall k, k <> "max_nodes" ->
            match num_nodes a' with
            | Some n => if n =? 0 then c4 else <["max_nodes" := VInt n]> c4
            | None => c4
            end !! k = c4 !! k) as Hlast.
  { intros k Hk. destruct (num_nodes a') as [n|]; [|done].
    destruct (n =? 0); [done|]. by rewrite lookup_insert_ne. }
  assert (forall k, k <> "end_date" ->
            match end_date a' with
            | Some d => <["end_date" := VDate d]> c2
            | None => c2
            end !! k = c2 !! k) as Hmid.
  { intros k Hk. destruct (end_date a'); [|done]. by rewrite lookup_insert_ne. }
  assert (forall k, k <> "start_date" ->
            match start_date a' with
            | Some d => <["start_date" := VDate d]> c0
            | None => c0
            end !! k = c0 !! k) as Hfirst.
  { intros k Hk. destruct (start_date a'); [|done]. by rewrite lookup_insert_ne. }
  split; [|split; [|split]].
  - intros k Hk1 Hk2 Hk3.
    by rewrite Hlast, Hc4o, Hmid, Hc2o, Hfirst.
  - rewrite Hnum. destruct (num_nodes a) as [n|].
    + destruct (Z.ltb_spec n 1).
      * by rewrite Hc4o, Hmid, Hc2o, Hfirst.
      * destruct (Z.eqb_spec n 0); [lia|]. by rewrite lookup_insert_eq.
    + by rewrite Hc4o, Hmid, Hc2o, Hfirst.
  - rewrite Hlast, Hc4o, Hmid by done.
    destruct (given (start_date a)).
    + destruct Hsd as (s & dt & Hs & Hp & Hd). exists s, dt.
      rewrite Hd, lookup_insert_eq in Hv2.
      injection Hv2 as <-. subst v2'. done.
    + rewrite Hsd in Hv2. exists v2, v2'. repeat split; try done; unfold stored; by destruct v2.
  - rewrite Hlast by done.
    destruct (given (end_date a)).
    + destruct Hed as (s & dt & Hs & Hp & Hd). exists s, dt.
      rewrite Hd, lookup_insert_eq in Hv4.
      injection Hv4 as <-. subst v4'. done.
    + rewrite Hed, Hc2o, Hfirst in Hv4 by done.
      exists v4, v4'. repeat split; try done; unfold stored; by destruct v4.
Qed.

Lemma stored_same parse k v :
  k <> "start_date" -> k <> "end_date" -> stored parse k v v.
Proof.
  intros H1 H2. unfold stored. destruct v; try done.
  rewrite bool_decide_eq_false_2; [done | by intros [?|?]].
Qed.

Lemma stored_other parse k v v' :
  k <> "start_date" -> k <> "end_date" -> stored parse k v v' -> v' = v.
Proof.
  intros H1 H2. unfold stored. destruct v; try done.
  rewrite bool_decide_eq_false_2; [done | by intros [?|?]].
Qed.

(** C6: in the effective configuration a key set in the config file
    overrides its default; a start date, an end date or a node count given
    on the command line overrides both the file and the default; a key that
    nothing overrides keeps its default; a node count below 1 is ignored, so
    that [max_nodes] keeps its file or default value. *)
Theorem init_config_precedence path_exists parse load_settings today
    (a : args string) (a' : args date) (settings config : gmap string value) :
  handle_args path_exists parse a = Ok a' ->
  file_settings load_settings a settings ->
  init_config parse load_settings today a' = Ok config ->
  merged_by_precedence parse today a settings config.
Proof.
  intros Hargs Hfile Hinit.
  destruct (init_config_lookup _ _ _ _ _ _ _ _ Hargs Hfile Hinit)
    as (Hother & Hnodes & Hstart & Hend).
  assert (~ overridden a "max_nodes" ->
          config !! "max_nodes" = (settings ∪ default_config today) !! "max_nodes")
    as Hkeep.
  { intros Hno. rewrite Hnodes. destruct (num_nodes a) as [n|] eqn:Hn; [|done].
    destruct (Z.ltb_spec n 1); [done|]. destruct Hno. right; right.
    split; [done|]. exists n. split; [done | lia]. }
  assert (forall k, ~ overridden a k ->
            exists v v', (settings ∪ default_config today) !! k = Some v /\
              config !! k = Some v' /\ stored parse k v v' \/
            (settings ∪ default_config today) !! k = None /\ config !! k = None)
    as Hall.
  { intros k Hno.
    destruct (decide (k = "start_date")) as [->|Hk1].
    { destruct (given (start_date a)) eqn:Hg; [destruct Hno; by left|].
      destruct Hstart as (v & v' & ? & ? & ?). exists v, v'. by left. }
    destruct (decide (k = "end_date")) as [->|Hk2].
    { destruct (given (end_date a)) eqn:Hg; [destruct Hno; right; by left|].
      destruct Hend as (v & v' & ? & ? & ?). exists v, v'. by left. }
    assert (config !! k = (settings ∪ default_config today) !! k) as Hsame.
    { destruct (decide (k = "max_nodes")) as [->|Hk3]; [by apply Hkeep|].
      by apply Hother. }
    rewrite Hsame. destruct ((settings ∪ default_config today) !! k) as [v|].
    - exists v, v. left. repeat split; try done. by apply stored_same.
    - exists VNone, VNone. by right. }
  repeat split.
  - intros k v Hv Hno.
    destruct (Hall k Hno) as (v0 & v' & [(Hv0 & Hc & Hst) | (Hnone & _)]).
    + rewrite (lookup_union_Some_l _ _ _ _ Hv) in Hv0. injection Hv0 as <-. eauto.
    + by rewrite (lookup_union_Some_l _ _ _ _ Hv) in Hnone.
  - intros s Hs Ht. unfold given in Hstart. rewrite Hs, Ht in Hstart.
    destruct Hstart as (s' & dt & [= <-] & Hp & Hc). eauto.
  - intros s Hs Ht. unfold given in Hend. rewrite Hs, Ht in Hend.
    destruct Hend as (s' & dt & [= <-] & Hp & Hc). eauto.
  - intros n Hn Hge. rewrite Hnodes, Hn. by destruct (Z.ltb_spec n 1); [lia|].
  - intros k Hnone Hno.
    assert ((settings ∪ default_config today) !! k = default_config today !! k)
      as Hdef by (by rewrite lookup_union_r).
    destruct (Hall k Hno) as (v0 & v' & [(Hv0 & Hc & Hst) | (Hn & Hc)]).
    + rewrite Hc, <- Hdef, Hv0. f_equal.
      destruct (decide (k = "start_date")) as [->|Hk1].
      { rewrite Hdef, default_start_date in Hv0. by injection Hv0 as <-. }
      destruct (decide (k = "end_date")) as [->|Hk2].
      { rewrite Hdef, default_end_date in Hv0. by injection Hv0 as <-. }
      exact (stored_other _ _ _ _ Hk1 Hk2 Hst).
    + by rewrite Hc, <- Hdef, Hn.
  - intros n Hn Hlt. rewrite Hnodes, Hn. by destruct (Z.ltb_spec n 1); [|lia].
Qed.

Lemma init_config_precedence_witness :
  match handle_args (fun _ => true) sample_parse sample_args with
  | Ok a' =>
      match init_config sample_parse (fun _ => Ok sample_settings)
              (Date 2026 11 4) a' with
      | Ok config =>
          merged_by_precedence sample_parse (Date 2026 11 4) sample_args
            sample_settings config
      | _ => False
      end
  | _ => False
  end.
Proof.
  assert (returned
            (and_then (handle_args (fun _ => true) sample_parse sample_args)
               (init_config sample_parse (fun _ => Ok sample_settings)
                  (Date 2026 11 4))) = true) as Hret
    by (vm_compute; reflexivity).
  destruct (handle_args (fun _ => true) sample_parse sample_args)
    as [a'| |] eqn:Ea; [|discriminate Hret..].
  unfold and_then in Hret.
  destruct (init_config sample_parse (fun _ => Ok sample_settings)
              (Date 2026 11 4) a') as [config| |] eqn:Ec; [|discriminate Hret..].
  assert (file_settings (fun _ => Ok sample_settings) sample_args sample_settings)
    as Hfile by reflexivity.
  exact (init_config_precedence (fun _ => true) sample_parse
           (fun _ => Ok sample_settings) (Date 2026 11 4) sample_args a'
           sample_settings config Ea Hfile Ec).
Defined.

(** ** Where the generated names and resource ids go wrong *)

(** C1: uniqueness of names fails.  [generate_name] checks the cache with the
    name as assembled, but returns it with every run of hyphens collapsed,
    and a retry lengthens the hyphen runs of the prefix and the suffix.  When
    the randomizer draws the same two words for a second namespace of a node,
    the retry is accepted and both namespaces (and their pods, volumes and
    volume claims) get the same names. *)
Theorem generated_names_repeat :
  namespace_names_of
    (build_data 4 twin_settings false (Script.start twin_words [12345]))
  = ["amet-bonum-civis-dolor"; "amet-bonum-civis-dolor"] /\
  ~ NoDup (all_names_of
             (build_data 4 twin_settings false (Script.start twin_words [12345]))) /\
  (fun o => match o with Ok (names, _) => Some names | _ => None end)
    (generate_name_twice 4 default_settings "x" "0" false (Script.start [] []))
  = Some ("x-0", "x-0").
Proof.
  split; [by vm_compute|]. split; [|by vm_compute].
  apply (bool_decide_eq_false (NoDup _)). by vm_compute.
Qed.

(** C8: the resource id can be one character longer than
    [max_resource_id_length]: [random_int(0, 10 ** L)] includes [10 ** L],
    which has [L + 1] digits, and [zfill] never shortens. *)
Theorem resource_id_overlong :
  Config.max_resource_id_length default_settings = 10 /\
  resource_id_lengths_of
    (build_data 4 default_settings false
       (Script.start scenario_words [10000000000]))
  = [11%nat].
Proof. split; [done | by vm_compute]. Qed.

(** ** Hyphen runs *)

Lemma sub_dashes_dash_head s :
  exists r, Py.sub_dashes (String Py.dash s) = String Py.dash r.
Proof.
  induction s as [|c s IH]; [by exists ""|].
  cbn [Py.sub_dashes]. rewrite Ascii.eqb_refl.
  destruct (Ascii.eqb c Py.dash) eqn:Hc.
  - apply Ascii.eqb_eq in Hc as ->. exact IH.
  - eauto.
Qed.

Lemma no_double_dash_cons c s :
  Ascii.eqb c Py.dash = false -> no_double_dash (String c s) = no_double_dash s.
Proof. intros Hc. destruct s as [|c' s]; [done|]. cbn [no_double_dash]. by rewrite Hc. Qed.

Lemma no_double_dash_cons2 c c' s :
  Ascii.eqb c' Py.dash = false ->
  no_double_dash (String c (String c' s)) = no_double_dash (String c' s).
Proof. intros Hc. cbn [no_double_dash]. by rewrite Hc, andb_false_r. Qed.

Lemma sub_dashes_no_double_dash s : no_double_dash (Py.sub_dashes s) = true.
Proof.
  induction s as [|c s IH]; [done|]. cbn [Py.sub_dashes].
  destruct (Ascii.eqb c Py.dash) eqn:Hc.
  - destruct s as [|c' s]; [done|].
    destruct (Ascii.eqb c' Py.dash) eqn:Hc'; [exact IH|].
    cbn [Py.sub_dashes] in *. rewrite Hc' in *.
    by rewrite no_double_dash_cons2.
  - by rewrite no_double_dash_cons.
Qed.

Lemma sub_dashes_fixed s : no_double_dash s = true -> Py.sub_dashes s = s.
Proof.
  induction s as [|c s IH]; [done|]. intros Hs. cbn [Py.sub_dashes].
  destruct s as [|c' s]; [by destruct (Ascii.eqb c Py.dash)|].
  cbn [no_double_dash] in Hs. apply andb_true_iff in Hs as [Hcc Hs].
  rewrite (IH Hs). destruct (Ascii.eqb c Py.dash); [|done].
  by destruct (Ascii.eqb c' Py.dash).
Qed.

Lemma sub_dashes_idempotent s : Py.sub_dashes (Py.sub_dashes s) = Py.sub_dashes s.
Proof. apply sub_dashes_fixed, sub_dashes_no_double_dash. Qed.

(** Collapsing keeps a prefix that has no hyphen run of its own. *)
Lemma sub_dashes_keeps_prefix a b :
  no_double_dash a = true -> starts_with a (Py.sub_dashes (a +:+ b)).
Proof.
  induction a as [|c a IH]; intros Ha; [by exists (Py.sub_dashes b)|].
  change (String c a +:+ b) with (String c (a +:+ b)).
  destruct a as [|c' a].
  - change ("" +:+ b) with b. destruct (Ascii.eqb c Py.dash) eqn:Hc.
    + apply Ascii.eqb_eq in Hc as ->.
      destruct (sub_dashes_dash_head b) as [r Hr]. exists r. by rewrite Hr.
    + exists (Py.sub_dashes b). cbn [Py.sub_dashes]. by rewrite Hc.
  - cbn [no_double_dash] in Ha. apply andb_true_iff in Ha as [Hcc Ha].
    destruct (IH Ha) as [r Hr].
    change (String c' a +:+ b) with (String c' (a +:+ b)) in *.
    exists r. cbn [Py.sub_dashes] in *.
    destruct (Ascii.eqb c Py.dash) eqn:Hc.
    + simpl in Hcc. apply negb_true_iff in Hcc. rewrite Hcc in *.
      by rewrite Hr.
    + by rewrite Hr.
Qed.

(** ** What [generate_name] does to the caches *)

Lemma starts_with_refl a : starts_with a a.
Proof. exists "". by rewrite append_nil_r. Qed.

Lemma starts_with_app a b : starts_with a (a +:+ b).
Proof. by exists b. Qed.

Lemma starts_with_trans a b c : starts_with a b -> starts_with b c -> starts_with a c.
Proof. intros [r ->] [r' ->]. exists (r +:+ r'). by rewrite append_assoc. Qed.

Lemma keeps_caches_ret {R A} (a : A) : keeps_caches (R:=R) (ret a).
Proof. by intros w b w' [= _ <-]. Qed.

Lemma keeps_caches_bind {R A B} (m : M R A) (f : A -> M R B) :
  keeps_caches m -> (forall a, keeps_caches (f a)) -> keeps_caches (bind m f).
Proof.
  intros Hm Hf w b w' Hb. apply bind_Ok in Hb as (a & w1 & Ha & Hb).
  destruct (Hm _ _ _ Ha) as [<- <-]. exact (Hf _ _ _ _ Hb).
Qed.

Section Caches.
Context {R : Type} {F : Faker R}.

Lemma keeps_caches_words nb : keeps_caches (R:=R) (FAKER_words nb).
Proof.
  intros w ws w'. unfold FAKER_words. destruct (words nb (rng w)).
  by intros [= _ <-].
Qed.

Lemma keeps_caches_random_int lo hi step :
  keeps_caches (R:=R) (FAKER_random_int lo hi step).
Proof.
  intros w v w'. unfold FAKER_random_int.
  destruct (random_int lo hi step (rng w)) as [[v0 r]|]; [|discriminate].
  by intros [= _ <-].
Qed.

Lemma keeps_caches_generate_words config :
  keeps_caches (R:=R) (generate_words config).
Proof.
  apply keeps_caches_bind; [apply keeps_caches_words | intros ws].
  apply keeps_caches_ret.
Qed.

Lemma keeps_caches_generate_number_str config :
  keeps_caches (R:=R) (generate_number_str config).
Proof.
  unfold generate_number_str. destruct (_ <? 0); [by intros w a w' [=]|].
  apply keeps_caches_bind; [apply keeps_caches_random_int | intros n].
  apply keeps_caches_ret.
Qed.

Lemma cache_of_keeps {A} (m : M R A) c w a w' :
  keeps_caches m -> m w = Ok (a, w') -> cache_of c w' = cache_of c w.
Proof. intros Hm Hrun. destruct (Hm _ _ _ Hrun). by destruct c. Qed.

(** The loop returns a candidate that was not in its cache, adds it, and
    leaves the other cache alone; the candidate starts with the prefix. *)
Lemma generate_name_loop_reserves_in fuel config prefix suffix dynamic generator
    cache (w w' : world R) cand :
  keeps_caches (generator config) ->
  generate_name_loop fuel config prefix suffix dynamic generator cache w
    = Ok (cand, w') ->
  (cand ∉ cache_of cache w) /\
  cache_of cache w' = {[ cand ]} ∪ cache_of cache w /\
  cache_of (other_cache cache) w' = cache_of (other_cache cache) w /\
  starts_with prefix cand.
Proof.
  intros Hgen. revert prefix suffix w.
  induction fuel as [|fuel IH]; intros prefix suffix w Hrun;
    cbn [generate_name_loop] in Hrun; [discriminate|].
  set (prefix' := if Py.truthy prefix then prefix +:+ "-" else prefix) in *.
  set (suffix' := if Py.truthy suffix then "-" +:+ suffix else suffix) in *.
  assert (starts_with prefix prefix') as Hpre.
  { subst prefix'. destruct (Py.truthy prefix);
      [apply starts_with_app | apply starts_with_refl]. }
  apply bind_Ok in Hrun as (mid & w1 & Hmid & Hrun).
  assert (keeps_caches (if dynamic then generator config else ret "")) as Hmidk
    by (destruct dynamic; [done | apply keeps_caches_ret]).
  apply bind_Ok in Hrun as (seen & w2 & Hseen & Hrun).
  injection Hseen as <- <-.
  rewrite <- !(cache_of_keeps _ _ _ _ _ Hmidk Hmid).
  destruct (negb _) eqn:Hneg.
  - injection Hrun as <- <-. apply negb_true_iff in Hneg.
    repeat split.
    + destruct cache; by apply bool_decide_eq_false in Hneg.
    + by destruct cache.
    + by destruct cache.
    + eapply starts_with_trans; [exact Hpre | apply starts_with_app].
  - destruct (IH _ _ _ Hrun) as (H1 & H2 & H3 & H4).
    repeat split; try done. by eapply starts_with_trans.
Qed.

(** Without prefix, suffix and generator the only candidate is the empty
    name: once that is taken, the loop never ends. *)
Lemma generate_name_loop_stuck fuel config generator cache (w : world R) :
  "" ∈ cache_of cache w ->
  generate_name_loop fuel config "" "" false generator cache w = Diverge.
Proof.
  intros Hin. induction fuel as [|fuel IH]; [done|].
  cbn [generate_name_loop Py.truthy]. unfold bind, ret, cache_contains.
  change ("" +:+ "" +:+ "") with "".
  assert (match cache with
          | SEEN_NAMES => bool_decide ("" ∈ seen_names w)
          | SEEN_RESOURCE_IDS => bool_decide ("" ∈ seen_resource_ids w)
          end = true) as ->
    by (destruct cache; by apply bool_decide_eq_true).
  exact IH.
Qed.

End Caches.

(** ** When the loop of [generate_name] ends *)

Lemma truthy_length s : Py.truthy s = true <-> (0 < String.length s)%nat.
Proof. destruct s; simpl; [split; [done | lia] | split; [lia | done]]. Qed.

Lemma truthy_next_prefix p :
  Py.truthy (if Py.truthy p then p +:+ "-" else p) = Py.truthy p.
Proof. destruct p; reflexivity. Qed.

Lemma truthy_next_suffix s :
  Py.truthy (if Py.truthy s then "-" +:+ s else s) = Py.truthy s.
Proof. destruct s; reflexivity. Qed.

Section Termination.
Context {R : Type} {F : Faker R}.

Lemma cache_contains_run cache s (w : world R) :
  cache_contains cache s w = Ok (bool_decide (s ∈ cache_of cache w), w).
Proof. by destruct cache. Qed.

(** One more iteration of the static loop: either the candidate is new, or
    the loop goes on with the longer prefix and suffix. *)
Lemma generate_name_loop_static_step fuel config prefix suffix generator cache
    (w : world R) :
  let prefix' := if Py.truthy prefix then prefix +:+ "-" else prefix in
  let suffix' := if Py.truthy suffix then "-" +:+ suffix else suffix in
  generate_name_loop (S fuel) config prefix suffix false generator cache w =
    if bool_decide (prefix' +:+ suffix' ∈ cache_of cache w)
    then generate_name_loop fuel config prefix' suffix' false generator cache w
    else bind (cache_add cache (prefix' +:+ suffix')) (fun _ => ret (prefix' +:+ suffix')) w.
Proof.
  intros prefix' suffix'. cbn [generate_name_loop]. fold prefix' suffix'.
  unfold bind at 1. unfold ret at 1. unfold bind at 1.
  change (prefix' +:+ "" +:+ suffix') with (prefix' +:+ suffix').
  rewrite cache_contains_run. by destruct (bool_decide _).
Qed.

Lemma generate_name_loop_static_returns fuel config prefix suffix generator cache
    (w : world R) :
  Py.truthy prefix || Py.truthy suffix = true ->
  (size (filter (fun x =>
           String.length ((if Py.truthy prefix then prefix +:+ "-" else prefix)
                          +:+ (if Py.truthy suffix then "-" +:+ suffix else suffix))
           <= String.length x)%nat (cache_of cache w)) < fuel)%nat ->
  exists cand w',
    generate_name_loop fuel config prefix suffix false generator cache w
    = Ok (cand, w').
Proof.
  revert prefix suffix. induction fuel as [|fuel IH]; intros prefix suffix Hne Hsize;
    [lia|].
  rewrite generate_name_loop_static_step.
  set (prefix' := if Py.truthy prefix then prefix +:+ "-" else prefix) in *.
  set (suffix' := if Py.truthy suffix then "-" +:+ suffix else suffix) in *.
  destruct (bool_decide (prefix' +:+ suffix' ∈ cache_of cache w)) eqn:Hin.
  2:{ unfold bind, cache_add, ret. eauto. }
  apply bool_decide_eq_true in Hin. apply IH.
  - subst prefix' suffix'. by rewrite truthy_next_prefix, truthy_next_suffix.
  - eapply Nat.lt_le_trans; [|apply Nat.lt_succ_r, Hsize].
    apply subset_size. apply strict_spec_alt. split.
    + intros x. rewrite !elem_of_filter. intros [Hlen Hx]. split; [|done].
      etransitivity; [|exact Hlen]. rewrite !length_append.
      destruct (Py.truthy prefix'), (Py.truthy suffix');
        rewrite ?length_append; simpl; lia.
    + intros Heq.
      assert (prefix' +:+ suffix' ∈
                filter (fun x => (String.length (prefix' +:+ suffix')
                                  <= String.length x)%nat) (cache_of cache w)) as Hc
        by (apply elem_of_filter; split; [lia | done]).
      rewrite <- Heq in Hc. apply elem_of_filter in Hc as [Hlen _].
      revert Hlen. rewrite !length_append.
      assert (Py.truthy prefix' || Py.truthy suffix' = true) as Hne'.
      { subst prefix' suffix'. by rewrite truthy_next_prefix, truthy_next_suffix. }
      destruct (Py.truthy prefix'), (Py.truthy suffix');
        rewrite ?length_append; simpl; lia.
Qed.

End Termination.

(** ** Properties of [generate_name] *)

(** X1: A name [generate_name] returns never has two hyphens in a row, whatever
    the prefix, the suffix and the generator put into it. *)
Theorem generate_name_no_double_dash {R} {F : Faker R}
    fuel config prefix suffix dynamic generator cache (w w' : world R) name :
  generate_name fuel config prefix suffix dynamic generator cache w = Ok (name, w') ->
  no_double_dash name = true.
Proof.
  unfold generate_name. intros Hrun.
  apply bind_Ok in Hrun as (cand & w1 & _ & Hret). injection Hret as <- _.
  apply sub_dashes_no_double_dash.
Qed.

Lemma generate_name_no_double_dash_witness :
  match generate_name 3 default_settings "a--b" "--0" false generate_words
          SEEN_NAMES (world_with_names []) with
  | Ok (name, _) => no_double_dash name = true
  | _ => False
  end.
Proof.
  assert (returned (generate_name 3 default_settings "a--b" "--0" false
            generate_words SEEN_NAMES (world_with_names [])) = true) as Hret
    by (vm_compute; reflexivity).
  destruct (generate_name 3 default_settings "a--b" "--0" false generate_words
              SEEN_NAMES (world_with_names [])) as [[name w']| |] eqn:E;
    [|discriminate Hret..].
  exact (generate_name_no_double_dash 3 default_settings "a--b" "--0" false
           generate_words SEEN_NAMES _ _ _ E).
Defined.

(** X2: When [generate_name] returns, the name is the hyphen-collapsed form of a
    candidate that starts with the prefix, was not in the cache it was given,
    and is the one element added to that cache; the other cache is left
    alone (for a generator that does not touch the caches, as the two of the
    module). *)
Theorem generate_name_reserves {R} {F : Faker R}
    fuel config prefix suffix dynamic generator cache (w w' : world R) name :
  keeps_caches (generator config) ->
  generate_name fuel config prefix suffix dynamic generator cache w = Ok (name, w') ->
  exists cand,
    name = Py.sub_dashes cand /\
    starts_with prefix cand /\
    (cand ∉ cache_of cache w) /\
    cache_of cache w' = {[ cand ]} ∪ cache_of cache w /\
    cache_of (other_cache cache) w' = cache_of (other_cache cache) w.
Proof.
  intros Hgen Hrun. unfold generate_name in Hrun.
  apply bind_Ok in Hrun as (cand & w1 & Hloop & Hret). injection Hret as <- <-.
  destruct (generate_name_loop_reserves_in _ _ _ _ _ _ _ _ _ _ Hgen Hloop)
    as (H1 & H2 & H3 & H4).
  by exists cand.
Qed.

Lemma generate_name_reserves_witness :
  match generate_name 3 default_settings "amet" "" true generate_words
          SEEN_NAMES (world_with_names ["amet-amet-bonum"]) with
  | Ok (name, w') =>
      exists cand,
        name = Py.sub_dashes cand /\
        starts_with "amet" cand /\
        (cand ∉ seen_names (world_with_names ["amet-amet-bonum"])) /\
        seen_names w' = {[ cand ]} ∪ seen_names (world_with_names ["amet-amet-bonum"]) /\
        seen_resource_ids w' = seen_resource_ids (world_with_names ["amet-amet-bonum"])
  | _ => False
  end.
Proof.
  assert (returned (generate_name 3 default_settings "amet" "" true generate_words
            SEEN_NAMES (world_with_names ["amet-amet-bonum"])) = true) as Hret
    by (vm_compute; reflexivity).
  destruct (generate_name 3 default_settings "amet" "" true generate_words
              SEEN_NAMES (world_with_names ["amet-amet-bonum"]))
    as [[name w']| |] eqn:E; [|discriminate Hret..].
  exact (generate_name_reserves 3 default_settings "amet" "" true generate_words
           SEEN_NAMES _ _ _ (keeps_caches_generate_words default_settings) E).
Defined.

(** X3: [generate_name] with [dynamic=False] and neither prefix nor suffix has
    the empty name as its only candidate: once that is in the cache the loop
    never ends, however long it runs. *)
Theorem generate_name_static_empty_loops {R} {F : Faker R}
    fuel config generator cache (w : world R) :
  "" ∈ cache_of cache w ->
  generate_name fuel config "" "" false generator cache w = Diverge.
Proof.
  intros Hin. unfold generate_name, bind.
  by rewrite generate_name_loop_stuck.
Qed.

Lemma generate_name_static_empty_loops_witness :
  generate_name 1000 default_settings "" "" false generate_words SEEN_NAMES
    (world_with_names [""]) = Diverge.
Proof.
  apply (generate_name_static_empty_loops 1000 default_settings generate_words
           SEEN_NAMES (world_with_names [""])).
  vm_compute. set_solver.
Defined.

(** X4: [generate_name] with [dynamic=False] and a prefix or a suffix always
    returns: every retry makes the candidate longer, so after at most as
    many retries as the cache has elements the candidate is new. *)
Theorem generate_name_static_returns {R} {F : Faker R}
    fuel config prefix suffix generator cache (w : world R) :
  Py.truthy prefix || Py.truthy suffix = true ->
  (size (cache_of cache w) < fuel)%nat ->
  exists name w',
    generate_name fuel config prefix suffix false generator cache w = Ok (name, w').
Proof.
  intros Hne Hfuel.
  destruct (generate_name_loop_static_returns fuel config prefix suffix generator
              cache w Hne) as (cand & w' & Hloop).
  { eapply Nat.le_lt_trans; [|exact Hfuel]. apply subseteq_size.
    intros x Hx. by apply elem_of_filter in Hx as [_ Hx]. }
  exists (Py.sub_dashes cand), w'. unfold generate_name, bind. by rewrite Hloop.
Qed.

Lemma generate_name_static_returns_witness :
  exists name w',
    generate_name 3 default_settings "x" "0" false generate_words SEEN_NAMES
      (world_with_names ["x--0"; "x----0"]) = Ok (name, w').
Proof.
  apply (generate_name_static_returns 3 default_settings "x" "0" generate_words
           SEEN_NAMES (world_with_names ["x--0"; "x----0"])); [reflexivity|].
  vm_compute. lia.
Defined.

(** ** The remaining fields of a dataset *)

Lemma getitem_elem_of {A} (l : list A) i a : Py.getitem l i = Some a -> a ∈ l.
Proof.
  unfold Py.getitem. destruct (0 <=? i); [apply list_elem_of_lookup_2|].
  destruct (0 <=? _); [apply list_elem_of_lookup_2 | discriminate].
Qed.

Lemma getitem_first {A} (l : list A) a : Py.getitem l 0 = Some a -> head l = Some a.
Proof. unfold Py.getitem. simpl. by rewrite head_lookup. Qed.

Section Fields.
Context {R : Type} {F : Faker R} {FS : FakerSpec R}.

Lemma ensures_pick_within (_random : bool) bound :
  ensures (R:=R) (pick _random bound) (within _random bound).
Proof. apply ensures_pick. Qed.

Lemma volume_claim_body_fields fuel config _random ns_name pods ix :
  ensures (R:=R) (volume_claim_body fuel config _random ns_name pods ix)
    (claim_fields_ok _random config).
Proof.
  unfold volume_claim_body. step_with ensures_pick_within as cap Hcap.
  do 3 step_any. by apply ensures_ret.
Qed.

Lemma ensures_storage_class (_random : bool) config :
  ensures (R:=R)
    (if _random then
       let* i := FAKER_random_int 0
                   (Z.of_nat (length (Config.storage_classes config)) - 1) 1 in
       index (Config.storage_classes config) i
     else index (Config.storage_classes config) 0)
    (fun cls => if _random then cls ∈ Config.storage_classes config
                else head (Config.storage_classes config) = Some cls).
Proof.
  destruct _random.
  - step_any. eapply ensures_impl; [apply ensures_index|].
    intros cls. apply getitem_elem_of.
  - eapply ensures_impl; [apply ensures_index|]. intros cls. apply getitem_first.
Qed.

Lemma volume_body_fields fuel config _random ns_name pods ix :
  ensures (R:=R) (volume_body fuel config _random ns_name pods ix)
    (volume_fields_ok _random config).
Proof.
  unfold volume_body. step_with ensures_storage_class as cls Hcls.
  step_with ensures_pick_within as req Hreq. do 3 step_any.
  step_with (ensures_for_range _ _ (fun _ => claim_fields_ok _random config))
    as vcs Hvcs.
  { intros i. apply volume_claim_body_fields. }
  apply ensures_ret. repeat split; try done. apply Forall_lookup, Hvcs.
Qed.

Lemma namespace_body_fields fuel config _random node_name cores memory ix :
  ensures (R:=R) (namespace_body fuel config _random node_name cores memory ix)
    (namespace_fields_ok _random config).
Proof.
  unfold namespace_body. do 4 step_any.
  step_with (ensures_for_range _ _ (fun _ => volume_fields_ok _random config))
    as vols Hvols.
  { intros i. apply volume_body_fields. }
  apply ensures_ret. apply Forall_lookup, Hvols.
Qed.

Lemma node_body_fields fuel config _random ix :
  ensures (R:=R) (node_body fuel config _random ix)
    (node_tree_fields_ok _random config).
Proof.
  unfold node_body. step_with ensures_pick_within as cores Hcores.
  step_with ensures_pick_within as memory Hmemory. do 3 step_any.
  step_with (ensures_for_range _ _ (fun _ => namespace_fields_ok _random config))
    as nss Hnss.
  { intros i. apply namespace_body_fields. }
  apply ensures_ret. repeat split; try done. apply Forall_lookup, Hnss.
Qed.

Lemma build_data_fields_ok fuel config _random :
  ensures (R:=R) (build_data fuel config _random)
    (fun data => Forall (node_tree_fields_ok _random config) (Dataset.nodes data)).
Proof.
  unfold build_data. step_any.
  step_with (ensures_for_range _ _ (fun _ => node_tree_fields_ok _random config))
    as ns Hns.
  { intros i. apply node_body_fields. }
  apply ensures_ret. apply Forall_lookup, Hns.
Qed.

End Fields.

(** X5: In fixed mode a node has the configured CPU cores and memory, a volume
    the first configured storage class and the configured request, a volume
    claim the configured capacity; in randomized mode the numbers lie between
    1 and the configured maximum and the storage class is one of the
    configured classes. *)
Theorem build_data_fields {R} {F : Faker R} {FS : FakerSpec R}
    fuel config _random (w w' : world R) data :
  build_data fuel config _random w = Ok (data, w') ->
  forall node, node ∈ Dataset.nodes data ->
    within _random (Config.max_node_cpu_cores config) (Node.cpu_cores node) /\
    within _random (Config.max_node_memory_gig config) (Node.memory_gig node) /\
    forall ns vol, ns ∈ Node.namespaces node -> vol ∈ Namespace.volumes ns ->
      (if _random then Volume.storage_class vol ∈ Config.storage_classes config
       else head (Config.storage_classes config) = Some (Volume.storage_class vol)) /\
      within _random (Config.max_node_namespace_volume_request_gig config)
        (Volume.volume_request_gig vol) /\
      forall vc, vc ∈ Volume.volume_claims vol ->
        within _random
          (Config.max_node_namespace_volume_volume_claim_capacity_gig config)
          (VolumeClaim.capacity_gig vc).
Proof.
  intros Hrun node Hnode.
  pose proof (build_data_fields_ok _ _ _ _ _ _ Hrun) as Hd.
  rewrite Forall_forall in Hd. destruct (Hd _ Hnode) as [[Hc Hm] Hn].
  split; [done|]. split; [done|]. intros ns vol Hns Hvol.
  rewrite Forall_forall in Hn. specialize (Hn _ Hns).
  unfold namespace_fields_ok in Hn. rewrite Forall_forall in Hn.
  destruct (Hn _ Hvol) as (Hcls & Hreq & Hvcs).
  split; [done|]. split; [done|]. intros vc Hvc.
  rewrite Forall_forall in Hvcs. exact (Hvcs _ Hvc).
Qed.

Lemma build_data_fields_witness :
  match build_data 4 scenario_settings true (Script.start scenario_words scenario_ints) with
  | Ok (data, _) =>
      forall node, node ∈ Dataset.nodes data ->
        within true 4 (Node.cpu_cores node) /\
        within true 8 (Node.memory_gig node) /\
        forall ns vol, ns ∈ Node.namespaces node -> vol ∈ Namespace.volumes ns ->
          Volume.storage_class vol ∈ ["gp2"] /\
          within true 20 (Volume.volume_request_gig vol) /\
          forall vc, vc ∈ Volume.volume_claims vol ->
            within true 20 (VolumeClaim.capacity_gig vc)
  | _ => False
  end.
Proof.
  assert (returned (build_data 4 scenario_settings true
            (Script.start scenario_words scenario_ints)) = true) as Hret
    by (vm_compute; reflexivity).
  destruct (build_data 4 scenario_settings true _) as [[data w']| |] eqn:E;
    [|discriminate Hret..].
  exact (build_data_fields 4 scenario_settings true _ _ _ E).
Defined.

(** X6: With no storage class configured [build_data] cannot build a volume, so
    it never returns a dataset (in fixed mode: as soon as the configuration
    asks for a node, a namespace and a volume). *)
Theorem build_data_needs_storage_class {R} {F : Faker R} {FS : FakerSpec R}
    fuel config _random (w : world R) :
  Config.storage_classes config = [] ->
  (_random = false ->
   1 <= Config.max_nodes config /\ 1 <= Config.max_node_namespaces config /\
   1 <= Config.max_node_namespace_volumes config) ->
  forall data w', build_data fuel config _random w <> Ok (data, w').
Proof.
  intros Hempty Hcounts data w' Hrun.
  assert (forall bound n, (_random = false -> 1 <= bound) ->
            count_ok _random bound n -> (0 < n)%nat) as Hpos.
  { intros bound n Hb. unfold count_ok. destruct _random; [lia|].
    specialize (Hb eq_refl). lia. }
  destruct (build_data_ok _ _ _ _ _ _ Hrun) as [Hnodes Hd].
  apply Hpos in Hnodes; [|intros; by apply Hcounts].
  destruct (Dataset.nodes data) as [|node nodes] eqn:En; [simpl in Hnodes; lia|].
  apply Forall_cons in Hd as [[Hnss Hn] _].
  apply Hpos in Hnss; [|intros; by apply Hcounts].
  destruct (Node.namespaces node) as [|ns nss] eqn:Ens; [simpl in Hnss; lia|].
  apply Forall_cons in Hn as [(_ & _ & Hvols & _) _].
  apply Hpos in Hvols; [|intros; by apply Hcounts].
  destruct (Namespace.volumes ns) as [|vol vols] eqn:Ev; [simpl in Hvols; lia|].
  pose proof (build_data_fields_ok _ _ _ _ _ _ Hrun) as Hfd.
  rewrite Forall_forall in Hfd. destruct (Hfd node) as [_ Hfn].
  { rewrite En. by left. }
  rewrite Forall_forall in Hfn. specialize (Hfn ns).
  unfold namespace_fields_ok in Hfn. rewrite Forall_forall in Hfn.
  destruct (Hfn ltac:(rewrite Ens; by left) vol) as (Hcls & _).
  { rewrite Ev. by left. }
  rewrite Hempty in Hcls. destruct _random; [by apply elem_of_nil in Hcls | done].
Qed.

Lemma build_data_needs_storage_class_witness :
  match build_data 4
          (Config.mk (Date 2026 10 1) (Date 2026 11 30) [] 2 10 1 1 2 1 1 300 3600
             1 1 20 1 1 1 20)
          false (Script.start scenario_words scenario_ints) with
  | Ok _ => False
  | _ => True
  end.
Proof.
  assert (1 <= 1) as Hone by lia.
  destruct (build_data 4
              (Config.mk (Date 2026 10 1) (Date 2026 11 30) [] 2 10 1 1 2 1 1 300
                 3600 1 1 20 1 1 1 20)
              false (Script.start scenario_words scenario_ints))
    as [[data w']| |] eqn:E; [|exact I..].
  exact (build_data_needs_storage_class 4
           (Config.mk (Date 2026 10 1) (Date 2026 11 30) [] 2 10 1 1 2 1 1 300 3600
              1 1 20 1 1 1 20)
           false (Script.start scenario_words scenario_ints) eq_refl
           (fun _ => conj Hone (conj Hone Hone)) data w' E).
Defined.

(** X7: In fixed mode a configuration without pods but with volume claims has no
    pod for a claim to refer to: [build_data] never returns a dataset. *)
Theorem build_data_claims_need_pods {R} {F : Faker R} {FS : FakerSpec R}
    fuel config (w : world R) :
  Config.max_node_namespace_pods config <= 0 ->
  1 <= Config.max_nodes config -> 1 <= Config.max_node_namespaces config ->
  1 <= Config.max_node_namespace_volumes config ->
  1 <= Config.max_node_namespace_volume_volume_claims config ->
  forall data w', build_data fuel config false w <> Ok (data, w').
Proof.
  intros Hpods H1 H2 H3 H4 data w' Hrun.
  destruct (build_data_ok _ _ _ _ _ _ Hrun) as [Hnodes Hd]. unfold count_ok in *.
  destruct (Dataset.nodes data) as [|node nodes] eqn:En; [simpl in Hnodes; lia|].
  apply Forall_cons in Hd as [[Hnss Hn] _].
  destruct (Node.namespaces node) as [|ns nss] eqn:Ens; [simpl in Hnss; lia|].
  apply Forall_cons in Hn as [(Hp & _ & Hvols & Hvs) _].
  destruct (Namespace.volumes ns) as [|vol vols] eqn:Ev; [simpl in Hvols; lia|].
  apply Forall_cons in Hvs as [(_ & Hclaims & _) _].
  destruct (Volume.volume_claims vol) as [|vc vcs] eqn:Ec; [simpl in Hclaims; lia|].
  destruct (volume_claim_pod_reference _ _ _ _ _ _ Hrun node ns vol 0%nat vc)
    as [_ Hin].
  { rewrite En. by left. }
  { rewrite Ens. by left. }
  { rewrite Ev. by left. }
  { by rewrite Ec. }
  destruct (Namespace.pods ns) as [|pod pods] eqn:Ep;
    [by apply elem_of_nil in Hin | simpl in Hp; lia].
Qed.

Lemma build_data_claims_need_pods_witness :
  match build_data 4
          (Config.mk (Date 2026 10 1) (Date 2026 11 30) ["gp2"] 2 10 1 1 2 1 0 300
             3600 1 1 20 1 1 1 20)
          false (Script.start scenario_words scenario_ints) with
  | Ok _ => False
  | _ => True
  end.
Proof.
  assert (0 <= 0) as Hzero by lia. assert (1 <= 1) as Hone by lia.
  destruct (build_data 4
              (Config.mk (Date 2026 10 1) (Date 2026 11 30) ["gp2"] 2 10 1 1 2 1 0
                 300 3600 1 1 20 1 1 1 20)
              false (Script.start scenario_words scenario_ints))
    as [[data w']| |] eqn:E; [|exact I..].
  exact (build_data_claims_need_pods 4
           (Config.mk (Date 2026 10 1) (Date 2026 11 30) ["gp2"] 2 10 1 1 2 1 0 300
              3600 1 1 20 1 1 1 20)
           (Script.start scenario_words scenario_ints)
           Hzero Hone Hone Hone Hone data w' E).
Defined.

(** ** How the names of a dataset are built *)

Lemma dashes_snoc k : dashes k +:+ "-" = String Py.dash (dashes k).
Proof.
  induction k as [|k IH]; [done|].
  change (String Py.dash (dashes k +:+ "-") = String Py.dash (dashes (S k))).
  by rewrite IH.
Qed.

(** Dropping one of two hyphens in a row does not change the collapsed
    string. *)
Lemma sub_dashes_drop_dash a b :
  Py.sub_dashes (a +:+ String Py.dash (String Py.dash b))
  = Py.sub_dashes (a +:+ String Py.dash b).
Proof.
  induction a as [|c a IH]; [done|].
  change (Py.sub_dashes (String c (a +:+ String Py.dash (String Py.dash b)))
          = Py.sub_dashes (String c (a +:+ String Py.dash b))).
  cbn [Py.sub_dashes]. destruct (Ascii.eqb c Py.dash); [|by rewrite IH].
  destruct a as [|c' a]; [reflexivity|].
  change (String c' a +:+ ?x) with (String c' (a +:+ x)) in *.
  destruct (Ascii.eqb c' Py.dash); by rewrite IH.
Qed.

Lemma sub_dashes_run a b k :
  Py.sub_dashes (a +:+ dashes (S k) +:+ b) = Py.sub_dashes (a +:+ "-" +:+ b).
Proof.
  induction k as [|k IH]; [done|]. rewrite <- IH.
  exact (sub_dashes_drop_dash a (dashes k +:+ b)).
Qed.

Lemma dashes_add j k : dashes j +:+ dashes k = dashes (j + k).
Proof.
  induction j as [|j IH]; [done|].
  change (String Py.dash (dashes j +:+ dashes k) = String Py.dash (dashes (j + k))).
  by rewrite IH.
Qed.

Lemma str_truthy n : Py.truthy (Py.str n) = true.
Proof.
  unfold Py.str. destruct (n <? 0); [done|]. apply truthy_length.
  pose proof (digits_length_min (Z.to_nat (Z.log2 n)) n ""). simpl in *. lia.
Qed.

Lemma truthy_append_r a b : Py.truthy b = true -> Py.truthy (a +:+ b) = true.
Proof.
  intros Hb. apply truthy_length in Hb. apply truthy_length.
  rewrite length_append. lia.
Qed.

Section NameShapes.
Context {R : Type} {F : Faker R}.

(** The candidate of the static loop: prefix and suffix, [2k] hyphens
    between them after [k] iterations. *)
Lemma generate_name_loop_static_candidate fuel config prefix suffix generator cache :
  Py.truthy prefix = true -> Py.truthy suffix = true ->
  ensures (R:=R)
    (generate_name_loop fuel config prefix suffix false generator cache)
    (fun cand => exists k, cand = prefix +:+ dashes (S k) +:+ suffix).
Proof.
  revert prefix suffix. induction fuel as [|fuel IH]; intros prefix suffix Hp Hs;
    cbn [generate_name_loop]; [by intros w a w' [=]|].
  rewrite Hp, Hs.
  apply (ensures_bind _ _ (fun mid => mid = "")); [by apply ensures_ret | intros mid ->].
  eapply ensures_bind; [apply ensures_any | intros seen _].
  destruct seen; cbn [negb].
  - eapply ensures_impl.
    + apply IH; [by apply truthy_append_r | done].
    + intros cand [k ->]. exists (S (S k)).
      rewrite append_assoc. f_equal.
      change ("-" +:+ dashes (S k) +:+ "-" +:+ suffix = dashes (S (S (S k))) +:+ suffix).
      rewrite <- (append_assoc (dashes (S k)) "-" suffix), dashes_snoc. done.
  - step_any. apply ensures_ret. exists 1%nat. by rewrite append_assoc.
Qed.

(** A static name is its prefix, one hyphen and its suffix, collapsed. *)
Lemma ensures_generate_name_static fuel config prefix suffix generator cache :
  Py.truthy prefix = true -> Py.truthy suffix = true ->
  ensures (R:=R) (generate_name fuel config prefix suffix false generator cache)
    (fun name => name = Py.sub_dashes (prefix +:+ "-" +:+ suffix)).
Proof.
  intros Hp Hs. unfold generate_name.
  step_with (generate_name_loop_static_candidate fuel config prefix suffix
               generator cache Hp Hs) as cand Hcand.
  apply ensures_ret. destruct Hcand as [k ->]. apply sub_dashes_run.
Qed.

Lemma ensures_generate_name_loop_prefix fuel config prefix suffix dynamic generator
    cache :
  ensures (R:=R)
    (generate_name_loop fuel config prefix suffix dynamic generator cache)
    (starts_with prefix).
Proof.
  revert prefix suffix. induction fuel as [|fuel IH]; intros prefix suffix;
    cbn [generate_name_loop]; [by intros w a w' [=]|].
  set (prefix' := if Py.truthy prefix then prefix +:+ "-" else prefix).
  assert (starts_with prefix prefix') as Hpre.
  { subst prefix'. destruct (Py.truthy prefix);
      [apply starts_with_app | apply starts_with_refl]. }
  step_any. eapply ensures_bind; [apply ensures_any | intros seen _].
  destruct seen; cbn [negb].
  - eapply ensures_impl; [apply IH|]. intros cand Hc. by eapply starts_with_trans.
  - step_any. apply ensures_ret.
    eapply starts_with_trans; [exact Hpre | apply starts_with_app].
Qed.

(** A generated name has no hyphen run, and starts with whatever start of
    the prefix has none either. *)
Lemma ensures_generate_name_prefix fuel config prefix suffix dynamic generator
    cache parent :
  no_double_dash parent = true -> starts_with parent prefix ->
  ensures (R:=R) (generate_name fuel config prefix suffix dynamic generator cache)
    (fun name => no_double_dash name = true /\ starts_with parent name).
Proof.
  intros Hndd Hparent. unfold generate_name.
  step_with ensures_generate_name_loop_prefix as cand Hcand.
  apply ensures_ret. split; [apply sub_dashes_no_double_dash|].
  destruct (starts_with_trans _ _ _ Hparent Hcand) as [r ->].
  by apply sub_dashes_keeps_prefix.
Qed.

End NameShapes.

Section DatasetNames.
Context {R : Type} {F : Faker R}.

Lemma ensures_child_name fuel config parent kind (i : nat) :
  Py.truthy kind = true ->
  ensures (R:=R)
    (generate_name fuel config (parent +:+ kind) (Py.str (Z.of_nat i)) false
       generate_words SEEN_NAMES)
    (fun name => name = Py.sub_dashes ((parent +:+ kind) +:+ "-" +:+ Py.str (Z.of_nat i))).
Proof.
  intros Hkind. apply ensures_generate_name_static;
    [by apply truthy_append_r | apply str_truthy].
Qed.

Lemma pod_body_named fuel config _random cores memory ns_name (i : nat) :
  ensures (R:=R)
    (pod_body fuel config _random cores memory ns_name (Z.of_nat i))
    (fun pod => Pod.name pod = derived_name ns_name "-pod-" i).
Proof.
  unfold pod_body. do 5 step_any.
  step_with (ensures_child_name fuel config ns_name "-pod" i eq_refl) as name Hname.
  step_any. apply ensures_ret. cbn [Pod.name]. rewrite Hname. unfold derived_name.
  by rewrite append_assoc.
Qed.

Lemma volume_claim_body_named fuel config _random ns_name pods (j : nat) :
  ensures (R:=R)
    (volume_claim_body fuel config _random ns_name pods (Z.of_nat j))
    (fun vc => VolumeClaim.name vc = derived_name ns_name "-vol-claim-" j).
Proof.
  unfold volume_claim_body. do 2 step_any.
  step_with (ensures_child_name fuel config ns_name "-vol-claim" j eq_refl) as name Hname.
  step_any. apply ensures_ret. cbn [VolumeClaim.name]. rewrite Hname.
  unfold derived_name. by rewrite append_assoc.
Qed.

Lemma volume_body_named fuel config _random ns_name pods (i : nat) :
  ensures (R:=R)
    (volume_body fuel config _random ns_name pods (Z.of_nat i))
    (volume_named ns_name i).
Proof.
  unfold volume_body. do 2 step_any.
  step_with (ensures_child_name fuel config ns_name "-vol" i eq_refl) as name Hname.
  do 2 step_any.
  step_with (ensures_for_range _ _ (fun ix vc =>
    forall j : nat, ix = Z.of_nat j ->
      VolumeClaim.name vc = derived_name ns_name "-vol-claim-" j)) as vcs Hvcs.
  { intros ? w vc w' Hrun j ->.
    exact (volume_claim_body_named _ _ _ _ _ _ _ _ _ Hrun). }
  apply ensures_ret. split; cbn [Volume.name Volume.volume_claims].
  - rewrite Hname. unfold derived_name. by rewrite append_assoc.
  - intros j vc Hvc. exact (proj2 Hvcs _ _ Hvc _ eq_refl).
Qed.

Lemma namespace_body_named fuel config _random node_name cores memory ix :
  no_double_dash node_name = true ->
  ensures (R:=R) (namespace_body fuel config _random node_name cores memory ix)
    (namespace_named node_name).
Proof.
  intros Hndd. unfold namespace_body.
  step_with (ensures_generate_name_prefix fuel config node_name "" true
               generate_words SEEN_NAMES node_name Hndd (starts_with_refl _))
    as name Hname.
  step_any.
  step_with (ensures_for_range _ _ (fun ix pod =>
    forall i : nat, ix = Z.of_nat i -> Pod.name pod = derived_name name "-pod-" i))
    as pods Hpods.
  { intros ? w pod w' Hrun i ->. exact (pod_body_named _ _ _ _ _ _ _ _ _ _ Hrun). }
  step_any.
  step_with (ensures_for_range _ _ (fun ix vol =>
    forall i : nat, ix = Z.of_nat i -> volume_named name i vol)) as vols Hvols.
  { intros ? w vol w' Hrun i ->. exact (volume_body_named _ _ _ _ _ _ _ _ _ Hrun). }
  apply ensures_ret. destruct Hname as [Hn1 Hn2].
  split; [done|]. split; [done|].
  cbn [Namespace.name Namespace.pods Namespace.volumes]. split.
  - intros i pod Hpod. exact (proj2 Hpods _ _ Hpod _ eq_refl).
  - intros i vol Hvol. exact (proj2 Hvols _ _ Hvol _ eq_refl).
Qed.

Lemma node_body_named fuel config _random ix :
  ensures (R:=R) (node_body fuel config _random ix) node_named.
Proof.
  unfold node_body. do 2 step_any.
  step_with (ensures_generate_name_prefix fuel config "" "" true generate_words
               SEEN_NAMES "" eq_refl (starts_with_refl _)) as name Hname.
  do 2 step_any.
  step_with (ensures_for_range _ _ (fun _ => namespace_named name)) as nss Hnss.
  { intros i. apply namespace_body_named, Hname. }
  apply ensures_ret. split; [apply Hname|]. apply Forall_lookup, Hnss.
Qed.

Lemma build_data_named fuel config _random :
  ensures (R:=R) (build_data fuel config _random)
    (fun data => Forall node_named (Dataset.nodes data)).
Proof.
  unfold build_data. step_any.
  step_with (ensures_for_range _ _ (fun _ => node_named)) as ns Hns.
  { intros i. apply node_body_named. }
  apply ensures_ret. apply Forall_lookup, Hns.
Qed.

End DatasetNames.

(** X8: Pods, volumes and volume claims are named after their namespace, their
    kind and their index: [<namespace>-pod-<i>], [<namespace>-vol-<i>],
    [<namespace>-vol-claim-<j>], with hyphen runs collapsed.  The name of a
    volume claim does not mention its volume. *)
Theorem build_data_derived_names {R} {F : Faker R}
    fuel config _random (w w' : world R) data :
  build_data fuel config _random w = Ok (data, w') ->
  forall node ns, node ∈ Dataset.nodes data -> ns ∈ Node.namespaces node ->
    (forall (i : nat) pod, Namespace.pods ns !! i = Some pod ->
       Pod.name pod = derived_name (Namespace.name ns) "-pod-" i) /\
    (forall (i : nat) vol, Namespace.volumes ns !! i = Some vol ->
       Volume.name vol = derived_name (Namespace.name ns) "-vol-" i /\
       forall (j : nat) vc, Volume.volume_claims vol !! j = Some vc ->
         VolumeClaim.name vc = derived_name (Namespace.name ns) "-vol-claim-" j).
Proof.
  intros Hrun node ns Hnode Hns.
  pose proof (build_data_named _ _ _ _ _ _ Hrun) as Hd.
  rewrite Forall_forall in Hd. destruct (Hd _ Hnode) as [_ Hn].
  rewrite Forall_forall in Hn. destruct (Hn _ Hns) as (_ & _ & Hpods & Hvols).
  split; [exact Hpods|]. intros i vol Hvol. exact (Hvols _ _ Hvol).
Qed.

Lemma build_data_derived_names_witness :
  match build_data 4 scenario_settings false (Script.start scenario_words scenario_ints) with
  | Ok (data, _) =>
      forall node ns, node ∈ Dataset.nodes data -> ns ∈ Node.namespaces node ->
        (forall (i : nat) pod, Namespace.pods ns !! i = Some pod ->
           Pod.name pod = derived_name (Namespace.name ns) "-pod-" i) /\
        (forall (i : nat) vol, Namespace.volumes ns !! i = Some vol ->
           Volume.name vol = derived_name (Namespace.name ns) "-vol-" i /\
           forall (j : nat) vc, Volume.volume_claims vol !! j = Some vc ->
             VolumeClaim.name vc = derived_name (Namespace.name ns) "-vol-claim-" j)
  | _ => False
  end.
Proof.
  assert (returned (build_data 4 scenario_settings false
            (Script.start scenario_words scenario_ints)) = true) as Hret
    by (vm_compute; reflexivity).
  destruct (build_data 4 scenario_settings false _) as [[data w']| |] eqn:E;
    [|discriminate Hret..].
  exact (build_data_derived_names 4 scenario_settings false _ _ _ E).
Defined.

(** X9: Names nest: no name of a dataset has two hyphens in a row, the name of a
    namespace starts with the name of its node, and the names of pods,
    volumes and volume claims start with the name of their namespace. *)
Theorem build_data_names_nested {R} {F : Faker R}
    fuel config _random (w w' : world R) data :
  build_data fuel config _random w = Ok (data, w') ->
  forall node ns, node ∈ Dataset.nodes data -> ns ∈ Node.namespaces node ->
    no_double_dash (Node.name node) = true /\
    no_double_dash (Namespace.name ns) = true /\
    starts_with (Node.name node) (Namespace.name ns) /\
    (forall pod, pod ∈ Namespace.pods ns ->
       no_double_dash (Pod.name pod) = true /\
       starts_with (Namespace.name ns) (Pod.name pod)) /\
    (forall vol, vol ∈ Namespace.volumes ns ->
       (no_double_dash (Volume.name vol) = true /\
        starts_with (Namespace.name ns) (Volume.name vol)) /\
       forall vc, vc ∈ Volume.volume_claims vol ->
         no_double_dash (VolumeClaim.name vc) = true /\
         starts_with (Namespace.name ns) (VolumeClaim.name vc)).
Proof.
  intros Hrun node ns Hnode Hns.
  pose proof (build_data_named _ _ _ _ _ _ Hrun) as Hd.
  rewrite Forall_forall in Hd. destruct (Hd _ Hnode) as [Hndd Hn].
  rewrite Forall_forall in Hn.
  destruct (Hn _ Hns) as (Hns_ndd & Hns_pre & Hpods & Hvols).
  assert (forall kind i,
            no_double_dash (derived_name (Namespace.name ns) kind i) = true /\
            starts_with (Namespace.name ns)
              (derived_name (Namespace.name ns) kind i)) as Hchild.
  { intros kind i. unfold derived_name.
    split; [apply sub_dashes_no_double_dash | by apply sub_dashes_keeps_prefix]. }
  split; [done|]. split; [done|]. split; [done|]. split.
  - intros pod Hpod. apply list_elem_of_lookup in Hpod as [i Hi].
    rewrite (Hpods _ _ Hi). apply Hchild.
  - intros vol Hvol. apply list_elem_of_lookup in Hvol as [i Hi].
    destruct (Hvols _ _ Hi) as [Hv Hcs]. split; [rewrite Hv; apply Hchild|].
    intros vc Hvc. apply list_elem_of_lookup in Hvc as [j Hj].
    rewrite (Hcs _ _ Hj). apply Hchild.
Qed.

Lemma build_data_names_nested_witness :
  match build_data 4 scenario_settings false (Script.start scenario_words scenario_ints) with
  | Ok (data, _) =>
      forall node ns, node ∈ Dataset.nodes data -> ns ∈ Node.namespaces node ->
        no_double_dash (Node.name node) = true /\
        no_double_dash (Namespace.name ns) = true /\
        starts_with (Node.name node) (Namespace.name ns) /\
        (forall pod, pod ∈ Namespace.pods ns ->
           no_double_dash (Pod.name pod) = true /\
           starts_with (Namespace.name ns) (Pod.name pod)) /\
        (forall vol, vol ∈ Namespace.volumes ns ->
           (no_double_dash (Volume.name vol) = true /\
            starts_with (Namespace.name ns) (Volume.name vol)) /\
           forall vc, vc ∈ Volume.volume_claims vol ->
             no_double_dash (VolumeClaim.name vc) = true /\
             starts_with (Namespace.name ns) (VolumeClaim.name vc))
  | _ => False
  end.
Proof.
  assert (returned (build_data 4 scenario_settings false
            (Script.start scenario_words scenario_ints)) = true) as Hret
    by (vm_compute; reflexivity).
  destruct (build_data 4 scenario_settings false _) as [[data w']| |] eqn:E;
    [|discriminate Hret..].
  exact (build_data_names_nested 4 scenario_settings false _ _ _ E).
Defined.

(** X10: Volume claims at the same index under two volumes of one namespace get
    the same name: the name is made of the namespace and the claim index
    only, and the retry of [generate_name] collapses to the name already
    given. *)
Theorem sibling_volume_claims_share_names {R} {F : Faker R}
    fuel config _random (w w' : world R) data :
  build_data fuel config _random w = Ok (data, w') ->
  forall node ns vol1 vol2 (j : nat) vc1 vc2,
    node ∈ Dataset.nodes data -> ns ∈ Node.namespaces node ->
    vol1 ∈ Namespace.volumes ns -> vol2 ∈ Namespace.volumes ns ->
    Volume.volume_claims vol1 !! j = Some vc1 ->
    Volume.volume_claims vol2 !! j = Some vc2 ->
    VolumeClaim.name vc1 = VolumeClaim.name vc2.
Proof.
  intros Hrun node ns vol1 vol2 j vc1 vc2 Hnode Hns Hv1 Hv2 Hc1 Hc2.
  pose proof (build_data_named _ _ _ _ _ _ Hrun) as Hd.
  rewrite Forall_forall in Hd. destruct (Hd _ Hnode) as [_ Hn].
  rewrite Forall_forall in Hn. destruct (Hn _ Hns) as (_ & _ & _ & Hvols).
  apply list_elem_of_lookup in Hv1 as [i1 Hi1].
  apply list_elem_of_lookup in Hv2 as [i2 Hi2].
  pose proof (Hvols _ _ Hi1) as H1. pose proof (Hvols _ _ Hi2) as H2.
  unfold volume_named in H1, H2. destruct H1 as [_ H1], H2 as [_ H2].
  rewrite (H1 _ _ Hc1). by rewrite (H2 _ _ Hc2).
Qed.

Lemma sibling_volume_claims_share_names_witness :
  match build_data 4 two_volume_settings false
          (Script.start scenario_words scenario_ints) with
  | Ok (data, _) =>
      (VolumeClaim.name
         <$> concat (Volume.volume_claims
                       <$> concat (Namespace.volumes
                             <$> concat (Node.namespaces <$> Dataset.nodes data))))
      = ["amet-bonum-civis-dolor-vol-claim-0"; "amet-bonum-civis-dolor-vol-claim-0"] /\
      forall node ns vol1 vol2 (j : nat) vc1 vc2,
        node ∈ Dataset.nodes data -> ns ∈ Node.namespaces node ->
        vol1 ∈ Namespace.volumes ns -> vol2 ∈ Namespace.volumes ns ->
        Volume.volume_claims vol1 !! j = Some vc1 ->
        Volume.volume_claims vol2 !! j = Some vc2 ->
        VolumeClaim.name vc1 = VolumeClaim.name vc2
  | _ => False
  end.
Proof.
  assert (match build_data 4 two_volume_settings false
                  (Script.start scenario_words scenario_ints) with
          | Ok (data, _) =>
              bool_decide
                ((VolumeClaim.name
                    <$> concat (Volume.volume_claims
                          <$> concat (Namespace.volumes
                                <$> concat (Node.namespaces <$> Dataset.nodes data))))
                 = ["amet-bonum-civis-dolor-vol-claim-0";
                    "amet-bonum-civis-dolor-vol-claim-0"])
          | _ => false
          end = true) as Hret by (vm_compute; reflexivity).
  destruct (build_data 4 two_volume_settings false _) as [[data w']| |] eqn:E;
    [|discriminate Hret..].
  split; [by apply bool_decide_eq_true in Hret|].
  exact (sibling_volume_claims_share_names 4 two_volume_settings false _ _ _ E).
Defined.

(** ** The default configuration *)

Lemma validate_default_config today :
  validate_config (default_config today) = Ok true.
Proof.
  unfold default_config.
  generalize (first_day_of_last_month today)
    (last_day_of_month (year today) (month today)) (year today) (month today).
  intros s l y m. vm_compute. reflexivity.
Qed.

Lemma dom_default_config today :
  dom (default_config today) = list_to_set validator.*1.
Proof. unfold default_config. rewrite dom_list_to_map_L. reflexivity. Qed.

(** X11: The defaults pass validation, and the keys that have a default are
    exactly the keys that are validated. *)
Theorem default_config_valid today :
  validate_config (default_config today) = Ok true /\
  dom (default_config today) = list_to_set validator.*1.
Proof. split; [apply validate_default_config | apply dom_default_config]. Qed.




(** ** More on [handle_args] *)

Lemma date_arg_raises parse (a : option string) e :
  date_arg parse a = Raise e -> e = ParserError.
Proof.
  unfold date_arg. destruct a as [s|]; [|discriminate].
  destruct (Py.truthy s); [|discriminate].
  destruct (parse s); [discriminate | by intros [= <-]].
Qed.

(** What is left of [handle_args] once the files are found and the date
    range is complete: it returns, or the parser raises. *)
Lemma handle_args_dates parse (a : args string) e :
  (let? start := date_arg parse (start_date a) in
   let? end_ := date_arg parse (end_date a) in
   Ok (Args (output_file_name a) (config_file_name a) (template_file_name a)
         start end_
         match num_nodes a with
         | Some n => if n <? 1 then None else Some n
         | None => None
         end (random a))) = Raise e ->
  e = ParserError /\
  (date_arg parse (start_date a) = Raise ParserError \/
   date_arg parse (end_date a) = Raise ParserError).
Proof.
  destruct (date_arg parse (start_date a)) as [sd|err|] eqn:Es; cbn [and_then].
  - destruct (date_arg parse (end_date a)) as [ed|err|] eqn:Ee; cbn [and_then];
      [discriminate| |discriminate].
    intros [= ->]. apply date_arg_raises in Ee as ->. by split; [|right].
  - intros [= ->]. apply date_arg_raises in Es as ->. by split; [|left].
  - discriminate.
Qed.

(** X13: [handle_args] raises [FileNotFoundError] exactly when a named file is
    missing; the message names the config file if that is the missing one,
    the template file otherwise. *)
Theorem handle_args_file_not_found path_exists parse (a : args string) msg :
  handle_args path_exists parse a = Raise (FileNotFoundError msg) <->
  (given (config_file_name a) = true /\
   path_exists (default "" (config_file_name a)) = false /\
   msg = "Cannot find file " +:+ quoted (default "" (config_file_name a))) \/
  ((given (config_file_name a) = true ->
    path_exists (default "" (config_file_name a)) = true) /\
   path_exists (template_file_name a) = false /\
   msg = "Cannot find file " +:+ quoted (template_file_name a)).
Proof.
  unfold handle_args.
  destruct (given (config_file_name a)
            && negb (path_exists (default "" (config_file_name a)))) eqn:Hc.
  { apply andb_true_iff in Hc as [Hg Hn]. apply negb_true_iff in Hn. split.
    - intros [= <-]. by left.
    - intros [(_ & _ & ->) | (H1 & _)]; [done|]. rewrite (H1 Hg) in Hn. done. }
  assert (given (config_file_name a) = true ->
          path_exists (default "" (config_file_name a)) = true) as Hcfg.
  { intros Hg. rewrite Hg in Hc. by apply negb_false_iff in Hc. }
  destruct (path_exists (template_file_name a)) eqn:Ht; cbn [negb].
  2:{ split.
      - intros [= <-]. by right.
      - intros [(Hg & Hn & _) | (_ & _ & ->)]; [|done]. by rewrite (Hcfg Hg) in Hn. }
  split.
  - intros Hr. exfalso. destruct (_ =? 1); [discriminate|].
    by apply handle_args_dates in Hr as [[=] _].
  - intros [(Hg & Hn & _) | (_ & [=] & _)]. by rewrite (Hcfg Hg) in Hn.
Qed.

Lemma date_arg_ParserError parse (a : option string) :
  date_arg parse a = Raise ParserError <->
  exists s, a = Some s /\ Py.truthy s = true /\ parse s = None.
Proof.
  unfold date_arg. split.
  - destruct a as [s|]; [|discriminate].
    destruct (Py.truthy s) eqn:Hs; [|discriminate].
    destruct (parse s) eqn:Hp; [discriminate|]. eauto.
  - intros (s & -> & -> & ->). done.
Qed.

Lemma given_Some (a : option string) :
  given a = true <-> exists s, a = Some s /\ Py.truthy s = true.
Proof.
  unfold given. split.
  - destruct a as [s|]; [eauto | discriminate].
  - by intros (s & -> & ->).
Qed.

(** X14: [handle_args] raises the parser's error exactly when the files exist,
    both dates are supplied and one of them cannot be parsed. *)
Theorem handle_args_parser_error path_exists parse (a : args string) :
  raises_parser_error (handle_args path_exists parse a) <->
  files_found path_exists a /\
  exists s e, start_date a = Some s /\ end_date a = Some e /\
    Py.truthy s = true /\ Py.truthy e = true /\
    (parse s = None \/ parse e = None).
Proof.
  unfold raises_parser_error, handle_args, files_found.
  destruct (given (config_file_name a)
            && negb (path_exists (default "" (config_file_name a)))) eqn:Hc.
  { apply andb_true_iff in Hc as [Hg Hn]. apply negb_true_iff in Hn.
    split; [discriminate|]. intros [[H1 _] _]. by rewrite (H1 Hg) in Hn. }
  assert (given (config_file_name a) = true ->
          path_exists (default "" (config_file_name a)) = true) as Hcfg.
  { intros Hg. rewrite Hg in Hc. by apply negb_false_iff in Hc. }
  destruct (path_exists (template_file_name a)) eqn:Ht; cbn [negb].
  2:{ split; [discriminate | by intros [[_ [=]] _]]. }
  split.
  - intros Hr. split; [done|].
    destruct (given (start_date a)) eqn:Hgs, (given (end_date a)) eqn:Hge;
      cbn [Z.b2z] in Hr.
    2-3: discriminate Hr.
    + apply given_Some in Hgs as (s & Hs & Ts), Hge as (e & He & Te).
      exists s, e. repeat (split; [done|]).
      change (1 + 1 =? 1) with false in Hr. cbn iota in Hr.
      apply handle_args_dates in Hr as [_ [Hd | Hd]];
        apply date_arg_ParserError in Hd as (x & Hx & _ & Hp).
      * left. congruence.
      * right. congruence.
    + change (0 + 0 =? 1) with false in Hr. cbn iota in Hr.
      apply handle_args_dates in Hr as [_ [Hd | Hd]];
        apply date_arg_ParserError in Hd as (x & Hx & Tx & _).
      * assert (given (start_date a) = true) by (apply given_Some; eauto).
        congruence.
      * assert (given (end_date a) = true) by (apply given_Some; eauto).
        congruence.
  - intros (_ & s & e & Hs & He & Ts & Te & Hp).
    rewrite Hs, He. cbn [given date_arg]. rewrite Ts, Te.
    change (Z.b2z true + Z.b2z true =? 1) with false. cbn iota.
    destruct (parse s) as [ds|] eqn:Ps; cbn [and_then]; [|done].
    destruct Hp as [Hp | Hp]; [done|]. by rewrite Hp.
Qed.

(** X15: When [handle_args] returns, the named files exist, the two dates are
    both there (parsed) or both absent, a node count is at least 1, and every
    other argument is as it was. *)
Theorem handle_args_returns path_exists parse (a : args string) a' :
  handle_args path_exists parse a = Ok a' ->
  files_found path_exists a /\
  (start_date a' = None <-> end_date a' = None) /\
  (forall d, start_date a' = Some d ->
     exists s dt, start_date a = Some s /\ parse s = Some dt /\ d = dt_date dt) /\
  (forall d, end_date a' = Some d ->
     exists s dt, end_date a = Some s /\ parse s = Some dt /\ d = dt_date dt) /\
  (forall n, num_nodes a' = Some n -> 1 <= n /\ num_nodes a = Some n) /\
  output_file_name a' = output_file_name a /\
  config_file_name a' = config_file_name a /\
  template_file_name a' = template_file_name a /\
  random a' = random a.
Proof.
  intros Hok. pose proof Hok as Hfields. unfold handle_args in Hfields.
  destruct (given (config_file_name a)
            && negb (path_exists (default "" (config_file_name a)))) eqn:Hc;
    [discriminate|].
  destruct (negb (path_exists (template_file_name a))) eqn:Ht; [discriminate|].
  destruct (Z.b2z (given (start_date a)) + Z.b2z (given (end_date a)) =? 1) eqn:Hsum;
    [discriminate|].
  apply and_then_Ok in Hfields as (sd & Hsd & Hfields).
  apply and_then_Ok in Hfields as (ed & Hed & Hfields).
  injection Hfields as <-. cbn [start_date end_date num_nodes output_file_name
    config_file_name template_file_name random].
  apply date_arg_Ok in Hsd. apply date_arg_Ok in Hed.
  assert (given (start_date a) = given (end_date a)) as Hboth.
  { by destruct (given (start_date a)), (given (end_date a)). }
  rewrite <- Hboth in Hed. clear Hsum Hboth.
  split.
  { split; [|by apply negb_false_iff].
    intros Hg. rewrite Hg in Hc. by apply negb_false_iff in Hc. }
  split.
  { destruct (given (start_date a)).
    - destruct Hsd as (? & ? & _ & _ & ->), Hed as (? & ? & _ & _ & ->). done.
    - by subst. }
  split.
  { intros d ->. destruct (given (start_date a)); [|done].
    destruct Hsd as (s & dt & ? & ? & [= ->]). eauto. }
  split.
  { intros d ->. destruct (given (start_date a)); [|done].
    destruct Hed as (s & dt & ? & ? & [= ->]). eauto. }
  split; [|done].
  intros n Hn. destruct (num_nodes a) as [m|]; [|done].
  destruct (Z.ltb_spec m 1); [done|]. injection Hn as ->. by split; [lia|].
Qed.

Lemma handle_args_returns_witness :
  match handle_args (fun _ => true) sample_parse sample_args with
  | Ok a' =>
      files_found (fun _ => true) sample_args /\
      (start_date a' = None <-> end_date a' = None) /\
      (forall d, start_date a' = Some d ->
         exists s dt, start_date sample_args = Some s /\
           sample_parse s = Some dt /\ d = dt_date dt) /\
      (forall d, end_date a' = Some d ->
         exists s dt, end_date sample_args = Some s /\
           sample_parse s = Some dt /\ d = dt_date dt) /\
      (forall n, num_nodes a' = Some n -> 1 <= n /\ num_nodes sample_args = Some n) /\
      output_file_name a' = output_file_name sample_args /\
      config_file_name a' = config_file_name sample_args /\
      template_file_name a' = template_file_name sample_args /\
      random a' = random sample_args
  | _ => False
  end.
Proof.
  assert (returned (handle_args (fun _ => true) sample_parse sample_args) = true)
    as Hret by (vm_compute; reflexivity).
  destruct (handle_args (fun _ => true) sample_parse sample_args)
    as [a'| |] eqn:E; [|discriminate Hret..].
  exact (handle_args_returns (fun _ => true) sample_parse sample_args a' E).
Defined.
(** ** More on [init_config] *)

Lemma default_config_has_key today entry :
  entry ∈ validator -> is_Some (default_config today !! entry.1).
Proof.
  intros Hin. apply elem_of_dom. rewrite dom_default_config.
  apply elem_of_list_to_set, list_elem_of_fmap. by exists entry.
Qed.

Lemma validate_config_Ok (config : gmap string value) b :
  validate_config config = Ok b ->
  forall entry, entry ∈ validator -> ~ offending config entry.
Proof.
  rewrite validate_config_unfold.
  destruct (List.filter (mismatch config) validator) as [|e es] eqn:Hf;
    [|discriminate].
  intros _ entry Hin Hoff.
  assert (entry ∈ List.filter (mismatch config) validator) as Hmem
    by by apply elem_of_offenders.
  rewrite Hf in Hmem. by apply elem_of_nil in Hmem.
Qed.


Lemma init_config_validated parse load_settings today (a' : args date) config :
  init_config parse load_settings today a' = Ok config ->
  exists b, validate_config config = Ok b.
Proof.
  unfold init_config. intros Hok.
  apply and_then_Ok in Hok as (c0 & _ & Hok).
  apply and_then_Ok in Hok as (c2 & _ & Hok).
  apply and_then_Ok in Hok as (c4 & _ & Hok).
  apply and_then_Ok in Hok as (b & Hv & Hok). injection Hok as <-. eauto.
Qed.

Lemma parse_if_str_keeps_keys parse key (c c' : gmap string value) k :
  parse_if_str parse key c = Ok c' -> is_Some (c !! k) -> is_Some (c' !! k).
Proof.
  intros Hok Hk. apply parse_if_str_Ok in Hok as (Hother & v & v' & _ & Hv' & _).
  destruct (decide (k = key)) as [->|Hne]; [by rewrite Hv' | by rewrite Hother].
Qed.

Lemma insert_keeps_keys (c : gmap string value) key v k :
  is_Some (c !! k) -> is_Some (<[key := v]> c !! k).
Proof. intros Hk. apply lookup_insert_is_Some'. by right. Qed.

Lemma init_config_keeps_keys parse load_settings today (a' : args date) config k :
  init_config parse load_settings today a' = Ok config ->
  is_Some (default_config today !! k) -> is_Some (config !! k).
Proof.
  intros Hok Hk.
  apply init_config_Ok in Hok as (c0 & c2 & c4 & H0 & H2 & H4 & ->).
  assert (is_Some (c0 !! k)) as Hk0.
  { destruct (given (config_file_name a')).
    - destruct H0 as (settings & _ & ->). apply lookup_union_is_Some. by right.
    - by subst c0. }
  assert (is_Some (c2 !! k)) as Hk2.
  { apply (parse_if_str_keeps_keys _ _ _ _ _ H2).
    destruct (start_date a'); [by apply insert_keeps_keys | done]. }
  assert (is_Some (c4 !! k)) as Hk4.
  { apply (parse_if_str_keeps_keys _ _ _ _ _ H4).
    destruct (end_date a'); [by apply insert_keeps_keys | done]. }
  destruct (num_nodes a') as [n|]; [|done].
  destruct (n =? 0); [done | by apply insert_keeps_keys].
Qed.

(** X16: Whatever the settings file holds, a configuration that [init_config]
    returns has every validated key, with a value of the required type. *)
Theorem init_config_well_typed parse load_settings today (a' : args date) config :
  init_config parse load_settings today a' = Ok config ->
  well_typed config.
Proof.
  intros Hok entry Hin.
  destruct (init_config_keeps_keys _ _ _ _ _ entry.1 Hok
              (default_config_has_key today entry Hin)) as [v Hv].
  exists v. split; [done|].
  destruct (init_config_validated _ _ _ _ _ Hok) as [b Hb].
  destruct (isinstance v entry.2) eqn:Hty; [done|].
  destruct (validate_config_Ok _ _ Hb entry Hin). by exists v.
Qed.

Lemma init_config_well_typed_witness :
  match init_config sample_parse (fun _ => Ok sample_settings)
          (Date 2026 11 4) dated_args with
  | Ok config => well_typed config
  | _ => False
  end.
Proof.
  assert (returned (init_config sample_parse (fun _ => Ok sample_settings)
                      (Date 2026 11 4) dated_args) = true)
    as Hret by (vm_compute; reflexivity).
  destruct (init_config sample_parse (fun _ => Ok sample_settings)
              (Date 2026 11 4) dated_args) as [config| |] eqn:E;
    [|discriminate Hret..].
  exact (init_config_well_typed sample_parse (fun _ => Ok sample_settings)
           (Date 2026 11 4) dated_args config E).
Defined.

(** X17: Without a settings file, dates or a node count on the command line,
    [init_config] returns the defaults unchanged. *)
Theorem init_config_defaults parse load_settings today (a' : args date) :
  given (config_file_name a') = false ->
  start_date a' = None -> end_date a' = None ->
  (num_nodes a' = None \/ num_nodes a' = Some 0) ->
  init_config parse load_settings today a' = Ok (default_config today).
Proof.
  intros Hfile Hs He Hn. unfold init_config. rewrite Hfile, Hs, He.
  cbn [and_then]. unfold parse_if_str at 1. rewrite default_start_date.
  cbn [and_then]. unfold parse_if_str at 1. rewrite default_end_date.
  cbn [and_then].
  assert (match num_nodes a' with
          | Some n => if n =? 0 then default_config today
                      else <["max_nodes" := VInt n]> (default_config today)
          | None => default_config today
          end = default_config today) as ->.
  { by destruct Hn as [-> | ->]. }
  by rewrite validate_default_config.
Qed.

Lemma init_config_defaults_witness :
  init_config sample_parse (fun _ => Ok sample_settings) (Date 2026 11 4) plain_args
  = Ok (default_config (Date 2026 11 4)).
Proof.
  apply (init_config_defaults sample_parse (fun _ => Ok sample_settings)
           (Date 2026 11 4) plain_args); [reflexivity..|by left].
Defined.



(** ** Resource ids of a scripted run *)

Lemma build_data_resource_ids_witness :
  match build_data 4 scenario_settings false (Script.start scenario_words scenario_ints) with
  | Ok (data, _) =>
      forall node, node ∈ Dataset.nodes data ->
        number_str_ok (Config.max_resource_id_length scenario_settings)
          (Node.resource_id node)
  | _ => False
  end.
Proof.
  assert (returned (build_data 4 scenario_settings false
            (Script.start scenario_words scenario_ints)) = true) as Hret
    by (vm_compute; reflexivity).
  destruct (build_data 4 scenario_settings false _) as [[data w']| |] eqn:E;
    [|discriminate Hret..].
  assert (1 <= Config.max_resource_id_length scenario_settings) as HL
    by (vm_compute; discriminate).
  exact (build_data_resource_ids 4 scenario_settings false _ _ _ HL E).
Defined.

Lemma build_data_resource_ids_unique_witness :
  match build_data 4 scenario_settings false (Script.start scenario_words scenario_ints) with
  | Ok (data, w') =>
      NoDup (resource_ids data) /\
      (forall s, s ∈ resource_ids data ->
         s ∉ seen_resource_ids (Script.start scenario_words scenario_ints)) /\
      seen_resource_ids w' =
        list_to_set (resource_ids data)
        ∪ seen_resource_ids (Script.start scenario_words scenario_ints)
  | _ => False
  end.
Proof.
  assert (returned (build_data 4 scenario_settings false
            (Script.start scenario_words scenario_ints)) = true) as Hret
    by (vm_compute; reflexivity).
  destruct (build_data 4 scenario_settings false _) as [[data w']| |] eqn:E;
    [|discriminate Hret..].
  assert (1 <= Config.max_resource_id_length scenario_settings) as HL
    by (vm_compute; discriminate).
  exact (build_data_resource_ids_unique 4 scenario_settings false _ _ _ HL E).
Defined.
